(** * chan_lantiq: a shallow embedding of the Lantiq TAPI channel driver

    This development embeds the call-control core of
    [src/channels/chan_lantiq.c] in Rocq and proves properties of the
    per-port line state machine, the digit collector, the outbound RTP
    packetizer and the module load (configuration, port table, channel
    devices).

    Modelling conventions.
    - C [int] values are integers of type [Z]; every arithmetic result that
      the C code stores in an [int] goes through [to_int] (two's complement
      wrap-around on 32 bits), [uint16_t] and [uint32_t] through
      [to_uint16] and [to_uint32].  Integer division is C's truncating
      division [Z.quot]; dividing by zero crashes.
    - The port table [iflist] is a list indexed by port number; a pointer
      [struct lantiq_pvt *] is the index of the entry it points to.
    - Channels ([struct ast_channel]) live in a heap [chans], a finite map
      from channel pointers to channel objects.
    - Every driver function is a computation in the monad [M]: it takes the
      current [world], and either crashes (undefined behaviour in C: a NULL
      or out-of-bounds dereference, a copy past the end of a buffer, a
      division by zero) or returns a value,
      the new world and the list of outward actions it performed (ioctls,
      LED writes, calls into the Asterisk core, media writes), in order.
    - Results of calls that leave the driver (ioctl return codes, dialplan
      lookups, channel allocation, clocks, media writes) are read from an
      environment record [env].
    - The locks [iflock] and [monlock] serialise the entry points; each entry
      point is modelled as one atomic computation.  Log calls have no effect
      on the driver's state and are left out.
    - [AST_MAX_EXTENSION], the size of the digit buffer, comes from the
      Asterisk headers; it is a parameter [AST_MAX_EXTENSION] of the model. *)

From Stdlib Require Import ZArith Lia String Ascii List.
From stdpp Require Import base tactics option list gmap strings pretty.

Local Open Scope Z_scope.

(** ** Machine integers *)

Definition wrap_signed (bits x : Z) : Z :=
  (x + 2 ^ (bits - 1)) mod 2 ^ bits - 2 ^ (bits - 1).

(** [int]: 32 bits. *)
Definition to_int (x : Z) : Z := wrap_signed 32 x.
(** [long] and [ptrdiff_t]: 32 bits on the MIPS32 SoCs this driver runs on. *)
Definition to_long (x : Z) : Z := wrap_signed 32 x.
Definition to_uint16 (x : Z) : Z := x mod 2 ^ 16.
Definition to_uint32 (x : Z) : Z := x mod 2 ^ 32.

(** C's [!x] and [a == b] on integers, and the truth value of an integer. *)
Definition c_lnot (x : Z) : Z := if x =? 0 then 1 else 0.
Definition c_eq (a b : Z) : Z := if a =? b then 1 else 0.
Definition c_true (x : Z) : bool := negb (x =? 0).

(** ** Constants of chan_lantiq.c *)

Definition TAPI_AUDIO_PORT_NUM_MAX : Z := 2.
Definition TAPI_TONE_LOCALE_NONE : Z := 0.
Definition TAPI_TONE_LOCALE_RINGING_CODE : Z := 26.
Definition TAPI_TONE_LOCALE_BUSY_CODE : Z := 27.
Definition TAPI_TONE_LOCALE_CONGESTION_CODE : Z := 27.
Definition TAPI_TONE_LOCALE_DIAL_CODE : Z := 25.
Definition DEFAULT_INTERDIGIT_TIMEOUT : Z := 2000.
Definition LED_SLOW_BLINK : Z := 1000.
Definition LED_FAST_BLINK : Z := 100.

Definition RTP_HEADER_LEN : Z := 12.
Definition RTP_BUFFER_LEN : Z := 512.
Definition RTP_PCMU : Z := 0.
Definition RTP_G723_63 : Z := 4.
Definition RTP_PCMA : Z := 8.
Definition RTP_G722 : Z := 9.
Definition RTP_CN : Z := 13.
Definition RTP_G729 : Z := 18.
Definition RTP_G7221 : Z := 100.
Definition RTP_G726 : Z := 101.
Definition RTP_ILBC : Z := 102.
Definition RTP_SLIN8 : Z := 103.
Definition RTP_SLIN16 : Z := 104.
Definition RTP_SIREN7 : Z := 105.
Definition RTP_G723_53 : Z := 106.

(** [ioctl] success code of the TAPI driver, and the capacity of a string
    element of a caller id message (drv_tapi_io.h). *)
Definition IFX_SUCCESS : Z := 0.
Definition IFX_TAPI_CID_MSG_LEN_MAX : Z := 50.

(** ** Enumerations *)

(** [enum channel_state]; the constructors are in declaration order, so
    [ONHOOK] has the value 0. *)
Inductive enum_channel_state :=
  | ONHOOK | OFFHOOK | DIALING | INCALL | CALL_ENDED | RINGING | UNKNOWN.

Definition state_code (s : enum_channel_state) : Z :=
  match s with
  | ONHOOK => 0 | OFFHOOK => 1 | DIALING => 2 | INCALL => 3
  | CALL_ENDED => 4 | RINGING => 5 | UNKNOWN => 6
  end.

#[global] Instance enum_channel_state_eq_dec : EqDecision enum_channel_state.
Proof. solve_decision. Defined.

(** Enumerations and constants of the Asterisk and TAPI headers, which are
    not part of this repository: only the names the driver uses, plus a
    catch-all.  The driver relies on nothing but their being distinct. *)
Inductive ast_state :=
  | AST_STATE_DOWN | AST_STATE_RING | AST_STATE_RINGING | AST_STATE_UP
  | AST_STATE_BUSY | AST_STATE_other (n : nat).

Inductive ast_control :=
  | AST_CONTROL_STOP_TONE (* condition -1 *)
  | AST_CONTROL_RINGING | AST_CONTROL_ANSWER | AST_CONTROL_BUSY
  | AST_CONTROL_CONGESTION | AST_CONTROL_PROGRESS
  | AST_CONTROL_other (n : nat).

Inductive ast_device_state :=
  | AST_DEVICE_UNKNOWN | AST_DEVICE_NOT_INUSE | AST_DEVICE_INUSE
  | AST_DEVICE_INVALID | AST_DEVICE_RINGING.

Inductive ast_cause := AST_CAUSE_CHANNEL_UNACCEPTABLE.

Inductive ast_frame_type := AST_FRAME_VOICE | AST_FRAME_DTMF | AST_FRAME_other (n : nat).

(** [format_t]: a codec code; [FORMAT_ZERO] is the value 0. *)
Inductive format_t :=
  | FORMAT_ZERO
  | AST_FORMAT_G723_1 | AST_FORMAT_G729A | AST_FORMAT_ULAW | AST_FORMAT_ALAW
  | AST_FORMAT_G726 | AST_FORMAT_ILBC | AST_FORMAT_SLINEAR
  | AST_FORMAT_SLINEAR16 | AST_FORMAT_G722 | AST_FORMAT_SIREN7
  | AST_FORMAT_other (n : nat).

#[global] Instance format_t_eq_dec : EqDecision format_t.
Proof. solve_decision. Defined.

Inductive IFX_TAPI_COD_TYPE :=
  | IFX_TAPI_COD_TYPE_G723_63 | IFX_TAPI_COD_TYPE_G729 | IFX_TAPI_COD_TYPE_MLAW
  | IFX_TAPI_COD_TYPE_ALAW | IFX_TAPI_COD_TYPE_G726_32
  | IFX_TAPI_COD_TYPE_ILBC_133 | IFX_TAPI_COD_TYPE_LIN16_8
  | IFX_TAPI_COD_TYPE_LIN16_16 | IFX_TAPI_COD_TYPE_G722_64
  | IFX_TAPI_COD_TYPE_G7221_32.

Inductive IFX_TAPI_COD_LENGTH :=
  | IFX_TAPI_COD_LENGTH_10 | IFX_TAPI_COD_LENGTH_20 | IFX_TAPI_COD_LENGTH_30.

Inductive IFX_TAPI_LINE_FEED :=
  | IFX_TAPI_LINE_FEED_ACTIVE | IFX_TAPI_LINE_FEED_STANDBY.

Record IFX_TAPI_JB_STATISTICS_t := {
  nBufSize : Z; nIsUnderflow : Z; nDsOverflow : Z; nPODelay : Z; nInvalid : Z
}.

#[global] Instance ast_state_eq_dec : EqDecision ast_state.
Proof. solve_decision. Defined.
#[global] Instance ast_control_eq_dec : EqDecision ast_control.
Proof. solve_decision. Defined.
#[global] Instance IFX_TAPI_COD_TYPE_eq_dec : EqDecision IFX_TAPI_COD_TYPE.
Proof. solve_decision. Defined.
#[global] Instance IFX_TAPI_COD_LENGTH_eq_dec : EqDecision IFX_TAPI_COD_LENGTH.
Proof. solve_decision. Defined.
#[global] Instance IFX_TAPI_LINE_FEED_eq_dec : EqDecision IFX_TAPI_LINE_FEED.
Proof. solve_decision. Defined.

(** ** Data model *)

(** [struct lantiq_pvt].  [owner] is a channel pointer or NULL; [dtmfbuf]
    holds the C string stored in the array [char dtmfbuf[AST_MAX_EXTENSION]]. *)
Record lantiq_pvt := {
  owner : option nat;
  port_id : Z;
  channel_state : enum_channel_state;
  context : string;
  dial_timer : Z;
  dtmfbuf : string;
  dtmfbuf_len : Z;
  rtp_timestamp : Z;
  ptime : Z;
  rtp_payload : Z;
  codec : format_t;
  rtp_seqno : Z;
  call_setup_start : Z;
  call_setup_delay : Z;
  call_start : Z;
  call_answer : Z;
  jb_size : Z;
  jb_underflow : Z;
  jb_overflow : Z;
  jb_delay : Z;
  jb_invalid : Z
}.

(** Field assignments [pvt->f = v]. *)
Definition set_owner v (p : lantiq_pvt) : lantiq_pvt :=
  Build_lantiq_pvt
    v (port_id p) (channel_state p) (context p) (dial_timer p) (dtmfbuf p)
    (dtmfbuf_len p) (rtp_timestamp p) (ptime p) (rtp_payload p) (codec p)
    (rtp_seqno p) (call_setup_start p) (call_setup_delay p) (call_start p)
    (call_answer p) (jb_size p) (jb_underflow p) (jb_overflow p) (jb_delay p)
    (jb_invalid p).

Definition set_channel_state v (p : lantiq_pvt) : lantiq_pvt :=
  Build_lantiq_pvt
    (owner p) (port_id p) v (context p) (dial_timer p) (dtmfbuf p)
    (dtmfbuf_len p) (rtp_timestamp p) (ptime p) (rtp_payload p) (codec p)
    (rtp_seqno p) (call_setup_start p) (call_setup_delay p) (call_start p)
    (call_answer p) (jb_size p) (jb_underflow p) (jb_overflow p) (jb_delay p)
    (jb_invalid p).

Definition set_dial_timer v (p : lantiq_pvt) : lantiq_pvt :=
  Build_lantiq_pvt
    (owner p) (port_id p) (channel_state p) (context p) v (dtmfbuf p)
    (dtmfbuf_len p) (rtp_timestamp p) (ptime p) (rtp_payload p) (codec p)
    (rtp_seqno p) (call_setup_start p) (call_setup_delay p) (call_start p)
    (call_answer p) (jb_size p) (jb_underflow p) (jb_overflow p) (jb_delay p)
    (jb_invalid p).

Definition set_dtmfbuf v (p : lantiq_pvt) : lantiq_pvt :=
  Build_lantiq_pvt
    (owner p) (port_id p) (channel_state p) (context p) (dial_timer p) v
    (dtmfbuf_len p) (rtp_timestamp p) (ptime p) (rtp_payload p) (codec p)
    (rtp_seqno p) (call_setup_start p) (call_setup_delay p) (call_start p)
    (call_answer p) (jb_size p) (jb_underflow p) (jb_overflow p) (jb_delay p)
    (jb_invalid p).

Definition set_dtmfbuf_len v (p : lantiq_pvt) : lantiq_pvt :=
  Build_lantiq_pvt
    (owner p) (port_id p) (channel_state p) (context p) (dial_timer p)
    (dtmfbuf p) v (rtp_timestamp p) (ptime p) (rtp_payload p) (codec p)
    (rtp_seqno p) (call_setup_start p) (call_setup_delay p) (call_start p)
    (call_answer p) (jb_size p) (jb_underflow p) (jb_overflow p) (jb_delay p)
    (jb_invalid p).

Definition set_rtp_timestamp v (p : lantiq_pvt) : lantiq_pvt :=
  Build_lantiq_pvt
    (owner p) (port_id p) (channel_state p) (context p) (dial_timer p)
    (dtmfbuf p) (dtmfbuf_len p) v (ptime p) (rtp_payload p) (codec p)
    (rtp_seqno p) (call_setup_start p) (call_setup_delay p) (call_start p)
    (call_answer p) (jb_size p) (jb_underflow p) (jb_overflow p) (jb_delay p)
    (jb_invalid p).

Definition set_ptime v (p : lantiq_pvt) : lantiq_pvt :=
  Build_lantiq_pvt
    (owner p) (port_id p) (channel_state p) (context p) (dial_timer p)
    (dtmfbuf p) (dtmfbuf_len p) (rtp_timestamp p) v (rtp_payload p) (codec p)
    (rtp_seqno p) (call_setup_start p) (call_setup_delay p) (call_start p)
    (call_answer p) (jb_size p) (jb_underflow p) (jb_overflow p) (jb_delay p)
    (jb_invalid p).

Definition set_rtp_payload v (p : lantiq_pvt) : lantiq_pvt :=
  Build_lantiq_pvt
    (owner p) (port_id p) (channel_state p) (context p) (dial_timer p)
    (dtmfbuf p) (dtmfbuf_len p) (rtp_timestamp p) (ptime p) v (codec p)
    (rtp_seqno p) (call_setup_start p) (call_setup_delay p) (call_start p)
    (call_answer p) (jb_size p) (jb_underflow p) (jb_overflow p) (jb_delay p)
    (jb_invalid p).

Definition set_codec v (p : lantiq_pvt) : lantiq_pvt :=
  Build_lantiq_pvt
    (owner p) (port_id p) (channel_state p) (context p) (dial_timer p)
    (dtmfbuf p) (dtmfbuf_len p) (rtp_timestamp p) (ptime p) (rtp_payload p) v
    (rtp_seqno p) (call_setup_start p) (call_setup_delay p) (call_start p)
    (call_answer p) (jb_size p) (jb_underflow p) (jb_overflow p) (jb_delay p)
    (jb_invalid p).

Definition set_rtp_seqno v (p : lantiq_pvt) : lantiq_pvt :=
  Build_lantiq_pvt
    (owner p) (port_id p) (channel_state p) (context p) (dial_timer p)
    (dtmfbuf p) (dtmfbuf_len p) (rtp_timestamp p) (ptime p) (rtp_payload p)
    (codec p) v (call_setup_start p) (call_setup_delay p) (call_start p)
    (call_answer p) (jb_size p) (jb_underflow p) (jb_overflow p) (jb_delay p)
    (jb_invalid p).

Definition set_call_setup_start v (p : lantiq_pvt) : lantiq_pvt :=
  Build_lantiq_pvt
    (owner p) (port_id p) (channel_state p) (context p) (dial_timer p)
    (dtmfbuf p) (dtmfbuf_len p) (rtp_timestamp p) (ptime p) (rtp_payload p)
    (codec p) (rtp_seqno p) v (call_setup_delay p) (call_start p) (call_answer
    p) (jb_size p) (jb_underflow p) (jb_overflow p) (jb_delay p) (jb_invalid
    p).

Definition set_call_setup_delay v (p : lantiq_pvt) : lantiq_pvt :=
  Build_lantiq_pvt
    (owner p) (port_id p) (channel_state p) (context p) (dial_timer p)
    (dtmfbuf p) (dtmfbuf_len p) (rtp_timestamp p) (ptime p) (rtp_payload p)
    (codec p) (rtp_seqno p) (call_setup_start p) v (call_start p) (call_answer
    p) (jb_size p) (jb_underflow p) (jb_overflow p) (jb_delay p) (jb_invalid
    p).

Definition set_call_start v (p : lantiq_pvt) : lantiq_pvt :=
  Build_lantiq_pvt
    (owner p) (port_id p) (channel_state p) (context p) (dial_timer p)
    (dtmfbuf p) (dtmfbuf_len p) (rtp_timestamp p) (ptime p) (rtp_payload p)
    (codec p) (rtp_seqno p) (call_setup_start p) (call_setup_delay p) v
    (call_answer p) (jb_size p) (jb_underflow p) (jb_overflow p) (jb_delay p)
    (jb_invalid p).

Definition set_call_answer v (p : lantiq_pvt) : lantiq_pvt :=
  Build_lantiq_pvt
    (owner p) (port_id p) (channel_state p) (context p) (dial_timer p)
    (dtmfbuf p) (dtmfbuf_len p) (rtp_timestamp p) (ptime p) (rtp_payload p)
    (codec p) (rtp_seqno p) (call_setup_start p) (call_setup_delay p)
    (call_start p) v (jb_size p) (jb_underflow p) (jb_overflow p) (jb_delay p)
    (jb_invalid p).

Definition set_jb_size v (p : lantiq_pvt) : lantiq_pvt :=
  Build_lantiq_pvt
    (owner p) (port_id p) (channel_state p) (context p) (dial_timer p)
    (dtmfbuf p) (dtmfbuf_len p) (rtp_timestamp p) (ptime p) (rtp_payload p)
    (codec p) (rtp_seqno p) (call_setup_start p) (call_setup_delay p)
    (call_start p) (call_answer p) v (jb_underflow p) (jb_overflow p)
    (jb_delay p) (jb_invalid p).

Definition set_jb_underflow v (p : lantiq_pvt) : lantiq_pvt :=
  Build_lantiq_pvt
    (owner p) (port_id p) (channel_state p) (context p) (dial_timer p)
    (dtmfbuf p) (dtmfbuf_len p) (rtp_timestamp p) (ptime p) (rtp_payload p)
    (codec p) (rtp_seqno p) (call_setup_start p) (call_setup_delay p)
    (call_start p) (call_answer p) (jb_size p) v (jb_overflow p) (jb_delay p)
    (jb_invalid p).

Definition set_jb_overflow v (p : lantiq_pvt) : lantiq_pvt :=
  Build_lantiq_pvt
    (owner p) (port_id p) (channel_state p) (context p) (dial_timer p)
    (dtmfbuf p) (dtmfbuf_len p) (rtp_timestamp p) (ptime p) (rtp_payload p)
    (codec p) (rtp_seqno p) (call_setup_start p) (call_setup_delay p)
    (call_start p) (call_answer p) (jb_size p) (jb_underflow p) v (jb_delay p)
    (jb_invalid p).

Definition set_jb_delay v (p : lantiq_pvt) : lantiq_pvt :=
  Build_lantiq_pvt
    (owner p) (port_id p) (channel_state p) (context p) (dial_timer p)
    (dtmfbuf p) (dtmfbuf_len p) (rtp_timestamp p) (ptime p) (rtp_payload p)
    (codec p) (rtp_seqno p) (call_setup_start p) (call_setup_delay p)
    (call_start p) (call_answer p) (jb_size p) (jb_underflow p) (jb_overflow
    p) v (jb_invalid p).

Definition set_jb_invalid v (p : lantiq_pvt) : lantiq_pvt :=
  Build_lantiq_pvt
    (owner p) (port_id p) (channel_state p) (context p) (dial_timer p)
    (dtmfbuf p) (dtmfbuf_len p) (rtp_timestamp p) (ptime p) (rtp_payload p)
    (codec p) (rtp_seqno p) (call_setup_start p) (call_setup_delay p)
    (call_start p) (call_answer p) (jb_size p) (jb_underflow p) (jb_overflow
    p) (jb_delay p) v.

(** [struct lantiq_ctx], the fields the call-control core reads. *)
Record lantiq_ctx := {
  channels : Z;
  interdigit_timeout : Z
}.

(** [struct ast_party_name] / [struct ast_party_number]: the string, which
    may be NULL, and its validity flag. *)
Record ast_party := { valid : bool; str : option string }.

(** The fields of [struct ast_channel] the driver touches. *)
Record ast_channel := {
  _state : ast_state;
  tech_pvt : option Z;
  writeformat : format_t;
  connected_id_number : ast_party;
  connected_id_name : ast_party
}.

Definition set__state v (ch : ast_channel) : ast_channel :=
  Build_ast_channel v (tech_pvt ch) (writeformat ch)
    (connected_id_number ch) (connected_id_name ch).
Definition set_tech_pvt v (ch : ast_channel) : ast_channel :=
  Build_ast_channel (_state ch) v (writeformat ch)
    (connected_id_number ch) (connected_id_name ch).

(** [struct ast_frame], the fields [ast_lantiq_write] reads.  The payload
    [data.ptr] is addressed by offsets from its start. *)
Record ast_frame := {
  frametype : ast_frame_type;
  subclass_codec : format_t;
  datalen : Z;
  samples : Z;
  len : Z
}.

(** [rtp_header_t]. *)
Record rtp_header_t := {
  version : Z; padding : Z; extension : Z; csrc_count : Z;
  marker : Z; payload_type : Z;
  seqno : Z; timestamp : Z; ssrc : Z
}.

Definition set_seqno v (h : rtp_header_t) : rtp_header_t :=
  Build_rtp_header_t (version h) (padding h) (extension h) (csrc_count h)
    (marker h) (payload_type h) v (timestamp h) (ssrc h).
Definition set_timestamp v (h : rtp_header_t) : rtp_header_t :=
  Build_rtp_header_t (version h) (padding h) (extension h) (csrc_count h)
    (marker h) (payload_type h) (seqno h) v (ssrc h).

(** ** Outward actions *)

Inductive tapi_ioctl :=
  | IFX_TAPI_RING_START
  | IFX_TAPI_RING_STOP
  | IFX_TAPI_CID_TX_SEQ_START (cid name : string)
  | IFX_TAPI_TONE_LOCAL_PLAY (t : Z)
  | IFX_TAPI_LINE_HOOK_STATUS_GET
  | IFX_TAPI_LINE_FEED_SET (mode : IFX_TAPI_LINE_FEED)
  | IFX_TAPI_ENC_CFG_SET (nEncType : IFX_TAPI_COD_TYPE) (nFrameLen : IFX_TAPI_COD_LENGTH)
  | IFX_TAPI_ENC_START | IFX_TAPI_ENC_STOP
  | IFX_TAPI_DEC_START | IFX_TAPI_DEC_STOP
  | IFX_TAPI_JB_STATISTICS_GET.

Inductive led_cmd := LedOn | LedOff | LedBlink (period : Z).

#[global] Instance rtp_header_t_eq_dec : EqDecision rtp_header_t.
Proof. solve_decision. Defined.
#[global] Instance tapi_ioctl_eq_dec : EqDecision tapi_ioctl.
Proof. solve_decision. Defined.
#[global] Instance led_cmd_eq_dec : EqDecision led_cmd.
Proof. solve_decision. Defined.

Inductive action :=
  | Ioctl (c : Z) (req : tapi_ioctl)          (* ioctl(dev_ctx.ch_fd[c], req, ...) *)
  | Led (c : Z) (cmd : led_cmd)               (* led_on/led_off/led_blink(dev_ctx.ch_led[c]) *)
  | Write (c : Z) (hdr : rtp_header_t) (head length : Z)
      (* write(dev_ctx.ch_fd[c], buf, RTP_HEADER_LEN + length): the header and
         [length] payload bytes copied from offset [head] of the frame *)
  | AstSetstate (chan : nat) (st : ast_state)
  | AstQueueControl (chan : nat) (ctl : ast_control)
  | AstQueueHangup (chan : nat)
  | AstQueueFrameDtmf (chan : nat) (digit : ascii)
  | AstHangup (chan : nat)
  | AstChannelAlloc (chan : nat) (st : ast_state) (ext ctx : option string) (c : Z)
  | AstPbxStart (chan : nat)
  | AstModuleUnref
  | AstSchedDel (id : Z)
  | AstSchedAdd (when : Z) (pvt : Z)
  | AstSchedReplace (id : Z) (when : Z) (pvt : Z).

#[global] Instance action_eq_dec : EqDecision action.
Proof. solve_decision. Defined.

(** ** Environment: results of the calls that leave the driver *)

Record env := {
  ioctl_ret : Z -> tapi_ioctl -> Z;
  jb_statistics : Z -> IFX_TAPI_JB_STATISTICS_t;
  ast_exists_extension : string -> string -> bool;   (* context, extension *)
  ast_channel_alloc_ok : bool;
  ast_pbx_start_ret : Z;
  ast_queue_frame_ret : Z;
  ast_sched_add_ret : Z;
  now : Z;
  epoch : Z;
  write_ret : nat -> Z   (* result of the n-th write of one ast_lantiq_write call *)
}.

(** ** The world and the monad of driver computations *)

Record world := {
  iflist : list lantiq_pvt;
  dev_ctx : lantiq_ctx;
  chans : gmap nat ast_channel;
  next_chan : nat   (* allocator: the next fresh channel pointer *)
}.

Definition set_iflist v (w : world) : world :=
  Build_world v (dev_ctx w) (chans w) (next_chan w).
Definition set_chans v (w : world) : world :=
  Build_world (iflist w) (dev_ctx w) v (next_chan w).
Definition set_next_chan v (w : world) : world :=
  Build_world (iflist w) (dev_ctx w) (chans w) v.

Definition M (A : Type) : Type := world -> option (A * world * list action).

Definition ret {A} (a : A) : M A := fun w => Some (a, w, []).

Definition bind {A B} (m : M A) (k : A -> M B) : M B := fun w =>
  match m w with
  | None => None
  | Some (a, w1, t1) =>
      match k a w1 with
      | None => None
      | Some (b, w2, t2) => Some (b, w2, t1 ++ t2)
      end
  end.

Notation "x <- m ;; k" := (bind m (fun x => k))
  (at level 100, m at next level, right associativity).
Notation "m ;; k" := (bind m (fun _ => k))
  (at level 100, right associativity).

Definition crash {A} : M A := fun _ => None.
Definition emit (a : action) : M unit := fun w => Some (tt, w, [a]).
Definition get_world : M world := fun w => Some (w, w, []).

(** [iflist[c]] for an [int c]. *)
Definition pvt_lookup (l : list lantiq_pvt) (c : Z) : option lantiq_pvt :=
  if c <? 0 then None else l !! Z.to_nat c.

Definition load_pvt (c : Z) : M lantiq_pvt := fun w =>
  match pvt_lookup (iflist w) c with
  | Some p => Some (p, w, [])
  | None => None
  end.

(** A field assignment through a pointer to [iflist[c]]. *)
Definition upd_pvt (c : Z) (f : lantiq_pvt -> lantiq_pvt) : M unit := fun w =>
  match pvt_lookup (iflist w) c with
  | Some p => Some (tt, set_iflist (<[Z.to_nat c := f p]> (iflist w)) w, [])
  | None => None
  end.

Definition load_chan (ch : nat) : M ast_channel := fun w =>
  match chans w !! ch with
  | Some c => Some (c, w, [])
  | None => None
  end.

Definition upd_chan (ch : nat) (f : ast_channel -> ast_channel) : M unit := fun w =>
  match chans w !! ch with
  | Some c => Some (tt, set_chans (<[ch := f c]> (chans w)) w, [])
  | None => None
  end.

Definition alloc_chan (c : ast_channel) : M nat := fun w =>
  Some (next_chan w,
        set_next_chan (S (next_chan w)) (set_chans (<[next_chan w := c]> (chans w)) w),
        []).

Definition free_chan (ch : nat) : M unit := fun w =>
  Some (tt, set_chans (delete ch (chans w)) w, []).

Definition deref_pvt (p : option Z) : M Z :=
  match p with
  | Some c => ret c
  | None => crash   (* dereference of a NULL tech_pvt *)
  end.

(** C's integer division on [int]; division by zero crashes. *)
Definition c_div (a b : Z) : M Z :=
  if b =? 0 then crash else ret (to_int (a ÷ b)).

(** libc's [atoi]: leading white space, an optional sign, decimal digits. *)
Definition is_space (a : ascii) : bool :=
  let n := Z.of_nat (nat_of_ascii a) in (n =? 32) || ((9 <=? n) && (n <=? 13)).

Definition digit_val (a : ascii) : option Z :=
  let n := Z.of_nat (nat_of_ascii a) in
  if (48 <=? n) && (n <=? 57) then Some (n - 48) else None.

Fixpoint atoi_digits (s : string) (acc : Z) : Z :=
  match s with
  | String a s' =>
      match digit_val a with
      | Some d => atoi_digits s' (10 * acc + d)
      | None => acc
      end
  | EmptyString => acc
  end.

Fixpoint atoi_skip (s : string) : string :=
  match s with
  | String a s' => if is_space a then atoi_skip s' else s
  | EmptyString => s
  end.

Definition atoi (s : string) : Z :=
  match atoi_skip s with
  | String "-" s' => to_int (- atoi_digits s' 0)
  | String "+" s' => to_int (atoi_digits s' 0)
  | s' => to_int (atoi_digits s' 0)
  end.

(** ** The driver *)

Section Driver.

Variable E : env.

(** [AST_MAX_EXTENSION] comes from the Asterisk headers, which are not part
    of this repository: it is a parameter of the model. *)
Variable AST_MAX_EXTENSION : Z.

Definition ioctl (c : Z) (req : tapi_ioctl) : M Z :=
  emit (Ioctl c req);; ret (ioctl_ret E c req).

(** *** Calls into the Asterisk core *)

Definition ast_setstate (chan : nat) (st : ast_state) : M unit :=
  emit (AstSetstate chan st);; upd_chan chan (set__state st).

Definition ast_queue_control (chan : nat) (ctl : ast_control) : M unit :=
  load_chan chan;; emit (AstQueueControl chan ctl).

Definition ast_queue_hangup (chan : nat) : M unit :=
  load_chan chan;; emit (AstQueueHangup chan).

Definition ast_queue_frame_dtmf (chan : nat) (digit : ascii) : M Z :=
  load_chan chan;; emit (AstQueueFrameDtmf chan digit);; ret (ast_queue_frame_ret E).

Definition ast_channel_alloc (st : ast_state) (ext ctx : option string) (c : Z)
  : M (option nat) :=
  if ast_channel_alloc_ok E then
    chan <- alloc_chan {| _state := st; tech_pvt := None; writeformat := FORMAT_ZERO;
                          connected_id_number := {| valid := false; str := None |};
                          connected_id_name := {| valid := false; str := None |} |};;
    emit (AstChannelAlloc chan st ext ctx c);;
    ret (Some chan)
  else ret None.

Definition ast_pbx_start (chan : nat) : M Z :=
  load_chan chan;; emit (AstPbxStart chan);; ret (ast_pbx_start_ret E).

(** *** LEDs *)

Definition led_on (c : Z) : M unit := emit (Led c LedOn).
Definition led_off (c : Z) : M unit := emit (Led c LedOff).
Definition led_blink (c : Z) (period : Z) : M unit := emit (Led c (LedBlink period)).

(** *** Hardware helpers *)

(** A string element of the caller id message: [string.len] is [strlen] of
    the source capped at IFX_TAPI_CID_MSG_LEN_MAX, and [strncpy] copies at
    most that many characters. *)
Definition cid_element (s : string) : string :=
  substring 0 (Z.to_nat IFX_TAPI_CID_MSG_LEN_MAX) s.

Definition lantiq_ring (c r : Z) (cid name : option string) : M unit :=
  if c_true r then
    led_blink c LED_FAST_BLINK;;
    match cid with
    | None => ioctl c IFX_TAPI_RING_START;; ret tt
    | Some cid' =>
        match name with
        | None => crash   (* strlen(name) with name == NULL *)
        | Some name' =>
            ioctl c (IFX_TAPI_CID_TX_SEQ_START (cid_element cid') (cid_element name'));;
            ret tt
        end
    end
  else
    ioctl c IFX_TAPI_RING_STOP;;
    led_off c.

Definition lantiq_play_tone (c t : Z) : M Z :=
  (if negb (t =? TAPI_TONE_LOCALE_NONE)
   then ioctl c (IFX_TAPI_TONE_LOCAL_PLAY TAPI_TONE_LOCALE_NONE);; ret tt
   else ret tt);;
  r <- ioctl c (IFX_TAPI_TONE_LOCAL_PLAY t);;
  if c_true r then ret (-1) else ret 0.

Definition lantiq_jb_get_stats (c : Z) : M unit :=
  r <- ioctl c IFX_TAPI_JB_STATISTICS_GET;;
  if negb (r =? IFX_SUCCESS) then ret tt
  else
    let param := jb_statistics E c in
    upd_pvt c (set_jb_size (nBufSize param));;
    upd_pvt c (set_jb_underflow (nIsUnderflow param));;
    upd_pvt c (set_jb_overflow (nDsOverflow param));;
    upd_pvt c (set_jb_invalid (nInvalid param));;
    upd_pvt c (set_jb_delay (nPODelay param)).

(** The [switch] of [lantiq_conf_enc]: encoder type, frame length, [ptime]
    and RTP payload code of a format ([G723_HIGH_RATE] is defined). *)
Definition conf_enc_case (formatid : format_t)
  : option (IFX_TAPI_COD_TYPE * IFX_TAPI_COD_LENGTH * Z * Z) :=
  match formatid with
  | AST_FORMAT_G723_1 => Some (IFX_TAPI_COD_TYPE_G723_63, IFX_TAPI_COD_LENGTH_30, 30, RTP_G723_63)
  | AST_FORMAT_G729A => Some (IFX_TAPI_COD_TYPE_G729, IFX_TAPI_COD_LENGTH_20, 10, RTP_G729)
  | AST_FORMAT_ULAW => Some (IFX_TAPI_COD_TYPE_MLAW, IFX_TAPI_COD_LENGTH_20, 10, RTP_PCMU)
  | AST_FORMAT_ALAW => Some (IFX_TAPI_COD_TYPE_ALAW, IFX_TAPI_COD_LENGTH_20, 10, RTP_PCMA)
  | AST_FORMAT_G726 => Some (IFX_TAPI_COD_TYPE_G726_32, IFX_TAPI_COD_LENGTH_20, 10, RTP_G726)
  | AST_FORMAT_ILBC => Some (IFX_TAPI_COD_TYPE_ILBC_133, IFX_TAPI_COD_LENGTH_30, 30, RTP_ILBC)
  | AST_FORMAT_SLINEAR => Some (IFX_TAPI_COD_TYPE_LIN16_8, IFX_TAPI_COD_LENGTH_20, 10, RTP_SLIN8)
  | AST_FORMAT_SLINEAR16 => Some (IFX_TAPI_COD_TYPE_LIN16_16, IFX_TAPI_COD_LENGTH_10, 10, RTP_SLIN16)
  | AST_FORMAT_G722 => Some (IFX_TAPI_COD_TYPE_G722_64, IFX_TAPI_COD_LENGTH_20, 20, RTP_G722)
  | AST_FORMAT_SIREN7 => Some (IFX_TAPI_COD_TYPE_G7221_32, IFX_TAPI_COD_LENGTH_20, 20, RTP_SIREN7)
  | _ => None
  end.

Definition lantiq_conf_enc (c : Z) (formatid : format_t) : M Z :=
  match conf_enc_case formatid with
  | None => ret (-1)
  | Some (nEncType, nFrameLen, pt, payload) =>
      upd_pvt c (set_ptime pt);;
      upd_pvt c (set_rtp_payload payload);;
      upd_pvt c (set_codec formatid);;
      ioctl c (IFX_TAPI_ENC_CFG_SET nEncType nFrameLen);;
      ioctl c IFX_TAPI_ENC_START;;
      ioctl c IFX_TAPI_DEC_START;;
      ret 0
  end.

Definition lantiq_standby (c : Z) : M Z :=
  r <- ioctl c (IFX_TAPI_LINE_FEED_SET IFX_TAPI_LINE_FEED_STANDBY);;
  if c_true r then ret (-1) else
  r <- ioctl c IFX_TAPI_ENC_STOP;;
  if c_true r then ret (-1) else
  r <- ioctl c IFX_TAPI_DEC_STOP;;
  if c_true r then ret (-1) else
  lantiq_play_tone c TAPI_TONE_LOCALE_NONE.

Definition lantiq_reset_dtmfbuf (pvt : Z) : M unit :=
  upd_pvt pvt (set_dtmfbuf EmptyString);;
  upd_pvt pvt (set_dtmfbuf_len 0).

(** *** Channel technology callbacks *)

Definition ast_lantiq_indicate (chan : nat) (condition : ast_control) : M Z :=
  ch <- load_chan chan;;
  match condition with
  | AST_CONTROL_STOP_TONE =>
      pvt <- deref_pvt (tech_pvt ch);;
      p <- load_pvt pvt;;
      lantiq_play_tone (port_id p) TAPI_TONE_LOCALE_NONE;;
      ret 0
  | AST_CONTROL_CONGESTION | AST_CONTROL_BUSY =>
      pvt <- deref_pvt (tech_pvt ch);;
      p <- load_pvt pvt;;
      lantiq_play_tone (port_id p) TAPI_TONE_LOCALE_BUSY_CODE;;
      ret 0
  | AST_CONTROL_RINGING | AST_CONTROL_PROGRESS =>
      pvt <- deref_pvt (tech_pvt ch);;
      p <- load_pvt pvt;;
      upd_pvt pvt (set_call_setup_delay (to_uint32 (now E - call_setup_start p)));;
      lantiq_play_tone (port_id p) TAPI_TONE_LOCALE_RINGING_CODE;;
      ret 0
  | _ => ret (-1)
  end.

Definition ast_lantiq_call (ast : nat) : M Z :=
  ch <- load_chan ast;;
  pvt <- deref_pvt (tech_pvt ch);;
  p <- load_pvt pvt;;
  match channel_state p with
  | ONHOOK =>
      let cid := if valid (connected_id_number ch)
                 then str (connected_id_number ch) else None in
      let name := if valid (connected_id_name ch)
                  then str (connected_id_name ch) else None in
      lantiq_ring (port_id p) 1 cid name;;
      upd_pvt pvt (set_channel_state RINGING);;
      ast_setstate ast AST_STATE_RINGING;;
      ast_queue_control ast AST_CONTROL_RINGING;;
      ret 0
  | _ =>
      ast_setstate ast AST_STATE_BUSY;;
      ast_queue_control ast AST_CONTROL_BUSY;;
      ret (-1)
  end.

Definition ast_lantiq_hangup (ast : nat) : M Z :=
  ch <- load_chan ast;;
  pvt <- deref_pvt (tech_pvt ch);;
  p <- load_pvt pvt;;
  match channel_state p with
  | RINGING | ONHOOK =>
      lantiq_ring (port_id p) 0 None None;;
      upd_pvt pvt (set_channel_state ONHOOK)
  | _ =>
      upd_pvt pvt (set_channel_state CALL_ENDED);;
      lantiq_play_tone (port_id p) TAPI_TONE_LOCALE_BUSY_CODE;;
      ret tt
  end;;
  lantiq_jb_get_stats (port_id p);;
  ast_setstate ast AST_STATE_DOWN;;
  emit AstModuleUnref;;
  upd_chan ast (set_tech_pvt None);;
  upd_pvt pvt (set_owner None);;
  ret 0.

(** The core's [ast_hangup]: it runs the technology's hangup callback, here
    [ast_lantiq_hangup], and releases the channel. *)
Definition ast_hangup (chan : nat) : M unit :=
  emit (AstHangup chan);;
  ast_lantiq_hangup chan;;
  free_chan chan.

Definition ast_lantiq_answer (ast : nat) : M Z :=
  ch <- load_chan ast;;
  pvt <- deref_pvt (tech_pvt ch);;
  p <- load_pvt pvt;;
  r <- lantiq_conf_enc (port_id p) (writeformat ch);;
  if c_true r then ret (-1)
  else
    upd_pvt pvt (set_call_answer (to_uint32 (epoch E)));;
    ret 0.

(** *** Outbound packetizer *)

(** [memcpy(buf + RTP_HEADER_LEN, head, length)] into the [RTP_BUFFER_LEN]
    bytes of [buf]: the [int] [length] is converted to [size_t], 32 bits
    wide like [long], and a copy of more than
    [RTP_BUFFER_LEN - RTP_HEADER_LEN] bytes runs past the end of [buf]. *)
Definition memcpy_buf (length : Z) : M unit :=
  if to_uint32 length <=? RTP_BUFFER_LEN - RTP_HEADER_LEN then ret tt else crash.

(** The [while (head < tail)] loop of [ast_lantiq_write].  [head] is the
    offset of the C pointer [head] from [frame->data.ptr], so [tail] is
    [datalen frame]; [n] counts the writes issued so far.  The result is
    [None] when [fuel] iterations did not reach the end of the loop. *)
Fixpoint write_loop (fuel : nat) (pvt : Z) (frame : ast_frame) (rtp_header : rtp_header_t)
    (n : nat) (head length samples' : Z) : M (option Z) :=
  match fuel with
  | O => ret None
  | S fuel' =>
      if head <? datalen frame then
        p <- load_pvt pvt;;
        let rtp_header := set_seqno (to_uint16 (rtp_seqno p)) rtp_header in
        upd_pvt pvt (set_rtp_seqno (to_uint16 (rtp_seqno p + 1)));;
        p <- load_pvt pvt;;
        let rtp_header := set_timestamp (to_uint32 (rtp_timestamp p)) rtp_header in
        ls <- (if to_long (datalen frame - head) <? RTP_BUFFER_LEN - RTP_HEADER_LEN then
                 let length := to_int (to_long (datalen frame - head)) in
                 s <- c_div (to_int (length * samples frame)) (datalen frame);;
                 ret (length, s)
               else ret (length, samples'));;
        let length := fst ls in
        let samples' := snd ls in
        memcpy_buf length;;
        let head' := head + length in
        p <- load_pvt pvt;;
        upd_pvt pvt (set_rtp_timestamp
          (to_int (rtp_timestamp p +
                   (if payload_type rtp_header =? RTP_G722
                    then to_int (samples' ÷ 2) else samples'))));;
        p <- load_pvt pvt;;
        emit (Write (port_id p) rtp_header head length);;
        let r := write_ret E n in
        if r <? 0 then ret (Some (-1))
        else
          (* a short write is logged and the loop continues *)
          write_loop fuel' pvt frame rtp_header (S n) head' length samples'
      else ret (Some 0)
  end.

Definition ast_lantiq_write (fuel : nat) (ast : nat) (frame : ast_frame) : M (option Z) :=
  ch <- load_chan ast;;
  match frametype frame with
  | AST_FRAME_VOICE =>
      pvt <- deref_pvt (tech_pvt ch);;
      p <- load_pvt pvt;;
      if decide (subclass_codec frame = codec p) then
        if datalen frame =? 0 then ret (Some 0)
        else
          let rtp_header :=
            {| version := 2; padding := 0; extension := 0; csrc_count := 0;
               marker := 0; ssrc := 0;
               payload_type := rtp_payload p mod 2 ^ 7;
               seqno := 0; timestamp := 0 |} in
          q <- load_pvt (port_id p);;
          subframes <- c_div (to_long (to_long (ptime q + len frame) - 1)) (ptime q);;
          subframes_rtp <- c_div (to_int ((RTP_BUFFER_LEN - RTP_HEADER_LEN) * subframes))
                                 (datalen frame);;
          length <- c_div (to_int (subframes_rtp * datalen frame)) subframes;;
          samples' <- c_div (to_int (length * samples frame)) (datalen frame);;
          write_loop fuel pvt frame rtp_header 0 0 length samples'
      else ret (Some 0)
  | _ => ret (Some 0)
  end.

(** *** Line state machine *)

Definition lantiq_end_dialing (c : Z) : M Z :=
  p <- load_pvt c;;
  (if c_true (dial_timer p) then
     emit (AstSchedDel (dial_timer p));;
     upd_pvt c (set_dial_timer 0)
   else ret tt);;
  p <- load_pvt c;;
  match owner p with
  | Some chan => ast_hangup chan
  | None => ret tt
  end;;
  lantiq_reset_dtmfbuf c;;
  ret 0.

Definition lantiq_end_call (c : Z) : M Z :=
  p <- load_pvt c;;
  match owner p with
  | Some chan =>
      lantiq_jb_get_stats c;;
      ast_queue_hangup chan
  | None => ret tt
  end;;
  ret 0.

Definition lantiq_channel (st : ast_state) (c : Z) (ext ctx : option string)
    (format : format_t) : M (option nat) :=
  chan <- ast_channel_alloc st ext ctx c;;
  match chan with
  | None => ret None
  | Some ch =>
      upd_chan ch (set_tech_pvt (Some c));;
      upd_pvt c (set_owner (Some ch));;
      if decide (format = FORMAT_ZERO) then ret (Some ch)
      else
        r <- lantiq_conf_enc c format;;
        if r <? 0 then ret None else ret (Some ch)
  end.

(** [data] is the destination string, NULL when absent; the result is the
    returned channel and the value stored through [cause], if any. *)
Definition ast_lantiq_requester (format : format_t) (data : option string)
  : M (option nat * option ast_cause) :=
  match data with
  | None | Some EmptyString => ret (None, Some AST_CAUSE_CHANNEL_UNACCEPTABLE)
  | Some d =>
      let port_id := atoi d in
      w <- get_world;;
      if (port_id <? 1) || (channels (dev_ctx w) <? port_id) then
        ret (None, Some AST_CAUSE_CHANNEL_UNACCEPTABLE)
      else
        let port_id := to_int (port_id - 1) in
        p <- load_pvt port_id;;
        if c_true (c_eq (c_lnot (state_code (channel_state p))) (state_code ONHOOK)) then
          ret (None, None)
        else
          chan <- lantiq_channel AST_STATE_DOWN port_id None None format;;
          ret (chan, None)
  end.

Definition accept_call (c : Z) : M Z :=
  p <- load_pvt c;;
  match owner p with
  | Some chan =>
      ch <- load_chan chan;;
      match _state ch with
      | AST_STATE_RINGING =>
          lantiq_play_tone c TAPI_TONE_LOCALE_NONE;;
          ast_queue_control chan AST_CONTROL_ANSWER;;
          upd_pvt c (set_channel_state INCALL);;
          upd_pvt c (set_call_start (to_uint32 (epoch E)));;
          p <- load_pvt c;;
          upd_pvt c (set_call_answer (call_start p))
      | _ => ret tt
      end
  | None => ret tt
  end;;
  ret 0.

Definition lantiq_dev_event_hook (c : Z) (state : Z) : M Z :=
  if c_true state then (* going onhook *)
    p <- load_pvt c;;
    r <- match channel_state p with
         | DIALING => lantiq_end_dialing c
         | INCALL => lantiq_end_call c
         | _ => ret (-1)
         end;;
    upd_pvt c (set_channel_state ONHOOK);;
    lantiq_standby c;;
    led_off c;;
    ret r
  else (* going offhook *)
    r <- ioctl c (IFX_TAPI_LINE_FEED_SET IFX_TAPI_LINE_FEED_ACTIVE);;
    if c_true r then ret (-1)
    else
      p <- load_pvt c;;
      match channel_state p with
      | RINGING =>
          r <- accept_call c;;
          led_blink c LED_SLOW_BLINK;;
          ret r
      | _ =>
          upd_pvt c (set_channel_state OFFHOOK);;
          lantiq_play_tone c TAPI_TONE_LOCALE_DIAL_CODE;;
          led_on c;;
          ret 0
      end.

(** *** Digit collector *)

Definition lantiq_dial (pvt : Z) : M unit :=
  p <- load_pvt pvt;;
  if ast_exists_extension E (context p) (dtmfbuf p) then
    chan <- lantiq_channel AST_STATE_UP (port_id p)
              (Some (dtmfbuf p)) (Some (context p)) FORMAT_ZERO;;
    match chan with
    | None => ret tt   (* goto bailout *)
    | Some ch =>
        upd_chan ch (set_tech_pvt (Some pvt));;
        upd_pvt pvt (set_owner (Some ch));;
        ast_setstate ch AST_STATE_RING;;
        upd_pvt pvt (set_channel_state INCALL);;
        upd_pvt pvt (set_call_setup_start (to_uint32 (now E)));;
        upd_pvt pvt (set_call_start (to_uint32 (epoch E)));;
        r <- ast_pbx_start ch;;
        (if c_true r then ast_hangup ch else ret tt);;
        lantiq_reset_dtmfbuf pvt
    end
  else
    lantiq_play_tone (port_id p) TAPI_TONE_LOCALE_BUSY_CODE;;
    upd_pvt pvt (set_channel_state CALL_ENDED);;
    lantiq_reset_dtmfbuf pvt.

Definition lantiq_event_dial_timeout (pvt : Z) : M Z :=
  upd_pvt pvt (set_dial_timer 0);;
  p <- load_pvt pvt;;
  (if c_true (c_eq (c_lnot (state_code (channel_state p))) (state_code ONHOOK))
   then lantiq_dial pvt
   else ret tt);;
  ret 0.

Definition lantiq_send_digit (c : Z) (digit : ascii) : M Z :=
  p <- load_pvt c;;
  match owner p with
  | Some chan => ast_queue_frame_dtmf chan digit
  | None => ret (-1)
  end.

(** [pvt->dtmfbuf[i] = digit; pvt->dtmfbuf[i + 1] = '\0'] on the C string
    held in the buffer. *)
Definition dtmfbuf_store (buf : string) (i : Z) (digit : ascii) : string :=
  (substring 0 (Z.to_nat i) buf ++ String digit EmptyString)%string.

(** The body of [case DIALING] in [lantiq_dev_event_digit], which
    [case OFFHOOK] falls through to. *)
Definition lantiq_dev_event_digit_dialing (c : Z) (digit : ascii) : M unit :=
  if Ascii.eqb digit "#" then
    p <- load_pvt c;;
    (if c_true (dial_timer p) then
       emit (AstSchedDel (dial_timer p));;
       upd_pvt c (set_dial_timer 0)
     else ret tt);;
    lantiq_dial c
  else
    p <- load_pvt c;;
    if dtmfbuf_len p <? AST_MAX_EXTENSION - 1 then
      upd_pvt c (set_dtmfbuf (dtmfbuf_store (dtmfbuf p) (dtmfbuf_len p) digit));;
      upd_pvt c (set_dtmfbuf_len (to_int (dtmfbuf_len p + 1)));;
      (* setup autodial timer *)
      p <- load_pvt c;;
      w <- get_world;;
      if negb (c_true (dial_timer p)) then
        emit (AstSchedAdd (interdigit_timeout (dev_ctx w)) c);;
        upd_pvt c (set_dial_timer (ast_sched_add_ret E))
      else
        emit (AstSchedReplace (dial_timer p) (interdigit_timeout (dev_ctx w)) c);;
        upd_pvt c (set_dial_timer (ast_sched_add_ret E))
    else
      (* No more room for another digit *)
      lantiq_end_dialing c;;
      p <- load_pvt c;;
      lantiq_play_tone (port_id p) TAPI_TONE_LOCALE_BUSY_CODE;;
      upd_pvt c (set_channel_state CALL_ENDED).

Definition lantiq_dev_event_digit (c : Z) (digit : ascii) : M unit :=
  p <- load_pvt c;;
  match channel_state p with
  | INCALL => lantiq_send_digit c digit;; ret tt
  | OFFHOOK =>
      upd_pvt c (set_channel_state DIALING);;
      lantiq_play_tone c TAPI_TONE_LOCALE_NONE;;
      led_blink c LED_SLOW_BLINK;;
      lantiq_dev_event_digit_dialing c digit   (* fall through *)
  | DIALING => lantiq_dev_event_digit_dialing c digit
  | _ => ret tt
  end.

(** *** Device state *)

(** The outcome of [ast_lantiq_devicestate]: a device state, or a read of
    [iflist[index]] outside the port table. *)
Inductive devicestate_result :=
  | DeviceState (s : ast_device_state)
  | OutOfBoundsRead (index : Z).

Definition ast_lantiq_devicestate (w : world) (data : string) : devicestate_result :=
  let port := to_int (atoi data - 1) in
  if (port <? 1) || (channels (dev_ctx w) <? port) then DeviceState AST_DEVICE_INVALID
  else
    match pvt_lookup (iflist w) port with
    | None => OutOfBoundsRead port
    | Some p =>
        match channel_state p with
        | ONHOOK => DeviceState AST_DEVICE_NOT_INUSE
        | OFFHOOK | DIALING | INCALL | CALL_ENDED => DeviceState AST_DEVICE_INUSE
        | RINGING => DeviceState AST_DEVICE_RINGING
        | UNKNOWN => DeviceState AST_DEVICE_UNKNOWN
        end
    end.

End Driver.

(** *** Module load: the port table *)

(** A zeroed entry, as [ast_calloc] returns it. *)
Definition calloc_pvt : lantiq_pvt :=
  {| owner := None; port_id := 0; channel_state := ONHOOK; context := EmptyString;
     dial_timer := 0; dtmfbuf := EmptyString; dtmfbuf_len := 0;
     rtp_timestamp := 0; ptime := 0; rtp_payload := 0; codec := FORMAT_ZERO;
     rtp_seqno := 0; call_setup_start := 0; call_setup_delay := 0; call_start := 0;
     call_answer := 0; jb_size := 0; jb_underflow := 0; jb_overflow := 0;
     jb_delay := 0; jb_invalid := 0 |}.

Definition lantiq_init_pvt (pvt : lantiq_pvt) : lantiq_pvt :=
  {| owner := None; port_id := -1; channel_state := UNKNOWN; context := EmptyString;
     dial_timer := 0; dtmfbuf := EmptyString; dtmfbuf_len := 0;
     rtp_timestamp := rtp_timestamp pvt; ptime := ptime pvt;
     rtp_payload := rtp_payload pvt; codec := codec pvt; rtp_seqno := rtp_seqno pvt;
     call_setup_start := 0; call_setup_delay := 0; call_start := call_start pvt;
     call_answer := 0; jb_size := 0; jb_underflow := 0; jb_overflow := 0;
     jb_delay := 0; jb_invalid := 0 |}.

Definition LANTIQ_CONTEXT_PREFIX : string := "lantiq".

(** The loop body of [lantiq_create_pvts] on the entry [iflist[i]]:
    [lantiq_init_pvt], then the port number and the context. *)
Definition create_pvt (per_channel_context : bool) (i : Z) (pvt : lantiq_pvt) : lantiq_pvt :=
  let p := lantiq_init_pvt pvt in
  {| owner := owner p; port_id := i; channel_state := channel_state p;
     context := if per_channel_context
                then (LANTIQ_CONTEXT_PREFIX +:+ pretty (i + 1))%string
                else "default"%string;
     dial_timer := dial_timer p; dtmfbuf := dtmfbuf p; dtmfbuf_len := dtmfbuf_len p;
     rtp_timestamp := rtp_timestamp p; ptime := ptime p; rtp_payload := rtp_payload p;
     codec := codec p; rtp_seqno := rtp_seqno p;
     call_setup_start := call_setup_start p; call_setup_delay := call_setup_delay p;
     call_start := call_start p; call_answer := call_answer p;
     jb_size := jb_size p; jb_underflow := jb_underflow p; jb_overflow := jb_overflow p;
     jb_delay := jb_delay p; jb_invalid := jb_invalid p |}.

(** [for (i = 0; i < dev_ctx.channels; i++)] over the indices [indices] of
    the allocated [table]; [None] is a write to an entry [iflist[i]] that
    lies outside the allocated block. *)
Fixpoint create_pvts_loop (per_channel_context : bool) (indices : list Z)
    (table : list lantiq_pvt) : option (list lantiq_pvt) :=
  match indices with
  | [] => Some table
  | i :: indices' =>
      match pvt_lookup table i with
      | Some p =>
          create_pvts_loop per_channel_context indices'
            (<[Z.to_nat i := create_pvt per_channel_context i p]> table)
      | None => None
      end
  end.

(** [lantiq_create_pvts], with [dev_ctx.channels] and [per_channel_context]
    as arguments.  The byte count
    [sizeof(struct lantiq_pvt) * dev_ctx.channels] is computed in [size_t],
    32 bits wide; [sizeof_pvt] is the size of an entry and [ast_calloc] says
    for a byte count whether the allocation succeeds.  A block of that many
    zeroed bytes holds [size / sizeof_pvt] whole entries.  The result is the
    value returned and [iflist], where the empty table also stands for
    [iflist = NULL], as no entry of either can be accessed; [None] is a
    write past the end of the block. *)
Definition lantiq_create_pvts (sizeof_pvt : Z) (ast_calloc : Z -> bool)
    (per_channel_context : bool) (channels : Z) : option (Z * list lantiq_pvt) :=
  let size := to_uint32 (sizeof_pvt * to_uint32 channels) in
  if ast_calloc size then
    match create_pvts_loop per_channel_context (seqZ 0 channels)
            (replicate (Z.to_nat (size ÷ sizeof_pvt)) calloc_pvt) with
    | Some table => Some (0, table)
    | None => None
    end
  else Some (-1, []).

(** The world once [lantiq_create_pvts] has built a table of [channels ctx]
    entries: every entry initialised, no channel object. *)
Definition load_world (per_channel_context : bool) (ctx : lantiq_ctx) : world :=
  {| iflist := (fun i => create_pvt per_channel_context i calloc_pvt) <$> seqZ 0 (channels ctx);
     dev_ctx := ctx; chans := ∅; next_chan := 0 |}.

(** ** Reasoning about driver computations *)

(** [wp m w Q]: from [w], the computation [m] does not crash and its result,
    final world and trace satisfy [Q]. *)
Definition wp {A} (m : M A) (w : world) (Q : A -> world -> list action -> Prop) : Prop :=
  exists a w' t, m w = Some (a, w', t) /\ Q a w' t.

(** [wlp m w Q]: whenever [m] returns from [w], its result, final world and
    trace satisfy [Q]; a crash satisfies it. *)
Definition wlp {A} (m : M A) (w : world) (Q : A -> world -> list action -> Prop) : Prop :=
  forall a w' t, m w = Some (a, w', t) -> Q a w' t.

(** The store [iflist[c] = p]. *)
Definition store_pvt (w : world) (c : Z) (p : lantiq_pvt) : world :=
  set_iflist (<[Z.to_nat c := p]> (iflist w)) w.

(** The final world of a run, if it did not crash. *)
Definition final_world {A} (r : option (A * world * list action)) : option world :=
  match r with
  | Some (_, w, _) => Some w
  | None => None
  end.

Definition final_trace {A} (r : option (A * world * list action)) : option (list action) :=
  match r with
  | Some (_, _, t) => Some t
  | None => None
  end.

(** The caller id and name [ast_lantiq_call] passes to [lantiq_ring]. *)
Definition cid_of (ch : ast_channel) : option string :=
  if valid (connected_id_number ch) then str (connected_id_number ch) else None.
Definition name_of (ch : ast_channel) : option string :=
  if valid (connected_id_name ch) then str (connected_id_name ch) else None.

(** A rejected origination: result -1 with a busy control frame queued. *)
Definition busy_indication (ast : nat) (r : Z) (t : list action) : Prop :=
  r = -1 /\ AstQueueControl ast AST_CONTROL_BUSY ∈ t.

(** The ioctls issued by [lantiq_play_tone] and [lantiq_standby], and their
    results. *)
Definition play_tone_trace (c t : Z) : list action :=
  (if negb (t =? TAPI_TONE_LOCALE_NONE)
   then [Ioctl c (IFX_TAPI_TONE_LOCAL_PLAY TAPI_TONE_LOCALE_NONE)] else []) ++
  [Ioctl c (IFX_TAPI_TONE_LOCAL_PLAY t)].

Definition play_tone_ret (E : env) (c t : Z) : Z :=
  if c_true (ioctl_ret E c (IFX_TAPI_TONE_LOCAL_PLAY t)) then -1 else 0.

Definition standby_trace (E : env) (c : Z) : list action :=
  Ioctl c (IFX_TAPI_LINE_FEED_SET IFX_TAPI_LINE_FEED_STANDBY) ::
  if c_true (ioctl_ret E c (IFX_TAPI_LINE_FEED_SET IFX_TAPI_LINE_FEED_STANDBY)) then []
  else Ioctl c IFX_TAPI_ENC_STOP ::
    if c_true (ioctl_ret E c IFX_TAPI_ENC_STOP) then []
    else Ioctl c IFX_TAPI_DEC_STOP ::
      if c_true (ioctl_ret E c IFX_TAPI_DEC_STOP) then []
      else play_tone_trace c TAPI_TONE_LOCALE_NONE.

(** The port after [lantiq_jb_get_stats]: the hardware's jitter-buffer
    statistics when the ioctl succeeds, unchanged when it fails. *)
Definition jb_update (E : env) (c : Z) (p : lantiq_pvt) : lantiq_pvt :=
  if ioctl_ret E c IFX_TAPI_JB_STATISTICS_GET =? IFX_SUCCESS then
    let param := jb_statistics E c in
    set_jb_delay (nPODelay param)
      (set_jb_invalid (nInvalid param)
         (set_jb_overflow (nDsOverflow param)
            (set_jb_underflow (nIsUnderflow param)
               (set_jb_size (nBufSize param) p))))
  else p.

(** The port after [lantiq_reset_dtmfbuf]. *)
Definition reset_dtmfbuf (p : lantiq_pvt) : lantiq_pvt :=
  set_dtmfbuf_len 0 (set_dtmfbuf EmptyString p).

Definition is_queue_hangup (a : action) : bool :=
  match a with AstQueueHangup _ => true | _ => false end.

(** *** The packetizer's chunks *)

(** The chunk length used by one iteration of the loop of
    [ast_lantiq_write], from the length of the previous iteration. *)
Definition next_length (frame : ast_frame) (head length : Z) : Z :=
  if to_long (datalen frame - head) <? RTP_BUFFER_LEN - RTP_HEADER_LEN
  then to_int (to_long (datalen frame - head)) else length.

(** [length * frame->samples / frame->datalen]: the samples in a chunk. *)
Definition chunk_samples (frame : ast_frame) (length : Z) : Z :=
  to_int (to_int (length * samples frame) ÷ datalen frame).

(** The advance of the RTP timestamp for a chunk of [samples'] samples. *)
Definition ts_advance (payload_type samples' : Z) : Z :=
  if payload_type =? RTP_G722 then to_int (samples' ÷ 2) else samples'.

(** [subframes] and the initial [length] computed by [ast_lantiq_write]. *)
Definition subframes_of (frame : ast_frame) (ptime' : Z) : Z :=
  to_int (to_long (to_long (ptime' + len frame) - 1) ÷ ptime').

Definition initial_length (frame : ast_frame) (subframes : Z) : Z :=
  to_int (to_int (to_int (to_int ((RTP_BUFFER_LEN - RTP_HEADER_LEN) * subframes)
                            ÷ datalen frame) * datalen frame) ÷ subframes).

Definition initial_header (p : lantiq_pvt) : rtp_header_t :=
  {| version := 2; padding := 0; extension := 0; csrc_count := 0;
     marker := 0; ssrc := 0;
     payload_type := rtp_payload p mod 2 ^ 7;
     seqno := 0; timestamp := 0 |}.

Definition next_header (seq ts : Z) (h : rtp_header_t) : rtp_header_t :=
  set_timestamp (to_uint32 ts) (set_seqno (to_uint16 seq) h).

(** The runs of the loop of [ast_lantiq_write] on port [c]: from the write
    count [n], offset [head], previous chunk length [length] and the port's
    counters [seq] and [ts], the loop issues the writes [t], ends with the
    result [r] ([None]: still running) and leaves the counters [seq'] and
    [ts']. *)
Inductive packets (E : env) (frame : ast_frame) (c : Z) :
    rtp_header_t -> nat -> Z -> Z -> Z -> Z ->
    list action -> option Z -> Z -> Z -> Prop :=
  | packets_end hdr n head length seq ts :
      datalen frame <= head ->
      packets E frame c hdr n head length seq ts [] (Some 0) seq ts
  | packets_fuel hdr n head length seq ts :
      packets E frame c hdr n head length seq ts [] None seq ts
  | packets_fail hdr n head length seq ts :
      head < datalen frame ->
      write_ret E n < 0 ->
      let length' := next_length frame head length in
      let hdr' := next_header seq ts hdr in
      packets E frame c hdr n head length seq ts
        [Write c hdr' head length'] (Some (-1))
        (to_uint16 (seq + 1))
        (to_int (ts + ts_advance (payload_type hdr') (chunk_samples frame length')))
  | packets_step hdr n head length seq ts t r seq' ts' :
      head < datalen frame ->
      0 <= write_ret E n ->
      let length' := next_length frame head length in
      let hdr' := next_header seq ts hdr in
      packets E frame c hdr' (S n) (head + length') length'
        (to_uint16 (seq + 1))
        (to_int (ts + ts_advance (payload_type hdr') (chunk_samples frame length')))
        t r seq' ts' ->
      packets E frame c hdr n head length seq ts
        (Write c hdr' head length' :: t) r seq' ts'.

(** Projections of the media writes of a trace. *)
Definition write_header (a : action) : option rtp_header_t :=
  match a with Write _ hdr _ _ => Some hdr | _ => None end.
Definition write_length (a : action) : option Z :=
  match a with Write _ _ _ length => Some length | _ => None end.
Definition is_write (a : action) : bool :=
  match a with Write _ _ _ _ => true | _ => false end.

(** *** Well-formed worlds *)

(** The digit buffer holds [dtmfbuf_len] characters and its length, which
    counts the characters before the terminating NUL, is below the capacity
    of the array. *)
Definition dtmf_ok (MAX : Z) (p : lantiq_pvt) : Prop :=
  0 <= dtmfbuf_len p < MAX /\ Z.of_nat (String.length (dtmfbuf p)) = dtmfbuf_len p.

(** The entry [p] of [iflist] at index [i]: it knows its index, its digit
    buffer is in bounds, a port in a call has an owner, and the owner is a
    live channel whose [tech_pvt] points back to this entry. *)
Record pvt_ok (MAX : Z) (w : world) (i : nat) (p : lantiq_pvt) : Prop := {
  ok_port_id : port_id p = Z.of_nat i;
  ok_dtmf : dtmf_ok MAX p;
  ok_incall : channel_state p = INCALL -> is_Some (owner p);
  ok_owner : forall ch, owner p = Some ch ->
      exists chan, chans w !! ch = Some chan /\ tech_pvt chan = Some (Z.of_nat i)
}.

(** A live channel: it was handed out by the allocator and its [tech_pvt],
    if set, points into the port table. *)
Record chan_ok (w : world) (ch : nat) (chan : ast_channel) : Prop := {
  ok_fresh : (ch < next_chan w)%nat;
  ok_tech_pvt : forall c, tech_pvt chan = Some c -> is_Some (pvt_lookup (iflist w) c)
}.

Record Inv (MAX : Z) (w : world) : Prop := {
  inv_channels : channels (dev_ctx w) = Z.of_nat (length (iflist w));
  inv_pvt : forall i p, iflist w !! i = Some p -> pvt_ok MAX w i p;
  inv_chan : forall ch chan, chans w !! ch = Some chan -> chan_ok w ch chan
}.

(** The postcondition of an entry point started in [w]: the world is still
    well formed and the port table has kept its size. *)
Definition keeps (MAX : Z) (w : world) {A} : A -> world -> list action -> Prop :=
  fun _ w' _ => Inv MAX w' /\ length (iflist w') = length (iflist w).

(** *** Events *)

(** The entry points of the driver: hardware events delivered by the
    monitor thread, the dial timer, and the requests of the Asterisk core. *)
Inductive event :=
  | EvHook (c : Z) (state : Z)
  | EvDigit (c : Z) (digit : ascii)
  | EvDialTimeout (pvt : Z)
  | EvRequest (format : format_t) (data : option string)
  | EvCall (ast : nat)
  | EvHangup (ast : nat)
  | EvAnswer (ast : nat)
  | EvIndicate (ast : nat) (condition : ast_control).

Definition dispatch (E : env) (MAX : Z) (ev : event) : M unit :=
  match ev with
  | EvHook c st => lantiq_dev_event_hook E c st;; ret tt
  | EvDigit c d => lantiq_dev_event_digit E MAX c d
  | EvDialTimeout pvt => lantiq_event_dial_timeout E pvt;; ret tt
  | EvRequest f d => ast_lantiq_requester E f d;; ret tt
  | EvCall ast => ast_lantiq_call E ast;; ret tt
  | EvHangup ast => ast_hangup E ast
  | EvAnswer ast => ast_lantiq_answer E ast;; ret tt
  | EvIndicate ast cond => ast_lantiq_indicate E ast cond;; ret tt
  end.

(** The arguments of an event are well formed: port numbers are in range,
    channels are live and bound to a port, and a call with a caller id
    number also has a caller id name. *)
Definition event_ok (w : world) (ev : event) : Prop :=
  match ev with
  | EvHook c _ | EvDigit c _ | EvDialTimeout c => is_Some (pvt_lookup (iflist w) c)
  | EvRequest _ _ => True
  | EvCall ast =>
      exists ch, chans w !! ast = Some ch /\ is_Some (tech_pvt ch) /\
                 (cid_of ch = None \/ name_of ch <> None)
  | EvHangup ast | EvAnswer ast | EvIndicate ast _ =>
      exists ch, chans w !! ast = Some ch /\ is_Some (tech_pvt ch)
  end.

(** The worlds reached from [w0] by well-formed events, each with its own
    environment. *)
Inductive reachable (MAX : Z) (w0 : world) : world -> Prop :=
  | reachable_refl : reachable MAX w0 w0
  | reachable_step w E ev w' t :
      reachable MAX w0 w ->
      event_ok w ev ->
      dispatch E MAX ev w = Some (tt, w', t) ->
      reachable MAX w0 w'.

(** A run of digit events, each with its own environment. *)
Fixpoint run_digits (MAX : Z) (evs : list (env * Z * ascii)) : M unit :=
  match evs with
  | [] => ret tt
  | (E, c, digit) :: evs' => lantiq_dev_event_digit E MAX c digit;; run_digits MAX evs'
  end.

(** The port after [ast_lantiq_hangup]. *)
Definition hangup_pvt (E : env) (p : lantiq_pvt) : lantiq_pvt :=
  set_owner None
    (jb_update E (port_id p)
       (set_channel_state
          (match channel_state p with RINGING | ONHOOK => ONHOOK | _ => CALL_ENDED end) p)).

(** The channel object [lantiq_channel] sets up, and the port after it. *)
Definition new_chan (st : ast_state) (c : Z) : ast_channel :=
  {| _state := st; tech_pvt := Some c; writeformat := FORMAT_ZERO;
     connected_id_number := {| valid := false; str := None |};
     connected_id_name := {| valid := false; str := None |} |}.

Definition channel_pvt (n : nat) (format : format_t) (p : lantiq_pvt) : lantiq_pvt :=
  match conf_enc_case format with
  | Some (_, _, pt, payload) =>
      set_codec format (set_rtp_payload payload (set_ptime pt (set_owner (Some n) p)))
  | None => set_owner (Some n) p
  end.

Definition channel_result (n : nat) (format : format_t) : option nat :=
  if decide (format = FORMAT_ZERO) then Some n
  else match conf_enc_case format with Some _ => Some n | None => None end.

(** The outcome of a digit other than [#] on a port collecting digits,
    whose entry was [p]: with room left the digit is appended; with the
    buffer full it is dropped, the buffer is reset, the busy tone is played
    and the port is in state CALL_ENDED. *)
Definition digit_outcome (MAX : Z) (c : Z) (digit : ascii) (p : lantiq_pvt)
    (w' : world) (t : list action) : Prop :=
  exists p', pvt_lookup (iflist w') c = Some p' /\
    if dtmfbuf_len p <? MAX - 1 then
      dtmfbuf p' = (dtmfbuf p ++ String digit EmptyString)%string /\
      dtmfbuf_len p' = dtmfbuf_len p + 1 /\
      channel_state p' = channel_state p
    else
      dtmfbuf p' = EmptyString /\ dtmfbuf_len p' = 0 /\
      channel_state p' = CALL_ENDED /\
      Ioctl c (IFX_TAPI_TONE_LOCAL_PLAY TAPI_TONE_LOCALE_BUSY_CODE) ∈ t.


(** *** Example worlds *)

(** A port entry with the given state and buffered digits. *)
Definition example_pvt (i : Z) (st : enum_channel_state) (digits : string)
    (ch : option nat) : lantiq_pvt :=
  {| owner := ch; port_id := i; channel_state := st; context := "default";
     dial_timer := 0; dtmfbuf := digits;
     dtmfbuf_len := Z.of_nat (String.length digits);
     rtp_timestamp := 0; ptime := 10; rtp_payload := RTP_SLIN16;
     codec := AST_FORMAT_SLINEAR16; rtp_seqno := 65535;
     call_setup_start := 0; call_setup_delay := 0; call_start := 0; call_answer := 0;
     jb_size := 0; jb_underflow := 0; jb_overflow := 0; jb_delay := 0; jb_invalid := 0 |}.

Definition example_chan (c : Z) : ast_channel :=
  {| _state := AST_STATE_UP; tech_pvt := Some c; writeformat := AST_FORMAT_SLINEAR16;
     connected_id_number := {| valid := false; str := None |};
     connected_id_name := {| valid := false; str := None |} |}.

(** Two ports; the first one is in state [st] with [digits] buffered and is
    owned by channel 0, which is bound to it. *)
Definition example_world (st : enum_channel_state) (digits : string) : world :=
  {| iflist := [example_pvt 0 st digits (Some 0%nat); example_pvt 1 ONHOOK EmptyString None];
     dev_ctx := {| channels := 2; interdigit_timeout := DEFAULT_INTERDIGIT_TIMEOUT |};
     chans := {[ 0%nat := example_chan 0 ]};
     next_chan := 1 |}.

(** An environment in which every ioctl succeeds, extension "1234" exists,
    and channel allocation and media writes behave as given. *)
Definition example_env (alloc_ok : bool) (writes : nat -> Z) : env :=
  {| ioctl_ret := fun _ _ => 0;
     jb_statistics := fun _ =>
       {| nBufSize := 720; nIsUnderflow := 1; nDsOverflow := 2; nPODelay := 3; nInvalid := 4 |};
     ast_exists_extension := fun _ ext => String.eqb ext "1234";
     ast_channel_alloc_ok := alloc_ok;
     ast_pbx_start_ret := 0;
     ast_queue_frame_ret := 0;
     ast_sched_add_ret := 7;
     now := 1000;
     epoch := 1700000000;
     write_ret := writes |}.

(** A 20 ms signed-linear 16 kHz frame: 640 bytes, 320 samples. *)
Definition example_frame : ast_frame :=
  {| frametype := AST_FRAME_VOICE; subclass_codec := AST_FORMAT_SLINEAR16;
     datalen := 640; samples := 320; len := 20 |}.

(** *** Chunks of a frame *)

(** The writes of [t] are media writes whose chunks follow one another in
    the frame, starting at offset [from], each with at least one byte. *)
Fixpoint contiguous (from : Z) (t : list action) : Prop :=
  match t with
  | [] => True
  | Write _ _ head length :: t' => head = from /\ 0 < length /\ contiguous (from + length) t'
  | _ :: _ => False
  end.

(** The payload bytes written by the media writes of a trace. *)
Fixpoint payload_bytes (t : list action) : Z :=
  match t with
  | [] => 0
  | Write _ _ _ length :: t' => length + payload_bytes t'
  | _ :: t' => payload_bytes t'
  end.

(** A signed-linear 16 kHz voice frame of [bytes] bytes that announces a
    duration of [ms] milliseconds. *)
Definition example_frame_of (bytes ms : Z) : ast_frame :=
  {| frametype := AST_FRAME_VOICE; subclass_codec := AST_FORMAT_SLINEAR16;
     datalen := bytes; samples := bytes ÷ 2; len := ms |}.

(** *** Dialing *)

(** The digit events of a user keying in [digits] on port [c]. *)
Definition dial_digits (E : env) (c : Z) (digits : string) : list (env * Z * ascii) :=
  (fun d => (E, c, d)) <$> list_ascii_of_string digits.

(** A handset is lifted on port [c], [digits] are keyed in and closed
    with [#]. *)
Definition dial_scenario (E : env) (MAX : Z) (c : Z) (digits : string) : M unit :=
  lantiq_dev_event_hook E c 0;;
  run_digits MAX (dial_digits E c digits);;
  lantiq_dev_event_digit E MAX c "#".

(** *** Inbound media *)

(** [lantiq_dev_data_handler].  [res] is the result of the [read] on the
    port's device and [payload_type] the payload type field of the header
    read; [ast_codec_get_samples], a function of the Asterisk core, and
    [trylock], the result of [ast_channel_trylock], are parameters.  The
    result is the value returned, with the channel and the frame handed to
    [ast_queue_frame], if any. *)
Definition lantiq_dev_data_handler (ast_codec_get_samples : ast_frame -> Z) (trylock : Z)
    (c : Z) (res : Z) (payload_type : Z) : M (Z * option (nat * ast_frame)) :=
  if res <=? 0 then ret (0, None)
  else
    p <- load_pvt c;;
    match owner p with
    | None => ret (0, None)
    | Some chan =>
        ch <- load_chan chan;;
        if negb (bool_decide (_state ch = AST_STATE_UP)) then ret (0, None)
        else if negb (payload_type =? rtp_payload p) then ret (0, None)
        else
          let frame := {| frametype := AST_FRAME_VOICE; subclass_codec := codec p;
                          datalen := to_int (res - RTP_HEADER_LEN);
                          samples := 0; len := 0 |} in
          let frame := {| frametype := frametype frame; subclass_codec := subclass_codec frame;
                          datalen := datalen frame;
                          samples := ast_codec_get_samples frame; len := len frame |} in
          if negb (c_true trylock) then ret (0, Some (chan, frame))
          else ret (0, None)
    end.

(** *** RTP payload type table *)

(** The indices of [rtpPTConf.nPTup] and [rtpPTConf.nPTdown]: the encoder
    types, those [lantiq_conf_enc] selects and the two it does not. *)
Inductive rtp_pt_index :=
  | COD (t : IFX_TAPI_COD_TYPE)
  | COD_TYPE_G723_53
  | COD_TYPE_ILBC_152.

(** The table [lantiq_setup_rtp] hands to the device, up and down alike:
    zero after the [memset], then the eleven assignments. *)
Definition rtpPTConf (i : rtp_pt_index) : Z :=
  match i with
  | COD IFX_TAPI_COD_TYPE_G723_63 => RTP_G723_63
  | COD_TYPE_G723_53 => RTP_G723_53
  | COD IFX_TAPI_COD_TYPE_G729 => RTP_G729
  | COD IFX_TAPI_COD_TYPE_MLAW => RTP_PCMU
  | COD IFX_TAPI_COD_TYPE_ALAW => RTP_PCMA
  | COD IFX_TAPI_COD_TYPE_G726_32 => RTP_G726
  | COD_TYPE_ILBC_152 => RTP_ILBC
  | COD IFX_TAPI_COD_TYPE_LIN16_8 => RTP_SLIN8
  | COD IFX_TAPI_COD_TYPE_LIN16_16 => RTP_SLIN16
  | COD IFX_TAPI_COD_TYPE_G722_64 => RTP_G722
  | COD IFX_TAPI_COD_TYPE_G7221_32 => RTP_G7221
  | COD IFX_TAPI_COD_TYPE_ILBC_133 => 0
  end.

(** *** The event pump *)

(** The event identifiers [lantiq_dev_event_handler] tells apart. *)
Inductive IFX_TAPI_EVENT_ID :=
  | IFX_TAPI_EVENT_NONE
  | IFX_TAPI_EVENT_FXS_ONHOOK
  | IFX_TAPI_EVENT_FXS_OFFHOOK
  | IFX_TAPI_EVENT_DTMF_DIGIT
  | IFX_TAPI_EVENT_PULSE_DIGIT
  | IFX_TAPI_EVENT_COD_DEC_CHG
  | IFX_TAPI_EVENT_TONE_GEN_END
  | IFX_TAPI_EVENT_CID_TX_SEQ_END
  | IFX_TAPI_EVENT_other (id : Z).

(** [IFX_TAPI_EVENT_t]: the identifier and the two members of the [data]
    union the handler reads. *)
Record IFX_TAPI_EVENT_t := {
  event_id : IFX_TAPI_EVENT_ID;
  data_dtmf_ascii : Z;
  data_pulse_digit : Z
}.

(** A value converted to [char], as a character. *)
Definition to_char (x : Z) : ascii := ascii_of_N (Z.to_N (x mod 2 ^ 8)).

(** The character passed on for a pulse-dialed digit. *)
Definition pulse_digit_char (digit : Z) : ascii :=
  if digit =? 11 then "0"%char else to_char (48 + digit).

(** The body of the loop of [lantiq_dev_event_handler] for port [i]:
    [get] is the result of the IFX_TAPI_EVENT_GET ioctl and [event] the
    event it delivered.  The result tells whether the restart of Asterisk
    was ordered for an unknown event. *)
Definition lantiq_dev_event_handler_port (E : env) (MAX : Z) (i : Z)
    (get : Z) (event : IFX_TAPI_EVENT_t) : M bool :=
  if c_true get then ret false
  else
    match event_id event with
    | IFX_TAPI_EVENT_NONE => ret false
    | IFX_TAPI_EVENT_FXS_ONHOOK => lantiq_dev_event_hook E i 1;; ret false
    | IFX_TAPI_EVENT_FXS_OFFHOOK => lantiq_dev_event_hook E i 0;; ret false
    | IFX_TAPI_EVENT_DTMF_DIGIT =>
        lantiq_dev_event_digit E MAX i (to_char (data_dtmf_ascii event));; ret false
    | IFX_TAPI_EVENT_PULSE_DIGIT =>
        lantiq_dev_event_digit E MAX i (pulse_digit_char (data_pulse_digit event));; ret false
    | IFX_TAPI_EVENT_COD_DEC_CHG
    | IFX_TAPI_EVENT_TONE_GEN_END
    | IFX_TAPI_EVENT_CID_TX_SEQ_END => ret false
    | IFX_TAPI_EVENT_other _ => ret true
    end.

(** The loop [for (i = 0; i < dev_ctx.channels; i++)], with [n] iterations
    left from port [i]; the ports for which the restart was ordered are
    collected. *)
Fixpoint lantiq_dev_event_handler_loop (E : env) (MAX : Z)
    (events : Z -> Z * IFX_TAPI_EVENT_t) (n : nat) (i : Z) : M (list Z) :=
  match n with
  | O => ret []
  | S n' =>
      restart <- lantiq_dev_event_handler_port E MAX i (events i).1 (events i).2;;
      rest <- lantiq_dev_event_handler_loop E MAX events n' (i + 1);;
      ret (if restart then i :: rest else rest)
  end.

(** [lantiq_dev_event_handler]; [i] is an [unsigned int], so the bound
    [dev_ctx.channels] is compared as an unsigned value. *)
Definition lantiq_dev_event_handler (E : env) (MAX : Z)
    (events : Z -> Z * IFX_TAPI_EVENT_t) : M (list Z) :=
  w <- get_world;;
  lantiq_dev_event_handler_loop E MAX events (Z.to_nat (to_uint32 (channels (dev_ctx w)))) 0.

(** *** Configuration *)

(** A variable of a category of lantiq.conf: [v->name] and [v->value]. *)
Record ast_variable := { var_name : string; var_value : string }.

(** libc's [tolower] and [strcasecmp] in the C locale; [strcaseeq s t] is
    [!strcasecmp(s, t)]. *)
Definition tolower (a : ascii) : ascii :=
  let n := nat_of_ascii a in
  if ((65 <=? n) && (n <=? 90))%nat then ascii_of_nat (n + 32) else a.

Fixpoint strcaseeq (s t : string) : bool :=
  match s, t with
  | EmptyString, EmptyString => true
  | String a s', String b t' => Ascii.eqb (tolower a) (tolower b) && strcaseeq s' t'
  | _, _ => false
  end.

(** The values of the TAPI constants [load_module] assigns; they come from
    the TAPI headers, which are not part of this repository. *)
Record tapi_constants := {
  IFX_TAPI_WLEC_TYPE_OFF : Z;
  IFX_TAPI_WLEC_TYPE_NE : Z;
  IFX_TAPI_WLEC_TYPE_NFE : Z;
  IFX_TAPI_WLEC_TYPE_NE_ES : Z;
  IFX_TAPI_WLEC_TYPE_NFE_ES : Z;
  IFX_TAPI_WLEC_TYPE_ES : Z;
  IFX_TAPI_WLEC_NLP_ON : Z;
  IFX_TAPI_WLEC_NLP_OFF : Z;
  IFX_TAPI_JB_TYPE_FIXED : Z;
  IFX_TAPI_JB_TYPE_ADAPTIVE : Z;
  IFX_TAPI_JB_LOCAL_ADAPT_DEFAULT : Z;
  IFX_TAPI_JB_LOCAL_ADAPT_ON : Z;
  IFX_TAPI_JB_LOCAL_ADAPT_OFF : Z;
  IFX_TAPI_JB_PKT_ADAPT_VOICE : Z;
  IFX_TAPI_JB_PKT_ADAPT_DATA : Z;
  IFX_TAPI_JB_PKT_ADAPT_DATA_NO_REP : Z;
  IFX_TAPI_CID_STD_TELCORDIA : Z;
  IFX_TAPI_CID_STD_ETSI_FSK : Z;
  IFX_TAPI_CID_STD_ETSI_DTMF : Z;
  IFX_TAPI_CID_STD_SIN : Z;
  IFX_TAPI_CID_STD_NTT : Z;
  IFX_TAPI_CID_STD_KPN_DTMF : Z;
  IFX_TAPI_CID_STD_KPN_DTMF_FSK : Z;
  IFX_TAPI_ENC_VAD_NOVAD : Z;
  IFX_TAPI_ENC_VAD_ON : Z;
  IFX_TAPI_ENC_VAD_G711 : Z;
  IFX_TAPI_ENC_VAD_CNG_ONLY : Z;
  IFX_TAPI_ENC_VAD_SC_ONLY : Z
}.

(** What the loop over the category [interfaces] sets: [dev_ctx.channels]
    and the static variables of the module. *)
Record interfaces_config := {
  cfg_channels : Z;
  firmware_filename : string;
  bbd_filename : string;
  base_path : string;
  per_channel_context : Z
}.

(** The [int] variables the loop over the category [general] assigns: the
    locals of [load_module] and [dev_ctx.interdigit_timeout]. *)
Inductive general_var :=
  | txgain | rxgain
  | wlec_type | wlec_nlp | wlec_nbfe | wlec_nbne | wlec_wbne
  | jb_type | jb_pckadpt | jb_localadpt
  | jb_scaling | jb_initialsize | jb_minsize | jb_maxsize
  | cid_type | vad_type
  | dev_ctx_interdigit_timeout.

#[global] Instance general_var_eq_dec : EqDecision general_var.
Proof. solve_decision. Defined.

(** The values of these variables, and an assignment to one of them. *)
Definition general_config := general_var -> Z.

Definition assign (x : general_var) (v : Z) (g : general_config) : general_config :=
  fun y => if decide (y = x) then v else g y.

Section Configuration.

Variable K : tapi_constants.

(** [PATH_MAX] comes from the system headers and [ast_copy_string] from
    Asterisk: [ast_copy_string src size] is what the destination of [size]
    bytes holds after the copy. *)
Variable PATH_MAX : Z.
Variable ast_copy_string : string -> Z -> string.

(** The initial values: of the statics, at their definition, and of
    [dev_ctx.channels] and the locals, at the start of [load_module]. *)
Definition initial_interfaces : interfaces_config :=
  {| cfg_channels := TAPI_AUDIO_PORT_NUM_MAX;
     firmware_filename := "/lib/firmware/ifx_firmware.bin";
     bbd_filename := "/lib/firmware/ifx_bbd_fxs.bin";
     base_path := "/dev/vmmc";
     per_channel_context := 0 |}.

Definition initial_general : general_config := fun x =>
  match x with
  | txgain | rxgain => 0
  | wlec_type | wlec_nlp | wlec_nbfe | wlec_nbne | wlec_wbne => 0
  | jb_type => IFX_TAPI_JB_TYPE_ADAPTIVE K
  | jb_pckadpt => IFX_TAPI_JB_PKT_ADAPT_VOICE K
  | jb_localadpt => IFX_TAPI_JB_LOCAL_ADAPT_DEFAULT K
  | jb_scaling => 16
  | jb_initialsize => 720
  | jb_minsize => 80
  | jb_maxsize => 1440
  | cid_type => IFX_TAPI_CID_STD_TELCORDIA K
  | vad_type => IFX_TAPI_ENC_VAD_NOVAD K
  | dev_ctx_interdigit_timeout => DEFAULT_INTERDIGIT_TIMEOUT
  end.

(** The body of the loop over [interfaces]; [None] is [goto cfg_error_il]. *)
Definition interfaces_variable (v : ast_variable) (s : interfaces_config)
  : option interfaces_config :=
  if strcaseeq (var_name v) "channels" then
    let channels' := atoi (var_value v) in
    if channels' =? 0 then None
    else Some {| cfg_channels := channels'; firmware_filename := firmware_filename s;
                 bbd_filename := bbd_filename s; base_path := base_path s;
                 per_channel_context := per_channel_context s |}
  else if strcaseeq (var_name v) "firmwarefilename" then
    Some {| cfg_channels := cfg_channels s;
            firmware_filename := ast_copy_string (var_value v) PATH_MAX;
            bbd_filename := bbd_filename s; base_path := base_path s;
            per_channel_context := per_channel_context s |}
  else if strcaseeq (var_name v) "bbdfilename" then
    Some {| cfg_channels := cfg_channels s; firmware_filename := firmware_filename s;
            bbd_filename := ast_copy_string (var_value v) PATH_MAX;
            base_path := base_path s;
            per_channel_context := per_channel_context s |}
  else if strcaseeq (var_name v) "basepath" then
    Some {| cfg_channels := cfg_channels s; firmware_filename := firmware_filename s;
            bbd_filename := bbd_filename s;
            base_path := ast_copy_string (var_value v) PATH_MAX;
            per_channel_context := per_channel_context s |}
  else if strcaseeq (var_name v) "per_channel_context" then
    if strcaseeq (var_value v) "on" then
      Some {| cfg_channels := cfg_channels s; firmware_filename := firmware_filename s;
              bbd_filename := bbd_filename s; base_path := base_path s;
              per_channel_context := 1 |}
    else if strcaseeq (var_value v) "off" then
      Some {| cfg_channels := cfg_channels s; firmware_filename := firmware_filename s;
              bbd_filename := bbd_filename s; base_path := base_path s;
              per_channel_context := 0 |}
    else None
  else Some s.

(** The body of the loop over [general]. *)
Definition general_variable (v : ast_variable) (g : general_config) : option general_config :=
  let name := var_name v in
  let value := var_value v in
  if strcaseeq name "rxgain" then
    let g := assign rxgain (atoi value) g in
    Some (if g rxgain =? 0 then assign rxgain 0 g else g)
  else if strcaseeq name "txgain" then
    let g := assign txgain (atoi value) g in
    Some (if g txgain =? 0 then assign txgain 0 g else g)
  else if strcaseeq name "echocancel" then
    if strcaseeq value "off" then Some (assign wlec_type (IFX_TAPI_WLEC_TYPE_OFF K) g)
    else if strcaseeq value "nlec" then
      let g := assign wlec_type (IFX_TAPI_WLEC_TYPE_NE K) g in
      Some (if strcaseeq name "echocancelfixedwindowsize"
            then assign wlec_nbne (atoi value) g else g)
    else if strcaseeq value "wlec" then
      let g := assign wlec_type (IFX_TAPI_WLEC_TYPE_NFE K) g in
      Some (if strcaseeq name "echocancelnfemovingwindowsize"
            then assign wlec_nbfe (atoi value) g
            else if strcaseeq name "echocancelfixedwindowsize"
            then assign wlec_nbne (atoi value) g
            else if strcaseeq name "echocancelwidefixedwindowsize"
            then assign wlec_wbne (atoi value) g
            else g)
    else if strcaseeq value "nees" then Some (assign wlec_type (IFX_TAPI_WLEC_TYPE_NE_ES K) g)
    else if strcaseeq value "nfees" then Some (assign wlec_type (IFX_TAPI_WLEC_TYPE_NFE_ES K) g)
    else if strcaseeq value "es" then Some (assign wlec_type (IFX_TAPI_WLEC_TYPE_ES K) g)
    else None   (* wlec_type = IFX_TAPI_WLEC_TYPE_OFF; goto cfg_error_il *)
  else if strcaseeq name "echocancelnlp" then
    if strcaseeq value "on" then Some (assign wlec_nlp (IFX_TAPI_WLEC_NLP_ON K) g)
    else if strcaseeq value "off" then Some (assign wlec_nlp (IFX_TAPI_WLEC_NLP_OFF K) g)
    else None
  else if strcaseeq name "jitterbuffertype" then
    if strcaseeq value "fixed" then Some (assign jb_type (IFX_TAPI_JB_TYPE_FIXED K) g)
    else if strcaseeq value "adaptive" then
      let g := assign jb_type (IFX_TAPI_JB_TYPE_ADAPTIVE K) g in
      let g := assign jb_localadpt (IFX_TAPI_JB_LOCAL_ADAPT_DEFAULT K) g in
      Some (if strcaseeq name "jitterbufferadaptation" then
              if strcaseeq value "on"
              then assign jb_localadpt (IFX_TAPI_JB_LOCAL_ADAPT_ON K) g
              else if strcaseeq value "off"
              then assign jb_localadpt (IFX_TAPI_JB_LOCAL_ADAPT_OFF K) g
              else g
            else if strcaseeq name "jitterbufferscalling"
            then assign jb_scaling (atoi value) g
            else if strcaseeq name "jitterbufferinitialsize"
            then assign jb_initialsize (atoi value) g
            else if strcaseeq name "jitterbufferminsize"
            then assign jb_minsize (atoi value) g
            else if strcaseeq name "jitterbuffermaxsize"
            then assign jb_maxsize (atoi value) g
            else g)
    else None
  else if strcaseeq name "jitterbufferpackettype" then
    if strcaseeq value "voice" then Some (assign jb_pckadpt (IFX_TAPI_JB_PKT_ADAPT_VOICE K) g)
    else if strcaseeq value "data" then Some (assign jb_pckadpt (IFX_TAPI_JB_PKT_ADAPT_DATA K) g)
    else if strcaseeq value "datanorep"
    then Some (assign jb_pckadpt (IFX_TAPI_JB_PKT_ADAPT_DATA_NO_REP K) g)
    else None
  else if strcaseeq name "calleridtype" then
    if strcaseeq value "telecordia" then Some (assign cid_type (IFX_TAPI_CID_STD_TELCORDIA K) g)
    else if strcaseeq value "etsifsk" then Some (assign cid_type (IFX_TAPI_CID_STD_ETSI_FSK K) g)
    else if strcaseeq value "etsidtmf" then Some (assign cid_type (IFX_TAPI_CID_STD_ETSI_DTMF K) g)
    else if strcaseeq value "sin" then Some (assign cid_type (IFX_TAPI_CID_STD_SIN K) g)
    else if strcaseeq value "ntt" then Some (assign cid_type (IFX_TAPI_CID_STD_NTT K) g)
    else if strcaseeq value "kpndtmf" then Some (assign cid_type (IFX_TAPI_CID_STD_KPN_DTMF K) g)
    else if strcaseeq value "kpndtmffsk"
    then Some (assign cid_type (IFX_TAPI_CID_STD_KPN_DTMF_FSK K) g)
    else None
  else if strcaseeq name "voiceactivitydetection" then
    if strcaseeq value "on" then Some (assign vad_type (IFX_TAPI_ENC_VAD_ON K) g)
    else if strcaseeq value "g711" then Some (assign vad_type (IFX_TAPI_ENC_VAD_G711 K) g)
    else if strcaseeq value "cng" then Some (assign vad_type (IFX_TAPI_ENC_VAD_CNG_ONLY K) g)
    else if strcaseeq value "sc" then Some (assign vad_type (IFX_TAPI_ENC_VAD_SC_ONLY K) g)
    else None
  else if strcaseeq name "interdigit" then
    let g := assign dev_ctx_interdigit_timeout (atoi value) g in
    Some (if g dev_ctx_interdigit_timeout =? 0
          then assign dev_ctx_interdigit_timeout DEFAULT_INTERDIGIT_TIMEOUT g else g)
  else Some g.

(** [for (v = ast_variable_browse(cfg, category); v; v = v->next)]. *)
Fixpoint config_loop {S} (body : ast_variable -> S -> option S)
    (vs : list ast_variable) (s : S) : option S :=
  match vs with
  | [] => Some s
  | v :: vs' =>
      match body v s with
      | Some s' => config_loop body vs' s'
      | None => None
      end
  end.

(** The configuration part of [load_module], from the variables of the two
    categories of a valid lantiq.conf, down to the call of
    [lantiq_create_pvts], which is not part of it: [statics] are the current
    values of the static variables; [None] is AST_MODULE_LOAD_DECLINE.  The
    world is the one [lantiq_create_pvts] is called in: [dev_ctx] holds the
    configured values and [iflist] is still NULL. *)
Definition load_module_config (statics : interfaces_config)
    (interfaces general : list ast_variable)
  : option (interfaces_config * general_config * world) :=
  let s := {| cfg_channels := TAPI_AUDIO_PORT_NUM_MAX;
              firmware_filename := firmware_filename statics;
              bbd_filename := bbd_filename statics; base_path := base_path statics;
              per_channel_context := per_channel_context statics |} in
  match config_loop interfaces_variable interfaces s with
  | None => None
  | Some s =>
      match config_loop general_variable general initial_general with
      | None => None
      | Some g =>
          Some (s, g,
                {| iflist := [];
                   dev_ctx := {| channels := cfg_channels s;
                                 interdigit_timeout := g dev_ctx_interdigit_timeout |};
                   chans := ∅; next_chan := 0 |})
      end
  end.

End Configuration.

(** The variables that only branches nested under another variable's name
    assign, at their initial values. *)
Definition defaults_kept (K : tapi_constants) (g : general_config) : Prop :=
  g jb_scaling = 16 /\ g jb_initialsize = 720 /\ g jb_minsize = 80 /\ g jb_maxsize = 1440 /\
  g wlec_nbfe = 0 /\ g wlec_nbne = 0 /\ g wlec_wbne = 0 /\
  g jb_localadpt = IFX_TAPI_JB_LOCAL_ADAPT_DEFAULT K.

(** *** Module load: the channel devices *)

(** The arrays [dev_ctx.ch_fd] and [dev_ctx.ch_led], of
    TAPI_AUDIO_PORT_NUM_MAX elements each. *)
Record channel_devices := { ch_fd : list Z; ch_led : list string }.

(** The loop [for (c = 0; c < dev_ctx.channels; c++)] of [load_module] that
    opens the channel devices, over the values [cs] of [c]:
    [lantiq_dev_open c'] is the result of [lantiq_dev_open(base_path, c')].
    The result is 0 when the loop ends and -1 for [goto load_error_st];
    [None] is a store outside [ch_fd] or [ch_led]. *)
Fixpoint load_module_open_channels (lantiq_dev_open : Z -> Z) (cs : list Z)
    (d : channel_devices) : option (Z * channel_devices) :=
  match cs with
  | [] => Some (0, d)
  | c :: cs' =>
      if (0 <=? c) && (c <? Z.of_nat (length (ch_fd d))) then
        let d := {| ch_fd := <[Z.to_nat c := lantiq_dev_open (c + 1)]> (ch_fd d);
                    ch_led := ch_led d |} in
        if lantiq_dev_open (c + 1) <? 0 then Some (-1, d)
        else if c <? Z.of_nat (length (ch_led d)) then
          load_module_open_channels lantiq_dev_open cs'
            {| ch_fd := ch_fd d;
               ch_led := <[Z.to_nat c := ("fxs" +:+ pretty (c + 1))%string]> (ch_led d) |}
        else None
      else None
  end.

(** *** More examples *)

(** Port 0 reports an off-hook event, the other ports an event with the
    unknown identifier 99. *)
Definition example_events (i : Z) : Z * IFX_TAPI_EVENT_t :=
  if i =? 0
  then (0, {| event_id := IFX_TAPI_EVENT_FXS_OFFHOOK; data_dtmf_ascii := 0;
              data_pulse_digit := 0 |})
  else (0, {| event_id := IFX_TAPI_EVENT_other 99; data_dtmf_ascii := 0;
              data_pulse_digit := 0 |}).

(** Some values for the TAPI constants. *)
Definition example_constants : tapi_constants :=
  {| IFX_TAPI_WLEC_TYPE_OFF := 0; IFX_TAPI_WLEC_TYPE_NE := 1; IFX_TAPI_WLEC_TYPE_NFE := 2;
     IFX_TAPI_WLEC_TYPE_NE_ES := 3; IFX_TAPI_WLEC_TYPE_NFE_ES := 4; IFX_TAPI_WLEC_TYPE_ES := 5;
     IFX_TAPI_WLEC_NLP_ON := 1; IFX_TAPI_WLEC_NLP_OFF := 2;
     IFX_TAPI_JB_TYPE_FIXED := 1; IFX_TAPI_JB_TYPE_ADAPTIVE := 2;
     IFX_TAPI_JB_LOCAL_ADAPT_DEFAULT := 0; IFX_TAPI_JB_LOCAL_ADAPT_ON := 1;
     IFX_TAPI_JB_LOCAL_ADAPT_OFF := 2;
     IFX_TAPI_JB_PKT_ADAPT_VOICE := 2; IFX_TAPI_JB_PKT_ADAPT_DATA := 3;
     IFX_TAPI_JB_PKT_ADAPT_DATA_NO_REP := 4;
     IFX_TAPI_CID_STD_TELCORDIA := 0; IFX_TAPI_CID_STD_ETSI_FSK := 1;
     IFX_TAPI_CID_STD_ETSI_DTMF := 2; IFX_TAPI_CID_STD_SIN := 3; IFX_TAPI_CID_STD_NTT := 4;
     IFX_TAPI_CID_STD_KPN_DTMF := 5; IFX_TAPI_CID_STD_KPN_DTMF_FSK := 6;
     IFX_TAPI_ENC_VAD_NOVAD := 0; IFX_TAPI_ENC_VAD_ON := 1; IFX_TAPI_ENC_VAD_G711 := 2;
     IFX_TAPI_ENC_VAD_CNG_ONLY := 3; IFX_TAPI_ENC_VAD_SC_ONLY := 4 |}.

(** A lantiq.conf that asks for three channels and tries to size the jitter
    buffer. *)
Definition example_interfaces : list ast_variable :=
  [ {| var_name := "channels"; var_value := "3" |};
    {| var_name := "per_channel_context"; var_value := "on" |} ].

Definition example_general : list ast_variable :=
  [ {| var_name := "jitterbuffertype"; var_value := "adaptive" |};
    {| var_name := "jitterbuffermaxsize"; var_value := "2000" |};
    {| var_name := "echocancel"; var_value := "nlec" |};
    {| var_name := "echocancelfixedwindowsize"; var_value := "16" |};
    {| var_name := "interdigit"; var_value := "0" |} ].

(** The example environment, except that the PBX cannot be started. *)
Definition example_env_pbx_fails : env :=
  {| ioctl_ret := fun _ _ => 0;
     jb_statistics := jb_statistics (example_env true (fun _ => 0));
     ast_exists_extension := fun _ ext => String.eqb ext "1234";
     ast_channel_alloc_ok := true;
     ast_pbx_start_ret := -1;
     ast_queue_frame_ret := 0;
     ast_sched_add_ret := 7;
     now := 1000;
     epoch := 1700000000;
     write_ret := fun _ => 0 |}.

(** * Proofs *)

(** ** Rules of the [wp] calculus *)

Lemma wp_det {A} (m : M A) w Q a w' t :
  wp m w Q -> m w = Some (a, w', t) -> Q a w' t.
Proof. intros (a0 & w0 & t0 & Hm & HQ) Heq. rewrite Heq in Hm. by simplify_eq. Qed.

Lemma wp_mono {A} (m : M A) w (Q Q' : A -> world -> list action -> Prop) :
  wp m w Q -> (forall a w' t, Q a w' t -> Q' a w' t) -> wp m w Q'.
Proof. intros (a & w' & t & Hm & HQ) H. exists a, w', t. auto. Qed.

Lemma wp_ret {A} (a : A) w Q : Q a w [] -> wp (ret a) w Q.
Proof. intros H. by exists a, w, []. Qed.

Lemma wp_bind {A B} (m : M A) (k : A -> M B) w Q :
  wp m w (fun a w1 t1 => wp (k a) w1 (fun b w2 t2 => Q b w2 (t1 ++ t2))) ->
  wp (bind m k) w Q.
Proof.
  intros (a & w1 & t1 & Hm & b & w2 & t2 & Hk & HQ).
  exists b, w2, (t1 ++ t2). split; [|done].
  unfold bind. by rewrite Hm, Hk.
Qed.

Lemma wp_emit a w Q : Q tt w [a] -> wp (emit a) w Q.
Proof. intros H. by exists tt, w, [a]. Qed.

Lemma wp_get_world w Q : Q w w [] -> wp get_world w Q.
Proof. intros H. by exists w, w, []. Qed.

Lemma wp_load_pvt c w p Q :
  pvt_lookup (iflist w) c = Some p -> Q p w [] -> wp (load_pvt c) w Q.
Proof. intros Hl H. exists p, w, []. split; [|done]. unfold load_pvt. by rewrite Hl. Qed.

Lemma wp_upd_pvt c f w p Q :
  pvt_lookup (iflist w) c = Some p -> Q tt (store_pvt w c (f p)) [] -> wp (upd_pvt c f) w Q.
Proof.
  intros Hl H. exists tt, (store_pvt w c (f p)), []. split; [|done].
  unfold upd_pvt. by rewrite Hl.
Qed.

Lemma wp_load_chan ch w c Q :
  chans w !! ch = Some c -> Q c w [] -> wp (load_chan ch) w Q.
Proof. intros Hl H. exists c, w, []. split; [|done]. unfold load_chan. by rewrite Hl. Qed.

Lemma wp_upd_chan ch f w c Q :
  chans w !! ch = Some c -> Q tt (set_chans (<[ch := f c]> (chans w)) w) [] ->
  wp (upd_chan ch f) w Q.
Proof.
  intros Hl H. eexists tt, _, []. split; [|done].
  unfold upd_chan. by rewrite Hl.
Qed.

Lemma wp_alloc_chan c w Q :
  Q (next_chan w)
    (set_next_chan (S (next_chan w)) (set_chans (<[next_chan w := c]> (chans w)) w)) [] ->
  wp (alloc_chan c) w Q.
Proof. intros H. eexists _, _, []. split; [|done]. done. Qed.

Lemma wp_free_chan ch w Q :
  Q tt (set_chans (delete ch (chans w)) w) [] -> wp (free_chan ch) w Q.
Proof. intros H. eexists tt, _, []. split; [|done]. done. Qed.

Lemma wp_deref_pvt c w Q : Q c w [] -> wp (deref_pvt (Some c)) w Q.
Proof. apply wp_ret. Qed.

Lemma wp_c_div a b w Q : b <> 0 -> Q (to_int (a ÷ b)) w [] -> wp (c_div a b) w Q.
Proof.
  intros Hb H. unfold c_div. destruct (Z.eqb_spec b 0); [done|]. by apply wp_ret.
Qed.

Lemma wp_memcpy_buf length w Q :
  0 <= length <= RTP_BUFFER_LEN - RTP_HEADER_LEN -> Q tt w [] -> wp (memcpy_buf length) w Q.
Proof.
  intros Hl H. unfold memcpy_buf, to_uint32.
  rewrite Z.mod_small by (unfold RTP_BUFFER_LEN, RTP_HEADER_LEN in Hl; lia).
  destruct (Z.leb_spec length (RTP_BUFFER_LEN - RTP_HEADER_LEN)); [by apply wp_ret|lia].
Qed.

Lemma wp_wlp {A} (m : M A) w Q : wp m w Q -> wlp m w Q.
Proof. intros H a w' t. by apply wp_det. Qed.

Lemma wlp_mono {A} (m : M A) w (Q Q' : A -> world -> list action -> Prop) :
  wlp m w Q -> (forall a w' t, Q a w' t -> Q' a w' t) -> wlp m w Q'.
Proof. intros H HQ a w' t Hrun. by apply HQ, H. Qed.

Lemma wlp_bind {A B} (m : M A) (k : A -> M B) w Q :
  wp m w (fun a w1 t1 => wlp (k a) w1 (fun b w2 t2 => Q b w2 (t1 ++ t2))) ->
  wlp (bind m k) w Q.
Proof.
  intros (a & w1 & t1 & Hm & Hk) b w2 t Hrun. unfold bind in Hrun. rewrite Hm in Hrun.
  destruct (k a w1) as [[[b' w2'] t2]|] eqn:Hka; [|done]. simplify_eq. by apply Hk.
Qed.

(** A [memcpy] that returns stayed within the buffer. *)
Lemma wlp_memcpy_buf {B} length (k : unit -> M B) w Q :
  - 2 ^ 31 <= length < 2 ^ 31 ->
  (0 <= length <= RTP_BUFFER_LEN - RTP_HEADER_LEN -> wlp (k tt) w Q) ->
  wlp (bind (memcpy_buf length) k) w Q.
Proof.
  intros Hr H b w2 t. unfold bind, memcpy_buf, to_uint32.
  destruct (Z.leb_spec (length mod 2 ^ 32) (RTP_BUFFER_LEN - RTP_HEADER_LEN)) as [Hle|]; [|done].
  cbn. destruct (k tt w) as [[[b' w2'] t2]|] eqn:Hk; [|done]. intros [= <- <- <-].
  apply H; [|done].
  unfold RTP_BUFFER_LEN, RTP_HEADER_LEN in *.
  destruct (Z_lt_le_dec length 0) as [Hneg|]; [|split; [lia|]].
  - replace (length mod 2 ^ 32) with (length + 2 ^ 32) in Hle; [lia|].
    apply Z.mod_unique with (q := -1); lia.
  - rewrite Z.mod_small in Hle; lia.
Qed.

Lemma pvt_lookup_Some l c p :
  pvt_lookup l c = Some p <-> 0 <= c /\ l !! Z.to_nat c = Some p.
Proof.
  unfold pvt_lookup. destruct (Z.ltb_spec c 0); split; [done|lia|by split|by intros [_ ?]].
Qed.

Lemma pvt_lookup_insert_eq l c p p' :
  pvt_lookup l c = Some p -> pvt_lookup (<[Z.to_nat c := p']> l) c = Some p'.
Proof.
  rewrite !pvt_lookup_Some. intros [? Hl]. split; [done|].
  apply list_lookup_insert_eq. by eapply lookup_lt_Some.
Qed.

Lemma pvt_lookup_insert_ne l c c' p' :
  0 <= c -> 0 <= c' -> c <> c' ->
  pvt_lookup (<[Z.to_nat c := p']> l) c' = pvt_lookup l c'.
Proof.
  intros. unfold pvt_lookup. destruct (Z.ltb_spec c' 0); [done|].
  apply list_lookup_insert_ne. lia.
Qed.

Ltac world_simpl :=
  unfold store_pvt, set_iflist, set_chans, set_next_chan;
  cbn [iflist dev_ctx chans next_chan].

Ltac solve_lookup :=
  world_simpl;
  first
    [ eassumption
    | eapply pvt_lookup_insert_eq; solve_lookup
    | apply lookup_insert_eq
    | rewrite lookup_insert_ne by done; solve_lookup ].

Ltac wp_step :=
  world_simpl;
  lazymatch goal with
  | |- wp (bind _ _) _ _ => apply wp_bind
  | |- wp (ret _) _ _ => apply wp_ret
  | |- wp (emit _) _ _ => apply wp_emit
  | |- wp get_world _ _ => apply wp_get_world
  | |- wp (load_pvt _) _ _ => eapply wp_load_pvt; [solve_lookup|]
  | |- wp (upd_pvt _ _) _ _ => eapply wp_upd_pvt; [solve_lookup|]
  | |- wp (load_chan _) _ _ => eapply wp_load_chan; [solve_lookup|]
  | |- wp (upd_chan _ _) _ _ => eapply wp_upd_chan; [solve_lookup|]
  | |- wp (alloc_chan _) _ _ => apply wp_alloc_chan
  | |- wp (free_chan _) _ _ => apply wp_free_chan
  | |- wp (deref_pvt (Some _)) _ _ => apply wp_deref_pvt
  | |- wp (ast_setstate _ _) _ _ => unfold ast_setstate
  | |- wp (ast_queue_control _ _) _ _ => unfold ast_queue_control
  | |- wp (ast_queue_hangup _) _ _ => unfold ast_queue_hangup
  | |- wp (ast_queue_frame_dtmf _ _ _) _ _ => unfold ast_queue_frame_dtmf
  | |- wp (ast_pbx_start _ _) _ _ => unfold ast_pbx_start
  | |- wp (ioctl _ _ _) _ _ => unfold ioctl
  | |- wp (led_on _) _ _ => unfold led_on
  | |- wp (led_off _) _ _ => unfold led_off
  | |- wp (led_blink _ _) _ _ => unfold led_blink
  end.

Ltac wp_run := repeat wp_step; world_simpl; rewrite ?list_insert_insert_eq; cbn [app].

Lemma wp_eq {A} (m : M A) w a0 w0 t0 :
  wp m w (fun a w' t => a = a0 /\ w' = w0 /\ t = t0) -> m w = Some (a0, w0, t0).
Proof. intros (a & w' & t & Hm & -> & -> & ->). done. Qed.

Lemma wp_of_eq {A} (m : M A) w a0 w0 t0 (Q : A -> world -> list action -> Prop) :
  m w = Some (a0, w0, t0) -> Q a0 w0 t0 -> wp m w Q.
Proof. intros Hm HQ. by exists a0, w0, t0. Qed.

(** ** Machine integers *)

Lemma to_int_range x : - 2 ^ 31 <= to_int x < 2 ^ 31.
Proof. unfold to_int, wrap_signed. pose proof (Z.mod_pos_bound (x + 2 ^ (32 - 1)) (2 ^ 32)). lia. Qed.

Lemma to_int_small x : - 2 ^ 31 <= x < 2 ^ 31 -> to_int x = x.
Proof. intros. unfold to_int, wrap_signed. rewrite Z.mod_small; lia. Qed.

Lemma to_int_abs_le x : Z.abs (to_int x) <= Z.abs x.
Proof.
  pose proof (to_int_range x).
  destruct (Z_lt_le_dec x (- 2 ^ 31)); [lia|].
  destruct (Z_lt_le_dec x (2 ^ 31)); [rewrite to_int_small; lia|lia].
Qed.

(** The guard [! pvt->channel_state == ONHOOK] parses as
    [(!pvt->channel_state) == ONHOOK]; as [ONHOOK] is 0 it is true exactly
    when the state is not [ONHOOK]. *)
Lemma not_state_eq_ONHOOK s :
  c_true (c_eq (c_lnot (state_code s)) (state_code ONHOOK)) = true <-> s <> ONHOOK.
Proof. destruct s; cbn; split; intros; done. Qed.

Lemma not_state_eq_ONHOOK_false s :
  c_true (c_eq (c_lnot (state_code s)) (state_code ONHOOK)) = false <-> s = ONHOOK.
Proof. destruct s; cbn; split; intros; done. Qed.

(** Membership in an explicit trace. *)
Ltac solve_elem := rewrite ?elem_of_cons; tauto.
Ltac solve_not_elem :=
  let H := fresh in
  rewrite ?elem_of_cons; intros H;
  repeat (destruct H as [H|H]; [discriminate H|]);
  by apply elem_of_nil in H.

(** ** Call origination *)

Section Origination.
Variable E : env.

Lemma ast_lantiq_call_busy w ast ch pvt p :
  chans w !! ast = Some ch ->
  tech_pvt ch = Some pvt ->
  pvt_lookup (iflist w) pvt = Some p ->
  channel_state p <> ONHOOK ->
  ast_lantiq_call E ast w =
    Some (-1, set_chans (<[ast := set__state AST_STATE_BUSY ch]> (chans w)) w,
          [AstSetstate ast AST_STATE_BUSY; AstQueueControl ast AST_CONTROL_BUSY]).
Proof.
  intros Hch Htp Hp Hs. apply wp_eq. unfold ast_lantiq_call.
  wp_run. rewrite Htp. wp_run.
  destruct (channel_state p); try done; wp_run; done.
Qed.

Lemma ast_lantiq_call_ring w ast ch pvt p :
  chans w !! ast = Some ch ->
  tech_pvt ch = Some pvt ->
  pvt_lookup (iflist w) pvt = Some p ->
  channel_state p = ONHOOK ->
  cid_of ch = None \/ name_of ch <> None ->
  exists t,
    ast_lantiq_call E ast w =
      Some (0, set_chans (<[ast := set__state AST_STATE_RINGING ch]> (chans w))
                 (store_pvt w pvt (set_channel_state RINGING p)), t) /\
    AstQueueControl ast AST_CONTROL_RINGING ∈ t /\
    AstQueueControl ast AST_CONTROL_BUSY ∉ t.
Proof.
  intros Hch Htp Hp Hs Hcid.
  cut (wp (ast_lantiq_call E ast) w (fun r w' t =>
         r = 0 /\ w' = set_chans (<[ast := set__state AST_STATE_RINGING ch]> (chans w))
                         (store_pvt w pvt (set_channel_state RINGING p)) /\
         AstQueueControl ast AST_CONTROL_RINGING ∈ t /\
         AstQueueControl ast AST_CONTROL_BUSY ∉ t)).
  { intros (r & w' & t & Hrun & -> & -> & ? & ?). by exists t. }
  unfold ast_lantiq_call.
  wp_run. rewrite Htp. wp_run. rewrite Hs. fold (cid_of ch) (name_of ch).
  unfold lantiq_ring. cbn [c_true Z.eqb negb].
  destruct (cid_of ch) as [cid|] eqn:Hc; [destruct (name_of ch) as [name|] eqn:Hn|];
    [ | destruct Hcid; done | ]; wp_run;
    (split; [done|]); (split; [done|]); cbn; (split; [solve_elem|solve_not_elem]).
Qed.

End Origination.

(** ** Hardware helpers *)

Section Helpers.
Variable E : env.

Lemma store_pvt_id w c p : pvt_lookup (iflist w) c = Some p -> store_pvt w c p = w.
Proof.
  intros [? Hl]%pvt_lookup_Some. unfold store_pvt, set_iflist.
  rewrite list_insert_id by done. by destruct w.
Qed.

Lemma pvt_lookup_store_pvt w c p p' :
  pvt_lookup (iflist w) c = Some p -> pvt_lookup (iflist (store_pvt w c p')) c = Some p'.
Proof. apply pvt_lookup_insert_eq. Qed.

Lemma store_pvt_store_pvt w c p p' : store_pvt (store_pvt w c p) c p' = store_pvt w c p'.
Proof. world_simpl. by rewrite list_insert_insert_eq. Qed.

Lemma wp_lantiq_play_tone c t w Q :
  Q (play_tone_ret E c t) w (play_tone_trace c t) -> wp (lantiq_play_tone E c t) w Q.
Proof.
  intros H. unfold lantiq_play_tone. unfold play_tone_trace, play_tone_ret in H.
  destruct (negb (t =? TAPI_TONE_LOCALE_NONE)); wp_run;
    destruct (c_true (ioctl_ret E c (IFX_TAPI_TONE_LOCAL_PLAY t))); wp_run; exact H.
Qed.

Lemma wp_lantiq_standby c w Q :
  (forall r, Q r w (standby_trace E c)) -> wp (lantiq_standby E c) w Q.
Proof.
  intros H. unfold lantiq_standby. unfold standby_trace in H.
  wp_run. destruct (c_true (ioctl_ret E c (IFX_TAPI_LINE_FEED_SET _))); wp_run; [apply H|].
  destruct (c_true (ioctl_ret E c IFX_TAPI_ENC_STOP)); wp_run; [apply H|].
  destruct (c_true (ioctl_ret E c IFX_TAPI_DEC_STOP)); wp_run; [apply H|].
  apply wp_lantiq_play_tone. cbn [app]. apply H.
Qed.

Lemma wp_lantiq_jb_get_stats c w p Q :
  pvt_lookup (iflist w) c = Some p ->
  Q tt (store_pvt w c (jb_update E c p)) [Ioctl c IFX_TAPI_JB_STATISTICS_GET] ->
  wp (lantiq_jb_get_stats E c) w Q.
Proof.
  intros Hp H. unfold lantiq_jb_get_stats. unfold jb_update in H.
  wp_run. destruct (ioctl_ret E c IFX_TAPI_JB_STATISTICS_GET =? IFX_SUCCESS); cbn [negb].
  - by wp_run.
  - wp_run. by rewrite store_pvt_id in H.
Qed.

Lemma wp_lantiq_reset_dtmfbuf c w p Q :
  pvt_lookup (iflist w) c = Some p ->
  Q tt (store_pvt w c (reset_dtmfbuf p)) [] ->
  wp (lantiq_reset_dtmfbuf c) w Q.
Proof.
  intros Hp H. unfold lantiq_reset_dtmfbuf. by wp_run.
Qed.

Lemma wp_lantiq_ring_stop c w Q :
  Q tt w [Ioctl c IFX_TAPI_RING_STOP; Led c LedOff] ->
  wp (lantiq_ring E c 0 None None) w Q.
Proof. intros H. unfold lantiq_ring. cbn [c_true Z.eqb negb]. by wp_run. Qed.

End Helpers.

Ltac wp_go :=
  repeat first
    [ wp_step
    | apply wp_lantiq_play_tone
    | apply wp_lantiq_standby; intros ?
    | eapply wp_lantiq_jb_get_stats; [solve_lookup|]
    | eapply wp_lantiq_reset_dtmfbuf; [solve_lookup|]
    | apply wp_lantiq_ring_stop ];
  world_simpl; rewrite ?list_insert_insert_eq; cbn [app].

(** ** Hook events *)

Section Hook.
Variable E : env.

Lemma standby_trace_no_hangup c : filter is_queue_hangup (standby_trace E c) = [].
Proof.
  unfold standby_trace, play_tone_trace.
  repeat (destruct (c_true _)); reflexivity.
Qed.

Lemma lantiq_dev_event_hook_incall w c p ch chan st :
  pvt_lookup (iflist w) c = Some p ->
  channel_state p = INCALL ->
  owner p = Some ch ->
  chans w !! ch = Some chan ->
  st <> 0 ->
  lantiq_dev_event_hook E c st w =
    Some (0, store_pvt w c (set_channel_state ONHOOK (jb_update E c p)),
          Ioctl c IFX_TAPI_JB_STATISTICS_GET :: AstQueueHangup ch ::
          standby_trace E c ++ [Led c LedOff]).
Proof.
  intros Hp Hs Ho Hch Hst. apply wp_eq. unfold lantiq_dev_event_hook.
  assert (c_true st = true) as -> by (unfold c_true; by destruct (Z.eqb_spec st 0)).
  wp_go. rewrite Hs. unfold lantiq_end_call. wp_go. rewrite Ho. wp_go.
  done.
Qed.

End Hook.

(** ** Outbound packetizer *)

Section Packetizer.
Variable E : env.

Lemma setters_overwrite seq ts seq' ts' p :
  set_rtp_timestamp ts' (set_rtp_seqno seq' (set_rtp_timestamp ts (set_rtp_seqno seq p))) =
  set_rtp_timestamp ts' (set_rtp_seqno seq' p).
Proof. reflexivity. Qed.

Lemma setters_id p : set_rtp_timestamp (rtp_timestamp p) (set_rtp_seqno (rtp_seqno p) p) = p.
Proof. by destruct p. Qed.

Lemma next_length_range frame head length :
  - 2 ^ 31 <= length < 2 ^ 31 -> - 2 ^ 31 <= next_length frame head length < 2 ^ 31.
Proof. intros H. unfold next_length. destruct (_ <? _); [apply to_int_range|done]. Qed.

(** The runs of the loop that return are the runs [packets] describes, and
    every chunk they copied and wrote fits the buffer behind the header. *)
Lemma write_loop_wp fuel : forall pvt frame hdr n head length w p,
  datalen frame <> 0 ->
  pvt_lookup (iflist w) pvt = Some p ->
  - 2 ^ 31 <= length < 2 ^ 31 ->
  wlp (write_loop E fuel pvt frame hdr n head length (chunk_samples frame length)) w
    (fun r w' t =>
       (exists seq' ts',
          packets E frame (port_id p) hdr n head length (rtp_seqno p) (rtp_timestamp p)
                  t r seq' ts' /\
          w' = store_pvt w pvt (set_rtp_timestamp ts' (set_rtp_seqno seq' p))) /\
       forall a l, a ∈ t -> write_length a = Some l ->
         0 <= l <= RTP_BUFFER_LEN - RTP_HEADER_LEN).
Proof.
  induction fuel as [|fuel IH]; intros pvt frame hdr n head length w p Hd Hp Hrange.
  - cbn. apply wp_wlp, wp_ret. split; [|by intros a l Ha%elem_of_nil].
    exists (rtp_seqno p), (rtp_timestamp p). split; [constructor|].
    by rewrite setters_id, store_pvt_id.
  - cbn [write_loop]. destruct (Z.ltb_spec head (datalen frame)) as [Hlt|Hge].
    2:{ apply wp_wlp, wp_ret. split; [|by intros a l Ha%elem_of_nil].
        exists (rtp_seqno p), (rtp_timestamp p). split; [by constructor|].
        by rewrite setters_id, store_pvt_id. }
    do 3 (apply wlp_bind; wp_step).
    apply wlp_bind.
    apply wp_of_eq with
      (a0 := (next_length frame head length,
              chunk_samples frame (next_length frame head length)))
      (w0 := {| iflist := <[Z.to_nat pvt := set_rtp_seqno (to_uint16 (rtp_seqno p + 1)) p]> (iflist w);
                dev_ctx := dev_ctx w; chans := chans w; next_chan := next_chan w |})
      (t0 := []).
    { unfold next_length, chunk_samples.
      destruct (to_long (datalen frame - head) <? RTP_BUFFER_LEN - RTP_HEADER_LEN); [|done].
      apply wp_eq. wp_step. eapply wp_c_div; [done|]. by wp_step. }
    cbn [fst snd].
    pose proof (next_length_range frame head length Hrange) as Hrange'.
    set (length' := next_length frame head length) in *.
    apply wlp_memcpy_buf; [done|]. intros Hmem.
    do 4 (apply wlp_bind; wp_step). cbn zeta.
    set (hdr' := set_timestamp _ (set_seqno _ hdr)).
    set (p2 := set_rtp_timestamp _ (set_rtp_seqno _ p)).
    world_simpl. rewrite list_insert_insert_eq.
    destruct (Z.ltb_spec (write_ret E n) 0) as [Hr|Hr].
    + apply wp_wlp. wp_go. split.
      * eexists _, _. split; [by apply packets_fail|]. done.
      * intros a l Ha Hl. apply list_elem_of_singleton in Ha as ->. by simplify_eq/=.
    + eapply wlp_mono.
      { apply (IH pvt frame hdr' (S n) (head + length') length' _ p2); [done|solve_lookup|done]. }
      cbn beta. intros r w' t [(seq' & ts' & Hpk & ->) Hall]. split.
      * exists seq', ts'. split.
        -- cbn [app]. by apply packets_step.
        -- world_simpl. by rewrite list_insert_insert_eq.
      * intros a l Ha Hl. cbn [app] in Ha. apply elem_of_cons in Ha as [->|Ha].
        -- by simplify_eq/=.
        -- by eapply Hall.
Qed.

End Packetizer.

(** ** Inversion of runs *)

Lemma bind_Some {A B} (m : M A) (k : A -> M B) w b w2 t :
  bind m k w = Some (b, w2, t) ->
  exists a w1 t1 t2, m w = Some (a, w1, t1) /\ k a w1 = Some (b, w2, t2) /\ t = t1 ++ t2.
Proof.
  unfold bind. destruct (m w) as [[[a w1] t1]|]; [|done].
  destruct (k a w1) as [[[b' w2'] t2]|] eqn:Hk; [|done].
  intros [= <- <- <-]. by exists a, w1, t1, t2.
Qed.

Lemma ret_Some {A} (a : A) w a' w' t : ret a w = Some (a', w', t) -> a' = a /\ w' = w /\ t = [].
Proof. by intros [= <- <- <-]. Qed.

Lemma load_chan_Some ch w c w' t :
  load_chan ch w = Some (c, w', t) -> chans w !! ch = Some c /\ w' = w /\ t = [].
Proof. unfold load_chan. destruct (chans w !! ch); [|done]. by intros [= <- <- <-]. Qed.

Lemma load_pvt_Some c w p w' t :
  load_pvt c w = Some (p, w', t) -> pvt_lookup (iflist w) c = Some p /\ w' = w /\ t = [].
Proof. unfold load_pvt. destruct (pvt_lookup _ _); [|done]. by intros [= <- <- <-]. Qed.

Lemma deref_pvt_Some o w c w' t :
  deref_pvt o w = Some (c, w', t) -> o = Some c /\ w' = w /\ t = [].
Proof. destruct o; [|done]. by intros [= <- <- <-]. Qed.

Lemma c_div_Some a b w r w' t :
  c_div a b w = Some (r, w', t) -> b <> 0 /\ r = to_int (a ÷ b) /\ w' = w /\ t = [].
Proof. unfold c_div. destruct (Z.eqb_spec b 0); [done|]. by intros [= <- <- <-]. Qed.

Section PacketizerRuns.
Variable E : env.

(** A run of [ast_lantiq_write] either returns 0 at once, or it went through
    the loop on the port's counters. *)
Lemma ast_lantiq_write_run fuel ast frame w r w' t :
  ast_lantiq_write E fuel ast frame w = Some (r, w', t) ->
  (r = Some 0 /\ w' = w /\ t = []) \/
  exists ch pvt p q,
    chans w !! ast = Some ch /\ tech_pvt ch = Some pvt /\
    pvt_lookup (iflist w) pvt = Some p /\ pvt_lookup (iflist w) (port_id p) = Some q /\
    datalen frame <> 0 /\ ptime q <> 0 /\ subframes_of frame (ptime q) <> 0 /\
    exists seq' ts',
      packets E frame (port_id p) (initial_header p) 0 0
        (initial_length frame (subframes_of frame (ptime q)))
        (rtp_seqno p) (rtp_timestamp p) t r seq' ts' /\
      w' = store_pvt w pvt (set_rtp_timestamp ts' (set_rtp_seqno seq' p)).
Proof.
  unfold ast_lantiq_write. intros H.
  apply bind_Some in H as (ch & ? & ? & ? & [Hch [-> ->]]%load_chan_Some & H & ->).
  destruct (frametype frame); [|apply ret_Some in H as (-> & -> & ->); by left..].
  apply bind_Some in H as (pvt & ? & ? & ? & [Htp [-> ->]]%deref_pvt_Some & H & ->).
  apply bind_Some in H as (p & ? & ? & ? & [Hp [-> ->]]%load_pvt_Some & H & ->).
  destruct (decide (subclass_codec frame = codec p)); [|apply ret_Some in H as (-> & -> & ->); by left].
  destruct (Z.eqb_spec (datalen frame) 0) as [|Hd]; [apply ret_Some in H as (-> & -> & ->); by left|].
  apply bind_Some in H as (q & ? & ? & ? & [Hq [-> ->]]%load_pvt_Some & H & ->).
  apply bind_Some in H as (sub & ? & ? & ? & (Hpt & -> & -> & ->)%c_div_Some & H & ->).
  apply bind_Some in H as (srtp & ? & ? & ? & (_ & -> & -> & ->)%c_div_Some & H & ->).
  apply bind_Some in H as (length & ? & ? & ? & (Hsub & -> & -> & ->)%c_div_Some & H & ->).
  apply bind_Some in H as (samples' & ? & ? & ? & (_ & -> & -> & ->)%c_div_Some & H & ->).
  right. exists ch, pvt, p, q. repeat (split; [done|]).
  cbn [app].
  by apply (write_loop_wp E fuel _ _ _ _ _ _ _ _ Hd Hp (to_int_range _)) in H as [H _].
Qed.

(** Every chunk a returning run of [ast_lantiq_write] copied into the
    buffer and wrote has between 0 and 500 bytes. *)
Lemma ast_lantiq_write_chunks fuel ast frame w r w' t :
  ast_lantiq_write E fuel ast frame w = Some (r, w', t) ->
  forall a l, a ∈ t -> write_length a = Some l ->
    0 <= l <= RTP_BUFFER_LEN - RTP_HEADER_LEN.
Proof.
  unfold ast_lantiq_write. intros H.
  apply bind_Some in H as (ch & ? & ? & ? & [Hch [-> ->]]%load_chan_Some & H & ->).
  destruct (frametype frame);
    [|apply ret_Some in H as (-> & -> & ->); by intros a l Ha%elem_of_nil..].
  apply bind_Some in H as (pvt & ? & ? & ? & [Htp [-> ->]]%deref_pvt_Some & H & ->).
  apply bind_Some in H as (p & ? & ? & ? & [Hp [-> ->]]%load_pvt_Some & H & ->).
  destruct (decide (subclass_codec frame = codec p));
    [|apply ret_Some in H as (-> & -> & ->); by intros a l Ha%elem_of_nil].
  destruct (Z.eqb_spec (datalen frame) 0) as [|Hd];
    [apply ret_Some in H as (-> & -> & ->); by intros a l Ha%elem_of_nil|].
  apply bind_Some in H as (q & ? & ? & ? & [Hq [-> ->]]%load_pvt_Some & H & ->).
  apply bind_Some in H as (sub & ? & ? & ? & (Hpt & -> & -> & ->)%c_div_Some & H & ->).
  apply bind_Some in H as (srtp & ? & ? & ? & (_ & -> & -> & ->)%c_div_Some & H & ->).
  apply bind_Some in H as (length & ? & ? & ? & (Hsub & -> & -> & ->)%c_div_Some & H & ->).
  apply bind_Some in H as (samples' & ? & ? & ? & (_ & -> & -> & ->)%c_div_Some & H & ->).
  cbn [app].
  by apply (write_loop_wp E fuel _ _ _ _ _ _ _ _ Hd Hp (to_int_range _)) in H as [_ H].
Qed.

End PacketizerRuns.

(** ** Properties of the packets of a run *)

Lemma to_uint16_add_l a b : to_uint16 (to_uint16 a + b) = to_uint16 (a + b).
Proof. unfold to_uint16. by rewrite Zplus_mod_idemp_l. Qed.

Lemma to_uint32_add_l a b : to_uint32 (to_uint32 a + b) = to_uint32 (a + b).
Proof. unfold to_uint32. by rewrite Zplus_mod_idemp_l. Qed.

Lemma to_uint32_to_int x : to_uint32 (to_int x) = to_uint32 x.
Proof.
  unfold to_uint32, to_int, wrap_signed. rewrite Zminus_mod_idemp_l. f_equal. ring.
Qed.

Lemma next_length_le frame head len0 :
  len0 <= RTP_BUFFER_LEN - RTP_HEADER_LEN ->
  next_length frame head len0 <= RTP_BUFFER_LEN - RTP_HEADER_LEN.
Proof.
  intros H. unfold next_length, to_long.
  destruct (Z.ltb_spec (wrap_signed 32 (datalen frame - head)) (RTP_BUFFER_LEN - RTP_HEADER_LEN));
    [|done].
  fold (to_int (datalen frame - head)) in *. rewrite to_int_small by apply to_int_range. lia.
Qed.

(** The chunk length [subframes_rtp * datalen / subframes] never exceeds the
    payload room of the buffer, whatever the frame. *)
Lemma initial_length_le frame subframes :
  subframes <> 0 -> datalen frame <> 0 ->
  Z.abs (initial_length frame subframes) <= RTP_BUFFER_LEN - RTP_HEADER_LEN.
Proof.
  intros Hs Hd. unfold initial_length.
  change (RTP_BUFFER_LEN - RTP_HEADER_LEN) with 500.
  set (W := to_int (500 * subframes)).
  assert (Z.abs W <= 500 * Z.abs subframes) as HW.
  { unfold W. etrans; [apply to_int_abs_le|]. rewrite Z.abs_mul. lia. }
  set (q1 := to_int (W ÷ datalen frame)).
  assert (Z.abs q1 * Z.abs (datalen frame) <= Z.abs W) as Hq1.
  { unfold q1. etrans; [apply Z.mul_le_mono_nonneg_r; [lia|apply to_int_abs_le]|].
    rewrite <- Z.quot_abs by done.
    rewrite Z.quot_div_nonneg by lia. rewrite Z.mul_comm. apply Z.mul_div_le. lia. }
  set (pr := to_int (q1 * datalen frame)).
  assert (Z.abs pr <= Z.abs W) as Hpr.
  { unfold pr. etrans; [apply to_int_abs_le|]. by rewrite Z.abs_mul. }
  etrans; [apply to_int_abs_le|].
  rewrite <- Z.quot_abs by done. rewrite Z.quot_div_nonneg by lia.
  apply Z.div_le_upper_bound; lia.
Qed.

Section PacketsProps.
Variable E : env.
Variable frame : ast_frame.
Variable c : Z.

Lemma packets_writes hdr n head len0 seq ts t r seq' ts' :
  packets E frame c hdr n head len0 seq ts t r seq' ts' ->
  forall i a, t !! i = Some a ->
    exists h hd l, a = Write c h hd l /\ payload_type h = payload_type hdr.
Proof.
  induction 1 as [| | |hdr n head len0 seq ts t r seq' ts' Hlt Hr len' hdr' Hpk IH];
    intros i a Hi; try done.
  - destruct i; [|done]. simplify_eq/=. by eexists _, _, _.
  - destruct i as [|i]; simplify_eq/=; [by eexists _, _, _|].
    destruct (IH i a Hi) as (h & hd & l & -> & Hpt). by eexists _, _, _.
Qed.

Lemma packets_seqno hdr n head len0 seq ts t r seq' ts' :
  packets E frame c hdr n head len0 seq ts t r seq' ts' ->
  (forall i a h, t !! i = Some a -> write_header a = Some h ->
     seqno h = to_uint16 (seq + Z.of_nat i)) /\
  to_uint16 seq' = to_uint16 (seq + Z.of_nat (length t)).
Proof.
  induction 1 as [| | |hdr n head len0 seq ts t r seq' ts' Hlt Hr len' hdr' Hpk [IH1 IH2]].
  - split; [done|]. cbn. by rewrite Z.add_0_r.
  - split; [done|]. cbn. by rewrite Z.add_0_r.
  - split.
    + intros [|i] a h Hi Hh; simplify_eq/=. by rewrite Z.add_0_r.
    + cbn. unfold to_uint16. by rewrite Z.mod_mod.
  - split.
    + intros [|i] a h Hi Hh; simplify_eq/=; [by rewrite Z.add_0_r|].
      rewrite (IH1 i a h Hi Hh), to_uint16_add_l. f_equal. lia.
    + rewrite IH2, to_uint16_add_l. f_equal. cbn [length]. lia.
Qed.

Lemma packets_length hdr n head len0 seq ts t r seq' ts' :
  packets E frame c hdr n head len0 seq ts t r seq' ts' ->
  len0 <= RTP_BUFFER_LEN - RTP_HEADER_LEN ->
  forall a l, a ∈ t -> write_length a = Some l -> l <= RTP_BUFFER_LEN - RTP_HEADER_LEN.
Proof.
  induction 1 as [| | |hdr n head len0 seq ts t r seq' ts' Hlt Hr len' hdr' Hpk IH];
    intros Hlen a l Ha Hl.
  - by apply elem_of_nil in Ha.
  - by apply elem_of_nil in Ha.
  - apply list_elem_of_singleton in Ha as ->. simplify_eq/=. by apply next_length_le.
  - apply elem_of_cons in Ha as [->|Ha].
    + simplify_eq/=. by apply next_length_le.
    + eapply IH; [by apply next_length_le|done..].
Qed.


Lemma packets_failure hdr n head len0 seq ts t r seq' ts' :
  packets E frame c hdr n head len0 seq ts t r seq' ts' ->
  forall i a h l, t !! i = Some a -> write_header a = Some h -> write_length a = Some l ->
    write_ret E (n + i) < 0 ->
    r = Some (-1) /\ length t = S i /\
    seq' = to_uint16 (seqno h + 1) /\
    to_uint32 ts' = to_uint32 (timestamp h + ts_advance (payload_type h) (chunk_samples frame l)).
Proof.
  induction 1 as [| | |hdr n head len0 seq ts t r seq' ts' Hlt Hr len' hdr' Hpk IH];
    intros i a h l Hi Hh Hl Hret; try done.
  - destruct i; [|done]. simplify_eq/=. repeat split.
    + by rewrite to_uint16_add_l.
    + by rewrite to_uint32_to_int, to_uint32_add_l.
  - destruct i as [|i]; simplify_eq/=.
    + rewrite Nat.add_0_r in Hret. lia.
    + replace (n + S i)%nat with (S n + i)%nat in Hret by lia.
      destruct (IH i a h l Hi Hh Hl Hret) as (-> & -> & -> & ->). done.
Qed.

End PacketsProps.

(** ** The outbound packetizer: sequence numbers, timestamps, sizes, failures *)

Section PacketizerClaims.
Variable E : env.


(** C2.  The writes of one [ast_lantiq_write] call carry consecutive
    sequence numbers modulo 2^16: the i-th packet carries the port's
    [rtp_seqno] plus i, each packet carries its predecessor's number plus 1
    (so 65535 is followed by 0), and the port's counter is left at the last
    number plus 1, where the next call starts. *)
Theorem seqno_increments_by_one fuel ast frame w ch pvt p r w' t :
  chans w !! ast = Some ch ->
  tech_pvt ch = Some pvt ->
  pvt_lookup (iflist w) pvt = Some p ->
  ast_lantiq_write E fuel ast frame w = Some (r, w', t) ->
  (forall i a, t !! i = Some a ->
     exists h, write_header a = Some h /\ seqno h = to_uint16 (rtp_seqno p + Z.of_nat i)) /\
  (forall i a b ha hb,
     t !! i = Some a -> t !! S i = Some b ->
     write_header a = Some ha -> write_header b = Some hb ->
     seqno hb = to_uint16 (seqno ha + 1) /\ (seqno ha = 65535 -> seqno hb = 0)) /\
  (exists p', pvt_lookup (iflist w') pvt = Some p' /\
     to_uint16 (rtp_seqno p') = to_uint16 (rtp_seqno p + Z.of_nat (length t))).
Proof.
  intros Hch Htp Hp Hrun.
  apply ast_lantiq_write_run in Hrun as [(-> & -> & ->)|Hrun].
  { split; [done|]. split; [done|]. exists p. split; [done|]. cbn. by rewrite Z.add_0_r. }
  destruct Hrun as (ch' & pvt' & p' & q & Hch' & Htp' & Hp' & Hq & Hd & Hpt & Hsub
                    & seq' & ts' & Hpk & ->).
  simplify_eq.
  destruct (packets_seqno _ _ _ _ _ _ _ _ _ _ _ _ _ Hpk) as [Hseq Hlast].
  assert (forall i a, t !! i = Some a ->
     exists h, write_header a = Some h /\ seqno h = to_uint16 (rtp_seqno p + Z.of_nat i)) as H1.
  { intros i a Hi.
    destruct (packets_writes _ _ _ _ _ _ _ _ _ _ _ _ _ Hpk i a Hi) as (h & hd & l & -> & _).
    exists h. split; [done|]. by eapply Hseq. }
  split; [done|]. split.
  - intros i a b ha hb Hi HSi Ha Hb.
    assert (seqno hb = to_uint16 (seqno ha + 1)) as Heq.
    { rewrite (Hseq _ _ _ Hi Ha), (Hseq _ _ _ HSi Hb), to_uint16_add_l. f_equal. lia. }
    split; [done|]. intros H. by rewrite Heq, H.
  - eexists. split; [solve_lookup|]. done.
Qed.


(** C10.  When the write of the i-th packet of a call returns a negative
    result, [ast_lantiq_write] returns -1 and that packet is the last write
    of the call, whatever is left of the frame; yet the port's sequence
    number is already one past the failed packet's and its timestamp has
    already advanced by the failed chunk's samples. *)
Theorem write_failure_not_atomic fuel ast frame w ch pvt p r w' t i a h l :
  chans w !! ast = Some ch ->
  tech_pvt ch = Some pvt ->
  pvt_lookup (iflist w) pvt = Some p ->
  ast_lantiq_write E fuel ast frame w = Some (r, w', t) ->
  t !! i = Some a -> write_header a = Some h -> write_length a = Some l ->
  write_ret E i < 0 ->
  r = Some (-1) /\
  length t = S i /\
  exists p', pvt_lookup (iflist w') pvt = Some p' /\
    rtp_seqno p' = to_uint16 (seqno h + 1) /\
    to_uint32 (rtp_timestamp p') =
      to_uint32 (timestamp h + ts_advance (payload_type h) (chunk_samples frame l)).
Proof.
  intros Hch Htp Hp Hrun Hi Hh Hl Hret.
  apply ast_lantiq_write_run in Hrun as [(-> & -> & ->)|Hrun]; [done|].
  destruct Hrun as (ch' & pvt' & p' & q & Hch' & Htp' & Hp' & Hq & Hd & Hpt & Hsub
                    & seq' & ts' & Hpk & ->).
  simplify_eq.
  destruct (packets_failure _ _ _ _ _ _ _ _ _ _ _ _ _ Hpk i a h l Hi Hh Hl Hret)
    as (-> & Hlen & -> & Hts).
  split; [done|]. split; [done|].
  eexists. split; [solve_lookup|]. done.
Qed.

End PacketizerClaims.

(** ** Device state *)

(** C9.  [ast_lantiq_devicestate] accepts a query exactly when the parsed
    number minus 1 lies between 1 and the channel count.  A query for port
    number 1 is answered AST_DEVICE_INVALID; with a port table of [channels]
    entries, a query for number [channels + 1] passes the check and reads
    [iflist[channels]], one past the last entry. *)
Theorem devicestate_range_off_by_one w data :
  channels (dev_ctx w) = Z.of_nat (length (iflist w)) ->
  1 <= channels (dev_ctx w) ->
  (ast_lantiq_devicestate w data <> DeviceState AST_DEVICE_INVALID <->
   1 <= to_int (atoi data - 1) <= channels (dev_ctx w)) /\
  (atoi data = 1 -> ast_lantiq_devicestate w data = DeviceState AST_DEVICE_INVALID) /\
  (atoi data = channels (dev_ctx w) + 1 ->
   ast_lantiq_devicestate w data = OutOfBoundsRead (channels (dev_ctx w)) /\
   pvt_lookup (iflist w) (channels (dev_ctx w) - 1) <> None /\
   pvt_lookup (iflist w) (channels (dev_ctx w)) = None).
Proof.
  intros Hlen Hpos. unfold ast_lantiq_devicestate.
  split; [|split].
  - destruct (Z.ltb_spec (to_int (atoi data - 1)) 1);
      destruct (Z.ltb_spec (channels (dev_ctx w)) (to_int (atoi data - 1))); cbn [orb];
      [split; [done|lia]..|].
    split; [lia|]. intros _.
    destruct (pvt_lookup _ _) as [p|]; [|done]. by destruct (channel_state p).
  - intros ->. done.
  - intros Hd.
    assert (to_int (atoi data - 1) = channels (dev_ctx w)) as ->.
    { rewrite Hd. rewrite to_int_small; [lia|].
      assert (atoi data < 2 ^ 31) as Hr.
      { unfold atoi. repeat case_match; apply to_int_range. }
      lia. }
    assert (pvt_lookup (iflist w) (channels (dev_ctx w)) = None) as Hnone.
    { unfold pvt_lookup. destruct (Z.ltb_spec (channels (dev_ctx w)) 0); [done|].
      apply lookup_ge_None. lia. }
    split; [|split; [|done]].
    + destruct (Z.ltb_spec (channels (dev_ctx w)) 1); [lia|].
      rewrite Z.ltb_irrefl. cbn [orb]. by rewrite Hnone.
    + unfold pvt_lookup. destruct (Z.ltb_spec (channels (dev_ctx w) - 1) 0); [lia|].
      intros Hn%lookup_ge_None. lia.
Qed.

(** ** Dial attempts *)

Section Dial.
Variable E : env.
Variable AST_MAX_EXTENSION : Z.

Lemma set_dial_timer_id p : dial_timer p = 0 -> set_dial_timer 0 p = p.
Proof. destruct p. cbn. by intros ->. Qed.

(** When the extension exists but no channel can be allocated, [lantiq_dial]
    takes the [goto bailout] and leaves the port as it was, digits included. *)
Lemma lantiq_dial_alloc_failure w pvt p :
  pvt_lookup (iflist w) pvt = Some p ->
  ast_exists_extension E (context p) (dtmfbuf p) = true ->
  ast_channel_alloc_ok E = false ->
  lantiq_dial E pvt w = Some (tt, w, []).
Proof.
  intros Hp Hext Halloc. apply wp_eq. unfold lantiq_dial.
  wp_go. rewrite Hext. unfold lantiq_channel, ast_channel_alloc. rewrite Halloc.
  by wp_go.
Qed.

Lemma lantiq_dial_no_extension w pvt p :
  pvt_lookup (iflist w) pvt = Some p ->
  ast_exists_extension E (context p) (dtmfbuf p) = false ->
  lantiq_dial E pvt w =
    Some (tt, store_pvt w pvt (reset_dtmfbuf (set_channel_state CALL_ENDED p)),
          play_tone_trace (port_id p) TAPI_TONE_LOCALE_BUSY_CODE).
Proof.
  intros Hp Hext. apply wp_eq. unfold lantiq_dial.
  wp_go. rewrite Hext. wp_go. by rewrite app_nil_r.
Qed.

(** C7.  The dial timeout clears the timer handle and then, unless the port
    is ONHOOK, runs [lantiq_dial]: (1) on an ONHOOK port nothing else happens,
    no action is performed and no dial attempt is made; (2) on any other port
    the firing is a dial attempt on the buffered digits; (3) on a DIALING
    port the digit [#] leaves the same world as the firing of the timer and
    performs the same actions, preceded by the cancellation of the timer if
    one was pending. *)
Theorem dial_timeout_like_hash w pvt p :
  pvt_lookup (iflist w) pvt = Some p ->
  (channel_state p = ONHOOK ->
     lantiq_event_dial_timeout E pvt w =
       Some (0, store_pvt w pvt (set_dial_timer 0 p), [])) /\
  (channel_state p <> ONHOOK ->
     lantiq_event_dial_timeout E pvt w =
       (lantiq_dial E pvt;; ret 0) (store_pvt w pvt (set_dial_timer 0 p))) /\
  (channel_state p = DIALING ->
     final_world (lantiq_dev_event_digit E AST_MAX_EXTENSION pvt "#" w) =
       final_world (lantiq_event_dial_timeout E pvt w) /\
     final_trace (lantiq_dev_event_digit E AST_MAX_EXTENSION pvt "#" w) =
       (fun t => (if c_true (dial_timer p) then [AstSchedDel (dial_timer p)] else []) ++ t)
         <$> final_trace (lantiq_event_dial_timeout E pvt w)).
Proof.
  intros Hp.
  assert (lantiq_event_dial_timeout E pvt w =
      ((if c_true (c_eq (c_lnot (state_code (channel_state p))) (state_code ONHOOK))
        then lantiq_dial E pvt else ret tt);; ret 0)
      (store_pvt w pvt (set_dial_timer 0 p))) as Hto.
  { unfold lantiq_event_dial_timeout.
    unfold bind at 1. unfold upd_pvt at 1. rewrite Hp. fold (store_pvt w pvt (set_dial_timer 0 p)).
    unfold bind at 1. unfold load_pvt at 1.
    rewrite (pvt_lookup_store_pvt _ _ _ _ Hp). cbn [channel_state set_dial_timer].
    by destruct (bind _ _ _) as [[[? ?] ?]|]. }
  split; [|split].
  - intros Hs. rewrite Hto. apply not_state_eq_ONHOOK_false in Hs. by rewrite Hs.
  - intros Hs. rewrite Hto. apply not_state_eq_ONHOOK in Hs. by rewrite Hs.
  - intros Hs.
    assert (lantiq_dev_event_digit E AST_MAX_EXTENSION pvt "#" w =
            match lantiq_dial E pvt (store_pvt w pvt (set_dial_timer 0 p)) with
            | Some (b, w2, t2) =>
                Some (b, w2, (if c_true (dial_timer p)
                              then [AstSchedDel (dial_timer p)] else []) ++ t2)
            | None => None
            end) as Hdig.
    { unfold lantiq_dev_event_digit.
      unfold bind at 1. unfold load_pvt at 1. rewrite Hp, Hs.
      unfold lantiq_dev_event_digit_dialing. cbn [Ascii.eqb Bool.eqb].
      unfold bind at 1. unfold load_pvt at 1. rewrite Hp.
      destruct (c_true (dial_timer p)) eqn:Ht.
      - unfold bind at 1. unfold bind at 1. cbn [emit].
        unfold upd_pvt at 1. rewrite Hp. fold (store_pvt w pvt (set_dial_timer 0 p)).
        unfold bind.
        by destruct (lantiq_dial E pvt (store_pvt w pvt (set_dial_timer 0 p))) as [[[? ?] ?]|].
      - assert (dial_timer p = 0) as H0.
        { unfold c_true in Ht. by destruct (Z.eqb_spec (dial_timer p) 0). }
        rewrite (set_dial_timer_id p H0), (store_pvt_id _ _ _ Hp).
        unfold bind. cbn [ret].
        by destruct (lantiq_dial E pvt w) as [[[? ?] ?]|]. }
    rewrite Hdig, Hto, Hs. cbn [state_code c_lnot c_eq c_true Z.eqb negb].
    unfold bind. cbn [ret].
    destruct (lantiq_dial E pvt (store_pvt w pvt (set_dial_timer 0 p))) as [[[? ?] ?]|];
      [|done].
    cbn. by rewrite app_nil_r.
Qed.

End Dial.

(** ** Well-formed worlds are preserved *)

Section Invariant.
Variable MAX : Z.
Hypothesis MAX_pos : 0 < MAX < 2 ^ 31.

Lemma Inv_valid_tech_pvt w ch chan c :
  Inv MAX w -> chans w !! ch = Some chan -> tech_pvt chan = Some c ->
  exists p, pvt_lookup (iflist w) c = Some p /\ port_id p = c.
Proof.
  intros HI Hch Htp. destruct (ok_tech_pvt _ _ _ (inv_chan _ _ HI _ _ Hch) _ Htp) as [p Hp].
  exists p. split; [done|]. apply pvt_lookup_Some in Hp as [? Hp].
  rewrite (ok_port_id _ _ _ _ (inv_pvt _ _ HI _ _ Hp)). lia.
Qed.

Lemma Inv_port_id w c p : Inv MAX w -> pvt_lookup (iflist w) c = Some p -> port_id p = c.
Proof.
  intros HI [? Hp]%pvt_lookup_Some.
  rewrite (ok_port_id _ _ _ _ (inv_pvt _ _ HI _ _ Hp)). lia.
Qed.

Lemma Inv_owner w c p ch :
  Inv MAX w -> pvt_lookup (iflist w) c = Some p -> owner p = Some ch ->
  exists chan, chans w !! ch = Some chan /\ tech_pvt chan = Some c.
Proof.
  intros HI [? Hp]%pvt_lookup_Some Ho.
  destruct (ok_owner _ _ _ _ (inv_pvt _ _ HI _ _ Hp) _ Ho) as (chan & ? & ?).
  exists chan. split; [done|]. replace c with (Z.of_nat (Z.to_nat c)) by lia. done.
Qed.

(** The general update: port [c] becomes [P] and the channel heap [H']. *)
Lemma Inv_update w c p P H' N' :
  Inv MAX w ->
  pvt_lookup (iflist w) c = Some p ->
  port_id P = port_id p ->
  dtmf_ok MAX P ->
  (channel_state P = INCALL -> is_Some (owner P)) ->
  (forall ch, owner P = Some ch -> exists chan, H' !! ch = Some chan /\ tech_pvt chan = Some c) ->
  (forall i q ch, i <> Z.to_nat c -> iflist w !! i = Some q -> owner q = Some ch ->
     H' !! ch = chans w !! ch) ->
  (forall ch chan, H' !! ch = Some chan ->
     (ch < N')%nat /\ forall c', tech_pvt chan = Some c' -> is_Some (pvt_lookup (iflist w) c')) ->
  Inv MAX {| iflist := <[Z.to_nat c := P]> (iflist w); dev_ctx := dev_ctx w;
             chans := H'; next_chan := N' |}.
Proof.
  intros HI Hp Hid Hdtmf Hincall Hown Hother Hch.
  pose proof Hp as [Hc Hpl]%pvt_lookup_Some.
  assert (forall c', is_Some (pvt_lookup (iflist w) c') ->
                     is_Some (pvt_lookup (<[Z.to_nat c := P]> (iflist w)) c')) as Hvalid.
  { intros c' [q Hq]. destruct (decide (c = c')) as [<-|Hne].
    - eexists. by eapply pvt_lookup_insert_eq.
    - pose proof Hq as [? ?]%pvt_lookup_Some. rewrite pvt_lookup_insert_ne by done. by exists q. }
  split; cbn [iflist dev_ctx chans next_chan].
  - rewrite length_insert. apply HI.
  - intros i q Hq. destruct (decide (i = Z.to_nat c)) as [->|Hne].
    + rewrite list_lookup_insert_eq in Hq by (by eapply lookup_lt_Some). simplify_eq.
      pose proof (inv_pvt _ _ HI _ _ Hpl) as Hok. split; cbn [chans].
      * rewrite Hid. apply Hok.
      * done.
      * done.
      * intros ch Ho. destruct (Hown ch Ho) as (chan & ? & ?). exists chan. split; [done|].
        by rewrite Z2Nat.id.
    + rewrite list_lookup_insert_ne in Hq by done.
      pose proof (inv_pvt _ _ HI _ _ Hq) as Hok. split; cbn [chans]; try apply Hok.
      intros ch Ho. rewrite (Hother i q ch Hne Hq Ho). by apply Hok.
  - intros ch chan Hl. destruct (Hch ch chan Hl) as [? Htp]. split; cbn [iflist next_chan]; [done|].
    intros c' Hc'. apply Hvalid. by apply Htp.
Qed.

(** An update of port [c] alone. *)
Lemma Inv_store w c p P :
  Inv MAX w ->
  pvt_lookup (iflist w) c = Some p ->
  port_id P = port_id p ->
  dtmf_ok MAX P ->
  (channel_state P = INCALL -> is_Some (owner P)) ->
  (owner P = owner p \/ owner P = None) ->
  Inv MAX {| iflist := <[Z.to_nat c := P]> (iflist w); dev_ctx := dev_ctx w;
             chans := chans w; next_chan := next_chan w |}.
Proof.
  intros HI Hp Hid Hdtmf Hincall Ho.
  eapply Inv_update; try done.
  - intros ch HP. destruct Ho as [Ho|Ho]; [|congruence].
    rewrite Ho in HP. by eapply Inv_owner.
  - intros ch chan Hch. split; apply (inv_chan _ _ HI _ _ Hch).
Qed.

Lemma Inv_dtmf w c p : Inv MAX w -> pvt_lookup (iflist w) c = Some p -> dtmf_ok MAX p.
Proof. intros HI [? Hp]%pvt_lookup_Some. apply (inv_pvt _ _ HI _ _ Hp). Qed.

Lemma Inv_incall w c p :
  Inv MAX w -> pvt_lookup (iflist w) c = Some p -> channel_state p = INCALL ->
  is_Some (owner p).
Proof. intros HI [? Hp]%pvt_lookup_Some. apply (inv_pvt _ _ HI _ _ Hp). Qed.

End Invariant.

Ltac wp_norm :=
  world_simpl;
  rewrite ?list_insert_insert_eq, ?insert_insert_eq, ?delete_insert_eq;
  cbn [app].

Lemma jb_port_id E c p : port_id (jb_update E c p) = port_id p.
Proof. unfold jb_update. by destruct (_ =? _). Qed.
Lemma jb_owner E c p : owner (jb_update E c p) = owner p.
Proof. unfold jb_update. by destruct (_ =? _). Qed.
Lemma jb_channel_state E c p : channel_state (jb_update E c p) = channel_state p.
Proof. unfold jb_update. by destruct (_ =? _). Qed.
Lemma jb_dtmfbuf E c p : dtmfbuf (jb_update E c p) = dtmfbuf p.
Proof. unfold jb_update. by destruct (_ =? _). Qed.
Lemma jb_dtmfbuf_len E c p : dtmfbuf_len (jb_update E c p) = dtmfbuf_len p.
Proof. unfold jb_update. by destruct (_ =? _). Qed.
Lemma jb_dial_timer E c p : dial_timer (jb_update E c p) = dial_timer p.
Proof. unfold jb_update. by destruct (_ =? _). Qed.

Ltac fields :=
  repeat first
    [ progress rewrite ?jb_port_id, ?jb_owner, ?jb_channel_state, ?jb_dtmfbuf,
        ?jb_dtmfbuf_len, ?jb_dial_timer
    | progress cbn [port_id owner channel_state dtmfbuf dtmfbuf_len dial_timer context
        set_owner set_channel_state set_dial_timer set_dtmfbuf set_dtmfbuf_len
        set_rtp_timestamp set_ptime set_rtp_payload set_codec set_rtp_seqno
        set_call_setup_start set_call_setup_delay set_call_start set_call_answer
        set_jb_size set_jb_underflow set_jb_overflow set_jb_delay set_jb_invalid
        reset_dtmfbuf] ];
  try done.

Section Specs.
Variable E : env.
Variable MAX : Z.
Hypothesis MAX_pos : 0 < MAX < 2 ^ 31.

Lemma dtmf_ok_reset p : dtmf_ok MAX (reset_dtmfbuf p).
Proof. unfold dtmf_ok. cbn. lia. Qed.

(** *** Hangup *)

Lemma wp_ast_lantiq_hangup w ast ch pvt p Q :
  chans w !! ast = Some ch ->
  tech_pvt ch = Some pvt ->
  pvt_lookup (iflist w) pvt = Some p ->
  port_id p = pvt ->
  (forall t,
     Q 0 {| iflist := <[Z.to_nat pvt := hangup_pvt E p]> (iflist w);
            dev_ctx := dev_ctx w;
            chans := <[ast := set_tech_pvt None (set__state AST_STATE_DOWN ch)]> (chans w);
            next_chan := next_chan w |} t) ->
  wp (ast_lantiq_hangup E ast) w Q.
Proof.
  intros Hch Htp Hp <- HQ. unfold ast_lantiq_hangup, hangup_pvt in *.
  wp_go. rewrite Htp. wp_go.
  destruct (channel_state p); wp_go; wp_norm; apply HQ.
Qed.

Lemma wp_ast_hangup w ast ch pvt p Q :
  chans w !! ast = Some ch ->
  tech_pvt ch = Some pvt ->
  pvt_lookup (iflist w) pvt = Some p ->
  port_id p = pvt ->
  (forall t,
     Q tt {| iflist := <[Z.to_nat pvt := hangup_pvt E p]> (iflist w);
             dev_ctx := dev_ctx w;
             chans := delete ast (chans w);
             next_chan := next_chan w |} t) ->
  wp (ast_hangup E ast) w Q.
Proof.
  intros Hch Htp Hp Hid HQ. unfold ast_hangup. wp_go.
  eapply wp_ast_lantiq_hangup; [done..|]. intros t. wp_go. wp_norm. apply HQ.
Qed.

Lemma Inv_hangup w ast ch pvt p :
  Inv MAX w ->
  chans w !! ast = Some ch ->
  tech_pvt ch = Some pvt ->
  pvt_lookup (iflist w) pvt = Some p ->
  Inv MAX {| iflist := <[Z.to_nat pvt := hangup_pvt E p]> (iflist w);
             dev_ctx := dev_ctx w;
             chans := delete ast (chans w);
             next_chan := next_chan w |}.
Proof.
  intros HI Hch Htp Hp.
  eapply Inv_update; try done.
  - unfold hangup_pvt. fields.
  - unfold hangup_pvt, dtmf_ok. fields. apply (Inv_dtmf _ _ _ _ HI Hp).
  - unfold hangup_pvt. fields. by destruct (channel_state p).
  - intros i q ch' Hne Hq Ho. apply lookup_delete_ne. intros <-.
    destruct (ok_owner _ _ _ _ (inv_pvt _ _ HI _ _ Hq) _ Ho) as (chan & ? & ?).
    simplify_eq. pose proof Hp as [? ?]%pvt_lookup_Some. lia.
  - intros ch' chan [Hne Hl]%lookup_delete_Some.
    split; apply (inv_chan _ _ HI _ _ Hl).
Qed.

(** *** Channel creation *)

Lemma wp_lantiq_channel w st c ext ctx format p Q :
  pvt_lookup (iflist w) c = Some p ->
  (ast_channel_alloc_ok E = false -> Q None w []) ->
  (ast_channel_alloc_ok E = true -> forall t,
     Q (channel_result (next_chan w) format)
       {| iflist := <[Z.to_nat c := channel_pvt (next_chan w) format p]> (iflist w);
          dev_ctx := dev_ctx w;
          chans := <[next_chan w := new_chan st c]> (chans w);
          next_chan := S (next_chan w) |} t) ->
  wp (lantiq_channel E st c ext ctx format) w Q.
Proof.
  intros Hp Hfail Hok. unfold lantiq_channel, ast_channel_alloc.
  destruct (ast_channel_alloc_ok E); [|wp_go; by apply Hfail].
  specialize (Hok eq_refl). unfold channel_result, channel_pvt, new_chan in Hok.
  wp_go. destruct (decide (format = FORMAT_ZERO)) as [->|Hf].
  { wp_go. wp_norm. apply Hok. }
  unfold lantiq_conf_enc.
  destruct (conf_enc_case format) as [[[[enc fl] pt] pl]|]; wp_go;
    [change (0 <? 0) with false|change (-1 <? 0) with true]; wp_go; wp_norm; apply Hok.
Qed.

Lemma Inv_channel w st c format p :
  Inv MAX w ->
  pvt_lookup (iflist w) c = Some p ->
  Inv MAX {| iflist := <[Z.to_nat c := channel_pvt (next_chan w) format p]> (iflist w);
             dev_ctx := dev_ctx w;
             chans := <[next_chan w := new_chan st c]> (chans w);
             next_chan := S (next_chan w) |}.
Proof.
  intros HI Hp.
  assert (forall ch chan, chans w !! ch = Some chan -> ch <> next_chan w) as Hfresh.
  { intros ch chan Hch. pose proof (ok_fresh _ _ _ (inv_chan _ _ HI _ _ Hch)). lia. }
  eapply Inv_update; try done.
  - unfold channel_pvt. by destruct (conf_enc_case format) as [[[[? ?] ?] ?]|].
  - unfold channel_pvt, dtmf_ok.
    destruct (conf_enc_case format) as [[[[? ?] ?] ?]|]; apply (Inv_dtmf _ _ _ _ HI Hp).
  - intros _. unfold channel_pvt. by destruct (conf_enc_case format) as [[[[? ?] ?] ?]|].
  - intros ch Ho. exists (new_chan st c).
    assert (ch = next_chan w) as ->.
    { unfold channel_pvt in Ho. destruct (conf_enc_case format) as [[[[? ?] ?] ?]|];
        cbn in Ho; congruence. }
    by rewrite lookup_insert_eq.
  - intros i q ch Hne Hq Ho. apply lookup_insert_ne.
    destruct (ok_owner _ _ _ _ (inv_pvt _ _ HI _ _ Hq) _ Ho) as (chan & Hch & _).
    intros <-. by eapply Hfresh.
  - intros ch chan Hch. destruct (decide (ch = next_chan w)) as [->|Hne].
    + rewrite lookup_insert_eq in Hch. simplify_eq. split; [lia|].
      intros c' [= <-]. by eexists.
    + rewrite lookup_insert_ne in Hch by done.
      pose proof (inv_chan _ _ HI _ _ Hch) as [? ?]. split; [lia|done].
Qed.


(** *** Dial attempts *)

Lemma lantiq_dial_spec w pvt p :
  Inv MAX w ->
  pvt_lookup (iflist w) pvt = Some p ->
  wp (lantiq_dial E pvt) w (fun _ w' t =>
    Inv MAX w' /\ length (iflist w') = length (iflist w) /\
    exists p', pvt_lookup (iflist w') pvt = Some p' /\
      ((ast_exists_extension E (context p) (dtmfbuf p) = true /\
        ast_channel_alloc_ok E = false /\ w' = w /\ t = []) \/
       (dtmfbuf p' = EmptyString /\ dtmfbuf_len p' = 0 /\
        (ast_exists_extension E (context p) (dtmfbuf p) = false \/
         ast_channel_alloc_ok E = true)))).
Proof.
  intros HI Hp. pose proof (Inv_port_id _ _ _ _ HI Hp) as Hid.
  pose proof (Inv_dtmf _ _ _ _ HI Hp) as Hdtmf.
  unfold lantiq_dial. wp_go.
  destruct (ast_exists_extension E (context p) (dtmfbuf p)) eqn:Hext.
  2:{ wp_go. wp_norm. split; [|split; [by rewrite length_insert|]].
      - eapply Inv_store; [done..|fields|apply dtmf_ok_reset|fields|left; fields].
      - eexists. split; [solve_lookup|]. right. fields. auto. }
  rewrite Hid. wp_step. eapply wp_lantiq_channel; [done| |].
  { intros Halloc. wp_go. split; [done|]. split; [done|]. exists p. split; [done|]. by left. }
  intros Halloc t.
  change (channel_result (next_chan w) FORMAT_ZERO) with (Some (next_chan w)).
  unfold channel_pvt, new_chan. cbn [conf_enc_case].
  assert (forall ch chan, chans w !! ch = Some chan -> ch <> next_chan w) as Hfresh.
  { intros ch chan Hch. pose proof (ok_fresh _ _ _ (inv_chan _ _ HI _ _ Hch)). lia. }
  assert (forall i q ch, iflist w !! i = Some q -> owner q = Some ch -> ch <> next_chan w)
    as Hfresh'.
  { intros i q ch Hq Ho.
    destruct (ok_owner _ _ _ _ (inv_pvt _ _ HI _ _ Hq) _ Ho) as (chan & Hch & _).
    by eapply Hfresh. }
  wp_go.
  destruct (c_true (ast_pbx_start_ret E)).
  - eapply wp_ast_hangup; [solve_lookup|reflexivity|solve_lookup|done|].
    intros t'. wp_go. wp_norm.
    split; [|split; [by rewrite length_insert|]].
    + eapply Inv_update; [done|done|..].
      * unfold hangup_pvt. fields.
      * apply dtmf_ok_reset.
      * unfold hangup_pvt. fields.
      * unfold hangup_pvt. fields.
      * intros i q ch Hne Hq Ho. rewrite lookup_delete_ne; [done|].
        intros <-. by eapply Hfresh'.
      * intros ch chan [Hne Hl]%lookup_delete_Some.
        pose proof (inv_chan _ _ HI _ _ Hl) as [? ?]. split; [lia|done].
    + eexists. split; [solve_lookup|]. right. fields. auto.
  - wp_go. wp_norm.
    split; [|split; [by rewrite length_insert|]].
    + eapply Inv_update; [done|done|..].
      * fields.
      * apply dtmf_ok_reset.
      * fields.
      * fields. intros ch [= <-]. eexists. rewrite lookup_insert_eq. done.
      * intros i q ch Hne Hq Ho. rewrite lookup_insert_ne; [done|].
        intros <-. by eapply Hfresh'.
      * intros ch chan Hl. destruct (decide (ch = next_chan w)) as [->|Hne].
        -- rewrite lookup_insert_eq in Hl. simplify_eq. split; [lia|].
           cbn. intros c' [= <-]. by eexists.
        -- rewrite lookup_insert_ne in Hl by done.
           pose proof (inv_chan _ _ HI _ _ Hl) as [? ?]. split; [lia|done].
    + eexists. split; [solve_lookup|]. right. fields. auto.
Qed.

End Specs.

(** *** Strings *)

Lemma string_length_app (s t : string) :
  String.length (s ++ t) = (String.length s + String.length t)%nat.
Proof. induction s as [|a s IH]; [done|]. cbn [String.append String.length]. simpl. by f_equal. Qed.

Lemma substring_all (s : string) : substring 0 (String.length s) s = s.
Proof. induction s as [|a s IH]; [done|]. simpl. by f_equal. Qed.

Section DigitSpecs.
Variable E : env.
Variable MAX : Z.
Hypothesis MAX_pos : 0 < MAX < 2 ^ 31.

Lemma dtmfbuf_store_ok p digit :
  dtmf_ok MAX p ->
  dtmfbuf_len p < MAX - 1 ->
  dtmfbuf_store (dtmfbuf p) (dtmfbuf_len p) digit = (dtmfbuf p ++ String digit EmptyString)%string /\
  to_int (dtmfbuf_len p + 1) = dtmfbuf_len p + 1 /\
  dtmf_ok MAX (set_dtmfbuf_len (to_int (dtmfbuf_len p + 1))
                 (set_dtmfbuf (dtmfbuf_store (dtmfbuf p) (dtmfbuf_len p) digit) p)).
Proof.
  intros [Hr Hl] Hroom.
  assert (dtmfbuf_store (dtmfbuf p) (dtmfbuf_len p) digit
          = (dtmfbuf p ++ String digit EmptyString)%string) as Hs.
  { unfold dtmfbuf_store. rewrite <- Hl, Nat2Z.id. by rewrite substring_all. }
  assert (to_int (dtmfbuf_len p + 1) = dtmfbuf_len p + 1) as Hi
    by (apply to_int_small; lia).
  split; [done|]. split; [done|].
  unfold dtmf_ok. cbn. rewrite Hs, Hi, string_length_app. cbn. lia.
Qed.

Lemma Inv_hangup_gen w ast ch pvt p P :
  Inv MAX w ->
  chans w !! ast = Some ch ->
  tech_pvt ch = Some pvt ->
  pvt_lookup (iflist w) pvt = Some p ->
  port_id P = port_id p ->
  dtmf_ok MAX P ->
  channel_state P <> INCALL ->
  owner P = None ->
  Inv MAX {| iflist := <[Z.to_nat pvt := P]> (iflist w);
             dev_ctx := dev_ctx w;
             chans := delete ast (chans w);
             next_chan := next_chan w |}.
Proof.
  intros HI Hch Htp Hp Hid Hdtmf Hst Ho.
  eapply Inv_update; [done|done|done|done|done|..].
  - intros ch'. by rewrite Ho.
  - intros i q ch' Hne Hq Hoq. apply lookup_delete_ne. intros <-.
    destruct (ok_owner _ _ _ _ (inv_pvt _ _ HI _ _ Hq) _ Hoq) as (chan & ? & ?).
    simplify_eq. pose proof Hp as [? ?]%pvt_lookup_Some. lia.
  - intros ch' chan [Hne Hl]%lookup_delete_Some.
    split; apply (inv_chan _ _ HI _ _ Hl).
Qed.

Lemma hangup_pvt_fields p :
  port_id (hangup_pvt E p) = port_id p /\
  dtmfbuf (hangup_pvt E p) = dtmfbuf p /\
  dtmfbuf_len (hangup_pvt E p) = dtmfbuf_len p /\
  dial_timer (hangup_pvt E p) = dial_timer p /\
  owner (hangup_pvt E p) = None /\
  channel_state (hangup_pvt E p) <> INCALL.
Proof.
  unfold hangup_pvt. rewrite ?jb_port_id, ?jb_owner, ?jb_channel_state, ?jb_dtmfbuf,
    ?jb_dtmfbuf_len, ?jb_dial_timer. cbn.
  rewrite ?jb_port_id, ?jb_owner, ?jb_channel_state, ?jb_dtmfbuf,
    ?jb_dtmfbuf_len, ?jb_dial_timer. cbn.
  repeat split. by destruct (channel_state p).
Qed.

Lemma lantiq_end_dialing_spec w c p :
  Inv MAX w ->
  pvt_lookup (iflist w) c = Some p ->
  wp (lantiq_end_dialing E c) w (fun r w' t =>
    r = 0 /\ Inv MAX w' /\ length (iflist w') = length (iflist w) /\
    exists p', pvt_lookup (iflist w') c = Some p' /\
      dtmfbuf p' = EmptyString /\ dtmfbuf_len p' = 0 /\ dial_timer p' = 0 /\
      port_id p' = port_id p /\
      (owner p = None -> owner p' = None /\ channel_state p' = channel_state p)).
Proof.
  intros HI Hp. pose proof (Inv_port_id _ _ _ _ HI Hp) as Hid.
  pose proof (Inv_dtmf _ _ _ _ HI Hp) as Hdtmf.
  unfold lantiq_end_dialing. wp_go.
  set (p1 := if c_true (dial_timer p) then set_dial_timer 0 p else p).
  assert (port_id p1 = c /\ owner p1 = owner p /\ channel_state p1 = channel_state p /\
          dtmf_ok MAX p1 /\ dial_timer p1 = 0) as (Hid1 & Ho1 & Hs1 & Hd1 & Ht1).
  { unfold p1, c_true. destruct (Z.eqb_spec (dial_timer p) 0); by cbn. }
  eapply wp_of_eq with (a0 := tt)
    (w0 := {| iflist := <[Z.to_nat c := p1]> (iflist w); dev_ctx := dev_ctx w;
              chans := chans w; next_chan := next_chan w |})
    (t0 := if c_true (dial_timer p) then [AstSchedDel (dial_timer p)] else []).
  { unfold p1. destruct (c_true (dial_timer p)).
    - apply wp_eq. by wp_go.
    - cbn. rewrite list_insert_id; [by destruct w|]. by apply pvt_lookup_Some in Hp as [_ ?]. }
  assert (Inv MAX {| iflist := <[Z.to_nat c := p1]> (iflist w); dev_ctx := dev_ctx w;
                     chans := chans w; next_chan := next_chan w |}) as HI1.
  { eapply Inv_store; [done|done|congruence|done| |by left].
    rewrite Hs1, Ho1. by eapply Inv_incall. }
  wp_go. rewrite Ho1. destruct (owner p) as [ch|] eqn:Hown.
  - destruct (Inv_owner _ _ _ _ _ HI Hp Hown) as (chan & Hch & Htp).
    destruct (hangup_pvt_fields p1) as (Hh1 & Hh2 & Hh3 & Hh4 & Hh5 & Hh6).
    eapply wp_ast_hangup; [solve_lookup|done|solve_lookup|done|].
    intros t. wp_go. wp_norm.
    split; [done|]. split; [|split; [by rewrite length_insert|]].
    + eapply Inv_hangup_gen; [done..|fields; congruence|by apply dtmf_ok_reset|fields|fields].
    + eexists. split; [solve_lookup|]. fields.
      repeat split; [congruence|congruence|done].
  - wp_go. wp_norm.
    split; [done|]. split; [|split; [by rewrite length_insert|]].
    + eapply Inv_store; [done..|fields; congruence|by apply dtmf_ok_reset| |fields; left; congruence].
      fields. rewrite Hs1. intros Hs.
      destruct (Inv_incall _ _ _ _ HI Hp Hs) as [? ?]. congruence.
    + eexists. split; [solve_lookup|]. fields.
      repeat split; [done|congruence|congruence|done].
Qed.

End DigitSpecs.

Section DigitHandler.
Variable MAX : Z.
Hypothesis MAX_pos : 0 < MAX < 2 ^ 31.
Variable E : env.

Lemma digit_dialing_spec w c digit p :
  Inv MAX w ->
  pvt_lookup (iflist w) c = Some p ->
  wp (lantiq_dev_event_digit_dialing E MAX c digit) w (fun _ w' t =>
    Inv MAX w' /\ length (iflist w') = length (iflist w) /\
    (digit <> "#"%char -> digit_outcome MAX c digit p w' t)).
Proof.
  intros HI Hp. pose proof (Inv_port_id _ _ _ _ HI Hp) as Hid.
  pose proof (Inv_dtmf _ _ _ _ HI Hp) as Hdtmf.
  unfold lantiq_dev_event_digit_dialing.
  destruct (Ascii.eqb_spec digit "#") as [->|Hne].
  - wp_go.
    set (p1 := if c_true (dial_timer p) then set_dial_timer 0 p else p).
    eapply wp_of_eq with (a0 := tt)
      (w0 := {| iflist := <[Z.to_nat c := p1]> (iflist w); dev_ctx := dev_ctx w;
                chans := chans w; next_chan := next_chan w |})
      (t0 := if c_true (dial_timer p) then [AstSchedDel (dial_timer p)] else []).
    { unfold p1. destruct (c_true (dial_timer p)).
      - apply wp_eq. by wp_go.
      - cbn. rewrite list_insert_id; [by destruct w|]. by apply pvt_lookup_Some in Hp as [_ ?]. }
    assert (Inv MAX {| iflist := <[Z.to_nat c := p1]> (iflist w); dev_ctx := dev_ctx w;
                       chans := chans w; next_chan := next_chan w |}) as HI1.
    { unfold p1. destruct (c_true (dial_timer p)).
      - eapply Inv_store; [done..|fields|fields|fields|fields; by left].
        by eapply Inv_incall.
      - rewrite list_insert_id; [by destruct w|]. by apply pvt_lookup_Some in Hp as [_ ?]. }
    eapply wp_mono; [eapply (lantiq_dial_spec E MAX MAX_pos _ c p1); [done|solve_lookup]|].
    cbn beta. intros _ w' t (HI' & Hlen & _). split; [done|]. split; [|done].
    rewrite Hlen. cbn. by rewrite length_insert.
  - wp_go. unfold digit_outcome.
    destruct (Z.ltb_spec (dtmfbuf_len p) (MAX - 1)) as [Hroom|Hfull].
    + destruct (dtmfbuf_store_ok MAX MAX_pos p digit Hdtmf Hroom) as (Hs & Hi & Hok).
      wp_go. fields.
      destruct (c_true (dial_timer p)); cbn [negb]; wp_go; wp_norm.
      * split; [|split; [by rewrite length_insert|]].
        -- eapply Inv_store; [done..|fields|fields|fields|fields; by left].
           by eapply Inv_incall.
        -- intros _. eexists. split; [solve_lookup|]. by fields.
      * split; [|split; [by rewrite length_insert|]].
        -- eapply Inv_store; [done..|fields|fields|fields|fields; by left].
           by eapply Inv_incall.
        -- intros _. eexists. split; [solve_lookup|]. by fields.
    + wp_step. eapply wp_mono; [by eapply lantiq_end_dialing_spec|].
      cbn beta. intros r w1 t1 (-> & HI1 & Hlen1 & p1 & Hp1 & Hb1 & Hl1 & Ht1 & Hid1 & _).
      wp_go. wp_norm.
      split; [|split; [by rewrite length_insert|]].
      * destruct w1 as [l1 d1 h1 n1]. cbn [iflist] in *.
        eapply (Inv_store MAX {| iflist := l1; dev_ctx := d1; chans := h1; next_chan := n1 |});
          [done..|fields| |fields|fields; by left].
        unfold dtmf_ok. fields. rewrite Hb1, Hl1. cbn. lia.
      * intros _. eexists. split; [solve_lookup|]. fields.
        repeat split; [done..|].
        rewrite !elem_of_app. right. left. rewrite Hid1, Hid.
        unfold play_tone_trace. cbn. solve_elem.
Qed.


Lemma lantiq_dev_event_digit_spec w c digit p :
  Inv MAX w ->
  pvt_lookup (iflist w) c = Some p ->
  wp (lantiq_dev_event_digit E MAX c digit) w (fun _ w' t =>
    Inv MAX w' /\ length (iflist w') = length (iflist w) /\
    (digit <> "#"%char ->
     (channel_state p = DIALING -> digit_outcome MAX c digit p w' t) /\
     (channel_state p = OFFHOOK ->
        digit_outcome MAX c digit (set_channel_state DIALING p) w' t))).
Proof.
  intros HI Hp. unfold lantiq_dev_event_digit. wp_go.
  destruct (channel_state p) eqn:Hs; try (wp_go; split; [by destruct w|]; by split).
  - (* OFFHOOK *)
    wp_go.
    eapply wp_mono.
    { eapply (digit_dialing_spec _ c digit (set_channel_state DIALING p)); [|solve_lookup].
      eapply Inv_store; [done..|fields|exact (Inv_dtmf _ _ _ _ HI Hp)|fields|fields; by left]. }
    cbn beta. intros _ w' t (HI' & Hlen & Hout). split; [done|]. split.
    { rewrite Hlen. cbn. by rewrite length_insert. }
    intros Hne. split; [done|]. intros _. specialize (Hout Hne).
    destruct Hout as (p' & Hp' & Hout). exists p'. split; [done|].
    cbn [dtmfbuf_len set_channel_state] in *.
    destruct (dtmfbuf_len p <? MAX - 1); [done|].
    destruct Hout as (? & ? & ? & Hin). repeat split; [done..|].
    rewrite elem_of_app, elem_of_cons. auto.
  - (* DIALING *)
    eapply wp_mono; [by eapply digit_dialing_spec|].
    cbn beta. intros _ w' t (HI' & Hlen & Hout). split; [done|]. split; [done|].
    intros Hne. split; [|done]. intros _. by apply Hout.
  - (* INCALL *)
    unfold lantiq_send_digit. wp_go.
    destruct (Inv_incall _ _ _ _ HI Hp Hs) as [ch Hown]. rewrite Hown.
    destruct (Inv_owner _ _ _ _ _ HI Hp Hown) as (chan & Hch & Htp).
    wp_go. split; [by destruct w|]. by split.
Qed.

End DigitHandler.

Section DigitRuns.
Variable MAX : Z.
Hypothesis MAX_pos : 0 < MAX < 2 ^ 31.

(** Digit events on valid ports never crash and keep the world well
    formed. *)
Lemma run_digits_spec evs : forall w,
  Inv MAX w ->
  Forall (fun ev => is_Some (pvt_lookup (iflist w) ev.1.2)) evs ->
  wp (run_digits MAX evs) w (fun _ w' _ =>
    Inv MAX w' /\ length (iflist w') = length (iflist w)).
Proof.
  induction evs as [|[[E' c] digit] evs IH]; intros w HI Hok.
  - cbn. by apply wp_ret.
  - cbn [run_digits]. apply Forall_cons in Hok as [[p Hp] Hok]. cbn in Hp.
    wp_step. eapply wp_mono; [by eapply lantiq_dev_event_digit_spec|].
    cbn beta. intros _ w1 t1 (HI1 & Hlen1 & _).
    eapply wp_mono; [apply IH; [done|]|].
    + eapply Forall_impl; [done|]. cbn. intros [[? c'] ?] [q Hq]. cbn in *.
      apply pvt_lookup_Some in Hq as [? Hq].
      destruct (lookup_lt_is_Some_2 (iflist w1) (Z.to_nat c')) as [q' Hq'].
      { rewrite Hlen1. by eapply lookup_lt_Some. }
      exists q'. by apply pvt_lookup_Some.
    + cbn beta. intros _ w2 t2 (HI2 & Hlen2). split; [done|]. congruence.
Qed.

End DigitRuns.

Ltac keeps_split := unfold keeps; wp_norm; split; [|by rewrite ?length_insert].

Section Handlers.
Variable MAX : Z.
Hypothesis MAX_pos : 0 < MAX < 2 ^ 31.
Variable E : env.

Lemma keeps_refl {A} (a : A) w t : Inv MAX w -> keeps MAX w a w t.
Proof. by split. Qed.

Lemma Inv_chan_update w ast ch ch' :
  Inv MAX w ->
  chans w !! ast = Some ch ->
  tech_pvt ch' = tech_pvt ch ->
  Inv MAX {| iflist := iflist w; dev_ctx := dev_ctx w;
             chans := <[ast := ch']> (chans w); next_chan := next_chan w |}.
Proof.
  intros HI Hch Htp. split; cbn [iflist dev_ctx chans next_chan].
  - apply HI.
  - intros i p Hp. pose proof (inv_pvt _ _ HI _ _ Hp) as Hok.
    split; cbn [chans]; try apply Hok.
    intros c Ho. destruct (ok_owner _ _ _ _ Hok _ Ho) as (chan & Hc & Ht).
    destruct (decide (c = ast)) as [->|Hne].
    + exists ch'. rewrite lookup_insert_eq. split; [done|]. simplify_eq. congruence.
    + exists chan. by rewrite lookup_insert_ne.
  - intros c chan Hc. destruct (decide (c = ast)) as [->|Hne].
    + rewrite lookup_insert_eq in Hc. simplify_eq.
      pose proof (inv_chan _ _ HI _ _ Hch) as [? Hv]. split; cbn; [done|].
      intros c' Hc'. apply Hv. congruence.
    + rewrite lookup_insert_ne in Hc by done.
      pose proof (inv_chan _ _ HI _ _ Hc) as [? ?]. by split.
Qed.

(** *** Hook events *)

Lemma accept_call_spec w c p :
  Inv MAX w ->
  pvt_lookup (iflist w) c = Some p ->
  wp (accept_call E c) w (keeps MAX w).
Proof.
  intros HI Hp. unfold accept_call. wp_go.
  destruct (owner p) as [ch|] eqn:Hown; [|wp_go; by apply keeps_refl; destruct w].
  destruct (Inv_owner _ _ _ _ _ HI Hp Hown) as (chan & Hch & Htp).
  wp_go. destruct (_state chan); wp_go; try (by apply keeps_refl; destruct w).
  keeps_split.
  eapply Inv_store; [done..|fields|exact (Inv_dtmf _ _ _ _ HI Hp)|fields|fields; by left].
Qed.

Lemma lantiq_dev_event_hook_spec w c st p :
  Inv MAX w ->
  pvt_lookup (iflist w) c = Some p ->
  wp (lantiq_dev_event_hook E c st) w (keeps MAX w).
Proof.
  intros HI Hp. unfold lantiq_dev_event_hook. destruct (c_true st).
  - (* going onhook *)
    wp_go.
    assert (forall r : Z, Inv MAX w ->
      wp (upd_pvt c (set_channel_state ONHOOK);; lantiq_standby E c;; led_off c;; ret r) w
         (keeps MAX w)) as Hrest.
    { intros r _. wp_go. keeps_split.
      eapply Inv_store; [done..|fields|exact (Inv_dtmf _ _ _ _ HI Hp)|fields|fields; by left]. }
    destruct (channel_state p) eqn:Hs; try (wp_go; apply wp_bind in Hrest; apply Hrest).
    all: try by (wp_go; keeps_split;
                 eapply Inv_store;
                   [done..|fields|exact (Inv_dtmf _ _ _ _ HI Hp)|fields|fields; by left]).
    + (* DIALING *)
      eapply wp_mono; [by eapply lantiq_end_dialing_spec|].
      cbn beta. intros r w1 t1 (-> & HI1 & Hlen1 & p1 & Hp1 & Hb1 & Hl1 & Ht1 & Hid1 & _).
      destruct w1 as [l1 d1 h1 n1]. cbn [iflist] in *.
      wp_go. keeps_split.
      eapply (Inv_store MAX {| iflist := l1; dev_ctx := d1; chans := h1; next_chan := n1 |});
        [done..|fields|exact (Inv_dtmf _ _ _ _ HI1 Hp1)|fields|fields; by left].
    + (* INCALL *)
      unfold lantiq_end_call. wp_go.
      destruct (Inv_incall _ _ _ _ HI Hp Hs) as [ch Hown]. rewrite Hown.
      destruct (Inv_owner _ _ _ _ _ HI Hp Hown) as (chan & Hch & Htp).
      wp_go. keeps_split.
      eapply Inv_store; [done..|fields| |fields|fields; by left].
      unfold dtmf_ok. fields. exact (Inv_dtmf _ _ _ _ HI Hp).
  - (* going offhook *)
    wp_go. destruct (c_true _); wp_go; [by apply keeps_refl; destruct w|].
    destruct (channel_state p) eqn:Hs.
    all: try by (wp_go; keeps_split;
                 eapply Inv_store;
                   [done..|fields|exact (Inv_dtmf _ _ _ _ HI Hp)|fields|fields; by left]).
    wp_step. eapply wp_mono; [by eapply accept_call_spec|].
    cbn beta. intros r w1 t1 [HI1 Hlen1]. wp_go. by split.
Qed.

End Handlers.

Section CoreHandlers.
Variable MAX : Z.
Hypothesis MAX_pos : 0 < MAX < 2 ^ 31.
Variable E : env.

Lemma lantiq_event_dial_timeout_spec w pvt p :
  Inv MAX w ->
  pvt_lookup (iflist w) pvt = Some p ->
  wp (lantiq_event_dial_timeout E pvt) w (keeps MAX w).
Proof.
  intros HI Hp. unfold lantiq_event_dial_timeout. wp_go.
  assert (Inv MAX {| iflist := <[Z.to_nat pvt := set_dial_timer 0 p]> (iflist w);
                     dev_ctx := dev_ctx w; chans := chans w; next_chan := next_chan w |})
    as HI1.
  { eapply Inv_store; [done..|fields|exact (Inv_dtmf _ _ _ _ HI Hp)|fields|fields; by left].
    by eapply Inv_incall. }
  destruct (c_true _).
  - eapply wp_mono; [eapply (lantiq_dial_spec E MAX MAX_pos); [done|solve_lookup]|].
    cbn beta. intros _ w' t (HI' & Hlen & _). wp_go. split; [done|].
    rewrite Hlen. cbn. by rewrite length_insert.
  - wp_go. by keeps_split.
Qed.

Lemma ast_lantiq_requester_spec w format data :
  Inv MAX w ->
  wp (ast_lantiq_requester E format data) w (keeps MAX w).
Proof.
  intros HI. unfold ast_lantiq_requester.
  destruct data as [[|a d]|]; try (wp_go; by apply keeps_refl; destruct w).
  wp_go.
  destruct (Z.ltb_spec (atoi (String a d)) 1);
    destruct (Z.ltb_spec (channels (dev_ctx w)) (atoi (String a d))); cbn [orb];
    try (wp_go; by apply keeps_refl; destruct w).
  assert (to_int (atoi (String a d) - 1) = atoi (String a d) - 1) as Hi.
  { apply to_int_small. assert (atoi (String a d) < 2 ^ 31); [|lia].
    unfold atoi. repeat case_match; apply to_int_range. }
  rewrite Hi.
  destruct (lookup_lt_is_Some_2 (iflist w) (Z.to_nat (atoi (String a d) - 1))) as [p Hp].
  { rewrite (inv_channels _ _ HI) in *. lia. }
  assert (pvt_lookup (iflist w) (atoi (String a d) - 1) = Some p) as Hp'
    by (apply pvt_lookup_Some; split; [lia|done]).
  wp_go. destruct (c_true _); [wp_go; by apply keeps_refl; destruct w|].
  wp_step. eapply wp_lantiq_channel; [done| |].
  - intros _. wp_go. by apply keeps_refl; destruct w.
  - intros _ t. wp_go. keeps_split. by apply Inv_channel.
Qed.

Lemma ast_lantiq_call_spec w ast ch :
  Inv MAX w ->
  chans w !! ast = Some ch ->
  is_Some (tech_pvt ch) ->
  cid_of ch = None \/ name_of ch <> None ->
  wp (ast_lantiq_call E ast) w (keeps MAX w).
Proof.
  intros HI Hch [pvt Htp] Hcid.
  destruct (Inv_valid_tech_pvt _ _ _ _ _ HI Hch Htp) as (p & Hp & Hid).
  unfold ast_lantiq_call. wp_go. rewrite Htp. wp_go.
  fold (cid_of ch) (name_of ch).
  assert (forall st, channel_state p <> ONHOOK ->
    wp (ast_setstate ast st;; ast_queue_control ast AST_CONTROL_BUSY;; ret (-1)) w
       (keeps MAX w)) as Hbusy.
  { intros st _. wp_go. keeps_split. by eapply Inv_chan_update. }
  destruct (channel_state p) eqn:Hs; try (by apply Hbusy).
  unfold lantiq_ring. cbn [c_true Z.eqb negb].
  assert (Inv MAX {| iflist := <[Z.to_nat pvt := set_channel_state RINGING p]> (iflist w);
                     dev_ctx := dev_ctx w; chans := chans w; next_chan := next_chan w |})
    as HI1.
  { eapply Inv_store; [done..|fields|exact (Inv_dtmf _ _ _ _ HI Hp)|fields|fields; by left]. }
  destruct (cid_of ch) as [cid|]; [destruct (name_of ch) as [name|]; [|by destruct Hcid]|];
    wp_go; keeps_split;
    by eapply (Inv_chan_update MAX
      {| iflist := <[Z.to_nat pvt := set_channel_state RINGING p]> (iflist w);
         dev_ctx := dev_ctx w; chans := chans w; next_chan := next_chan w |}).
Qed.

Lemma ast_hangup_spec w ast ch :
  Inv MAX w ->
  chans w !! ast = Some ch ->
  is_Some (tech_pvt ch) ->
  wp (ast_hangup E ast) w (keeps MAX w).
Proof.
  intros HI Hch [pvt Htp].
  destruct (Inv_valid_tech_pvt _ _ _ _ _ HI Hch Htp) as (p & Hp & Hid).
  eapply wp_ast_hangup; [done..|]. intros t. keeps_split. by eapply Inv_hangup.
Qed.

Lemma ast_lantiq_answer_spec w ast ch :
  Inv MAX w ->
  chans w !! ast = Some ch ->
  is_Some (tech_pvt ch) ->
  wp (ast_lantiq_answer E ast) w (keeps MAX w).
Proof.
  intros HI Hch [pvt Htp].
  destruct (Inv_valid_tech_pvt _ _ _ _ _ HI Hch Htp) as (p & Hp & Hid).
  unfold ast_lantiq_answer, lantiq_conf_enc. wp_go. rewrite Htp. wp_go. rewrite Hid.
  destruct (conf_enc_case (writeformat ch)) as [[[[enc fl] pt] pl]|]; wp_go;
    [change (c_true 0) with false|change (c_true (-1)) with true]; wp_go;
    [|by apply keeps_refl; destruct w].
  keeps_split.
  eapply Inv_store; [done..|fields|exact (Inv_dtmf _ _ _ _ HI Hp)|fields|fields; by left].
  by eapply Inv_incall.
Qed.

Lemma ast_lantiq_indicate_spec w ast ch condition :
  Inv MAX w ->
  chans w !! ast = Some ch ->
  is_Some (tech_pvt ch) ->
  wp (ast_lantiq_indicate E ast condition) w (keeps MAX w).
Proof.
  intros HI Hch [pvt Htp].
  destruct (Inv_valid_tech_pvt _ _ _ _ _ HI Hch Htp) as (p & Hp & Hid).
  unfold ast_lantiq_indicate. wp_go.
  destruct condition; rewrite ?Htp; wp_go; try (by apply keeps_refl; destruct w).
  all: keeps_split;
    eapply Inv_store; [done..|fields|exact (Inv_dtmf _ _ _ _ HI Hp)|fields|fields; by left];
    by eapply Inv_incall.
Qed.

End CoreHandlers.

Section Reachability.
Variable MAX : Z.
Hypothesis MAX_pos : 0 < MAX < 2 ^ 31.

(** Every well-formed event is processed without a crash and leaves the
    world well formed. *)
Lemma dispatch_spec E w ev :
  Inv MAX w -> event_ok w ev -> wp (dispatch E MAX ev) w (keeps MAX w).
Proof.
  intros HI Hok. destruct ev as [c st|c d|pvt|f d|ast|ast|ast|ast cond]; cbn in Hok |- *.
  - destruct Hok as [p Hp]. wp_step.
    eapply wp_mono; [by eapply lantiq_dev_event_hook_spec|]. intros r w' t Hk. by wp_go.
  - destruct Hok as [p Hp].
    eapply wp_mono; [by eapply lantiq_dev_event_digit_spec|].
    intros r w' t (? & ? & _). by split.
  - destruct Hok as [p Hp]. wp_step.
    eapply wp_mono; [by eapply lantiq_event_dial_timeout_spec|]. intros r w' t Hk. by wp_go.
  - wp_step.
    eapply wp_mono; [by eapply ast_lantiq_requester_spec|]. intros r w' t Hk. by wp_go.
  - destruct Hok as (ch & Hch & Htp & Hcid). wp_step.
    eapply wp_mono; [by eapply ast_lantiq_call_spec|]. intros r w' t Hk. by wp_go.
  - destruct Hok as (ch & Hch & Htp). by eapply ast_hangup_spec.
  - destruct Hok as (ch & Hch & Htp). wp_step.
    eapply wp_mono; [by eapply ast_lantiq_answer_spec|]. intros r w' t Hk. by wp_go.
  - destruct Hok as (ch & Hch & Htp). wp_step.
    eapply wp_mono; [by eapply ast_lantiq_indicate_spec|]. intros r w' t Hk. by wp_go.
Qed.

Lemma reachable_Inv w0 w : Inv MAX w0 -> reachable MAX w0 w -> Inv MAX w.
Proof.
  intros HI0. induction 1 as [|w E ev w' t Hreach IH Hok Hrun]; [done|].
  by destruct (wp_det _ _ _ _ _ _ (dispatch_spec E w ev IH Hok) Hrun).
Qed.

End Reachability.

(** ** The world with a freshly built port table *)

Section Load.
Variable MAX : Z.
Hypothesis MAX_pos : 0 < MAX < 2 ^ 31.

Lemma load_world_Inv b ctx : 0 <= channels ctx -> Inv MAX (load_world b ctx).
Proof.
  intros Hn. split.
  - cbn. rewrite length_fmap, length_seqZ. lia.
  - intros i p Hi. cbn in Hi.
    apply list_lookup_fmap_Some_1 in Hi as (j & -> & Hj).
    apply lookup_seqZ in Hj as [-> _].
    split; cbn; [lia| |done..].
    split; cbn; lia.
  - intros ch chan Hch. cbn in Hch. by rewrite lookup_empty in Hch.
Qed.

Lemma example_world_Inv st digits :
  Z.of_nat (String.length digits) < MAX -> Inv MAX (example_world st digits).
Proof.
  intros Hd. split.
  - reflexivity.
  - intros [|[|i]] p Hi; cbn in Hi; [| |done]; simplify_eq.
    + split; cbn; [done| | |].
      * split; cbn; lia.
      * by eexists.
      * intros ch [= <-]. by eexists.
    + split; cbn; [done| |done..]. split; cbn; lia.
  - intros ch chan Hch. cbn in Hch.
    apply lookup_singleton_Some in Hch as [<- <-]. split; cbn; [lia|].
    intros c [= <-]. by eexists.
Qed.

End Load.

(** ** The digit buffer *)

Section DigitBuffer.
Variable MAX : Z.
Hypothesis MAX_pos : 0 < MAX < 2 ^ 31.

(** C5.  From a well-formed world, every sequence of digit events on
    existing ports runs to completion and leaves every port's digit buffer
    with [0 <= dtmfbuf_len < AST_MAX_EXTENSION], the buffer holding exactly
    [dtmfbuf_len] digits (so at most AST_MAX_EXTENSION - 1).  A digit other
    than [#] that arrives on a port collecting digits is appended in full
    while [dtmfbuf_len < AST_MAX_EXTENSION - 1]; otherwise it is not
    appended: the buffer is reset to empty, the busy tone is played and the
    port is in state CALL_ENDED. *)
Theorem dial_buffer_below_capacity w :
  Inv MAX w ->
  (forall evs,
     Forall (fun ev => is_Some (pvt_lookup (iflist w) ev.1.2)) evs ->
     wp (run_digits MAX evs) w (fun _ w' _ =>
       forall c p, pvt_lookup (iflist w') c = Some p ->
         0 <= dtmfbuf_len p < MAX /\
         Z.of_nat (String.length (dtmfbuf p)) = dtmfbuf_len p /\
         Z.of_nat (String.length (dtmfbuf p)) <= MAX - 1)) /\
  (forall E c digit p,
     pvt_lookup (iflist w) c = Some p ->
     channel_state p = DIALING \/ channel_state p = OFFHOOK ->
     digit <> "#"%char ->
     wp (lantiq_dev_event_digit E MAX c digit) w (fun _ w' t =>
       exists p', pvt_lookup (iflist w') c = Some p' /\
         if dtmfbuf_len p <? MAX - 1 then
           dtmfbuf p' = (dtmfbuf p ++ String digit EmptyString)%string /\
           dtmfbuf_len p' = dtmfbuf_len p + 1
         else
           dtmfbuf p' = EmptyString /\ dtmfbuf_len p' = 0 /\
           channel_state p' = CALL_ENDED /\
           Ioctl c (IFX_TAPI_TONE_LOCAL_PLAY TAPI_TONE_LOCALE_BUSY_CODE) ∈ t)).
Proof.
  intros HI. split.
  - intros evs Hok. eapply wp_mono; [by apply run_digits_spec|].
    cbn beta. intros _ w' _ [HI' _] c p Hp.
    destruct (Inv_dtmf _ _ _ _ HI' Hp) as [Hlen Hstr]. lia.
  - intros E c digit p Hp Hs Hne.
    eapply wp_mono; [by apply lantiq_dev_event_digit_spec|].
    cbn beta. intros _ w' t (_ & _ & Hout). destruct (Hout Hne) as [Hd Ho].
    assert (digit_outcome MAX c digit p w' t \/
            digit_outcome MAX c digit (set_channel_state DIALING p) w' t) as Hcase.
    { destruct Hs; [left|right]; auto. }
    destruct Hcase as [(p' & Hp' & H)|(p' & Hp' & H)]; exists p'; (split; [done|]);
      cbn [dtmfbuf_len dtmfbuf set_channel_state] in H;
      destruct (dtmfbuf_len p <? MAX - 1); tauto.
Qed.

End DigitBuffer.

(** ** Dial attempts and the digit buffer *)

(** C6.  A dial attempt that finds the extension but cannot allocate the
    channel leaves through [goto bailout], which skips
    [lantiq_reset_dtmfbuf]: on a port in state DIALING with the digits
    "1234" buffered, [lantiq_dial] returns with the world unchanged, the
    four digits still in the buffer. *)
Theorem lantiq_dial_bailout_keeps_digits :
  let E := example_env false (fun _ => 0) in
  let w := example_world DIALING "1234" in
  lantiq_dial E 0 w = Some (tt, w, []) /\
  (dtmfbuf <$> pvt_lookup (iflist w) 0) = Some "1234"%string /\
  (dtmfbuf_len <$> pvt_lookup (iflist w) 0) = Some 4.
Proof.
  cbn zeta. split; [|done].
  by apply (lantiq_dial_alloc_failure _ _ 0 (example_pvt 0 DIALING "1234" (Some 0%nat))).
Qed.

(** ** On-hook during a call *)

Section OnHookInCall.
Variable MAX : Z.
Variable E : env.

(** C8.  On a port in state INCALL of a well-formed world, an on-hook event
    returns 0; the port has an owner channel [ch]; the jitter-buffer
    statistics are read first (and, when the ioctl succeeds, stored in the
    port's [jb_*] fields), then exactly one hangup is queued, on [ch]; the
    port ends in state ONHOOK with the rest of the world unchanged. *)
Theorem onhook_in_call_queues_one_hangup w c p st :
  Inv MAX w ->
  pvt_lookup (iflist w) c = Some p ->
  channel_state p = INCALL ->
  st <> 0 ->
  exists ch t p',
    owner p = Some ch /\
    lantiq_dev_event_hook E c st w = Some (0, store_pvt w c p', t) /\
    p' = set_channel_state ONHOOK (jb_update E c p) /\
    channel_state p' = ONHOOK /\
    (ioctl_ret E c IFX_TAPI_JB_STATISTICS_GET = IFX_SUCCESS ->
       jb_size p' = nBufSize (jb_statistics E c) /\
       jb_underflow p' = nIsUnderflow (jb_statistics E c) /\
       jb_overflow p' = nDsOverflow (jb_statistics E c) /\
       jb_delay p' = nPODelay (jb_statistics E c) /\
       jb_invalid p' = nInvalid (jb_statistics E c)) /\
    (exists t', t = Ioctl c IFX_TAPI_JB_STATISTICS_GET :: AstQueueHangup ch :: t') /\
    filter is_queue_hangup t = [AstQueueHangup ch].
Proof.
  intros HI Hp Hs Hst.
  destruct (Inv_incall _ _ _ _ HI Hp Hs) as [ch Ho].
  destruct (Inv_owner _ _ _ _ _ HI Hp Ho) as (chan & Hch & _).
  exists ch. eexists. eexists.
  split; [done|]. split; [by eapply lantiq_dev_event_hook_incall|].
  split; [done|]. split; [done|]. split; [|split].
  - intros Hok. unfold jb_update. rewrite Hok. by cbn.
  - by eexists.
  - change (?a :: ?b :: ?l) with ([a; b] ++ l).
    rewrite !filter_app, standby_trace_no_hangup. reflexivity.
Qed.

End OnHookInCall.

(** ** Termination of the packetizer *)

Section PacketizerTermination.
Variable E : env.

Lemma next_length_pos frame head length :
  head < datalen frame < 2 ^ 31 -> 0 <= head -> 0 < length ->
  0 < next_length frame head length <= Z.max length (datalen frame - head).
Proof.
  intros Hh H0 Hl. unfold next_length.
  destruct (_ <? _); [|lia].
  unfold to_long. fold (to_int (datalen frame - head)).
  rewrite !to_int_small; rewrite ?to_int_small; lia.
Qed.

(** With a positive chunk length every iteration moves [head] forward, so
    the loop is over after at most [datalen - head] iterations. *)
Lemma write_loop_returns fuel : forall pvt frame hdr n head length smp w p,
  datalen frame <> 0 ->
  pvt_lookup (iflist w) pvt = Some p ->
  0 <= head -> datalen frame < 2 ^ 31 ->
  0 < length <= RTP_BUFFER_LEN - RTP_HEADER_LEN ->
  Z.max 0 (datalen frame - head) < Z.of_nat fuel ->
  wp (write_loop E fuel pvt frame hdr n head length smp) w (fun r _ _ => is_Some r).
Proof.
  induction fuel as [|fuel IH];
    intros pvt frame hdr n head length smp w p Hd Hp H0 Hmax [Hl Hle] Hfuel.
  { lia. }
  cbn [write_loop]. destruct (Z.ltb_spec head (datalen frame)) as [Hlt|Hge].
  2:{ apply wp_ret. by eexists. }
  pose proof (next_length_pos frame head length (conj Hlt Hmax) H0 Hl) as Hnext.
  repeat wp_step.
  apply wp_of_eq with
    (a0 := (next_length frame head length,
            if to_long (datalen frame - head) <? RTP_BUFFER_LEN - RTP_HEADER_LEN
            then chunk_samples frame (next_length frame head length) else smp))
    (w0 := {| iflist := <[Z.to_nat pvt := set_rtp_seqno (to_uint16 (rtp_seqno p + 1)) p]> (iflist w);
              dev_ctx := dev_ctx w; chans := chans w; next_chan := next_chan w |})
    (t0 := []).
  { unfold next_length, chunk_samples.
    destruct (to_long (datalen frame - head) <? RTP_BUFFER_LEN - RTP_HEADER_LEN); [|done].
    apply wp_eq. wp_step. eapply wp_c_div; [done|]. by wp_step. }
  cbn [fst snd].
  pose proof (next_length_le frame head length Hle) as Hnle.
  apply wp_bind, wp_memcpy_buf; [lia|].
  repeat wp_step. cbn zeta.
  rewrite list_insert_insert_eq.
  destruct (Z.ltb_spec (write_ret E n) 0) as [Hr|Hr].
  - wp_go. by eexists.
  - eapply IH; [done|solve_lookup|lia..].
Qed.

Lemma subframes_of_eq frame ptime' :
  subframes_of frame ptime' = to_int (to_long (to_long (ptime' + len frame) - 1) ÷ ptime').
Proof. reflexivity. Qed.

Lemma initial_length_eq frame subframes :
  initial_length frame subframes =
  to_int (to_int (to_int (to_int ((RTP_BUFFER_LEN - RTP_HEADER_LEN) * subframes)
                            ÷ datalen frame) * datalen frame) ÷ subframes).
Proof. reflexivity. Qed.

(** A voice frame in the port's codec, with a positive length below 2^31,
    a port whose packetization time and subframe count are not zero and a
    positive initial chunk length: [ast_lantiq_write] returns, with 0 or
    -1, given more fuel than the frame has bytes. *)
Lemma ast_lantiq_write_returns fuel ast frame w ch pvt p q :
  chans w !! ast = Some ch ->
  tech_pvt ch = Some pvt ->
  pvt_lookup (iflist w) pvt = Some p ->
  pvt_lookup (iflist w) (port_id p) = Some q ->
  ptime q <> 0 ->
  subframes_of frame (ptime q) <> 0 ->
  0 < datalen frame < 2 ^ 31 ->
  0 < initial_length frame (subframes_of frame (ptime q)) ->
  datalen frame < Z.of_nat fuel ->
  wp (ast_lantiq_write E fuel ast frame) w (fun r _ _ => is_Some r).
Proof.
  intros Hch Htp Hp Hq Hpt Hsub Hd Hlen Hfuel. unfold ast_lantiq_write.
  destruct (frametype frame); repeat wp_step; try by eexists.
  rewrite Htp. cbn [deref_pvt]. repeat wp_step.
  destruct (decide _); [|apply wp_ret; by eexists].
  destruct (Z.eqb_spec (datalen frame) 0) as [|n]; [lia|].
  repeat wp_step.
  rewrite initial_length_eq, !subframes_of_eq in Hlen. rewrite subframes_of_eq in Hsub.
  eapply wp_c_div; [exact Hpt|]. wp_step.
  eapply wp_c_div; [exact n|]. wp_step.
  eapply wp_c_div; [exact Hsub|]. wp_step.
  eapply wp_c_div; [exact n|].
  eapply write_loop_returns; [exact n|exact Hp|done|apply Hd|split; [exact Hlen|]|].
  - pose proof (initial_length_le frame _ Hsub n) as Hle.
    rewrite initial_length_eq in Hle. clear -Hle. lia.
  - clear -Hd Hfuel. lia.
Qed.

End PacketizerTermination.

(** ** Worked examples

    The theorems above at concrete inputs: a two-port board whose first port
    is owned by channel 0, and a 20 ms signed-linear frame of 640 bytes that
    the packetizer splits in two chunks of 320 bytes, starting at sequence
    number 65535. *)

(** The run of [ast_lantiq_write] on the example frame. *)
Ltac example_run E :=
  let run := constr:(ast_lantiq_write E 10 0 example_frame (example_world INCALL EmptyString)) in
  let v := eval vm_compute in run in
  assert (run = v) as Hrun by (vm_compute; reflexivity).

(** The two packets of the example frame carry the sequence numbers 65535
    and 0. *)
Lemma seqno_wrap_example :
  exists r w' t,
    ast_lantiq_write (example_env true (fun _ => 332)) 10 0 example_frame
      (example_world INCALL EmptyString) = Some (r, w', t) /\
    (forall i a, t !! i = Some a ->
       exists h, write_header a = Some h /\ seqno h = to_uint16 (65535 + Z.of_nat i)) /\
    (forall i a b ha hb,
       t !! i = Some a -> t !! S i = Some b ->
       write_header a = Some ha -> write_header b = Some hb ->
       seqno hb = to_uint16 (seqno ha + 1) /\ (seqno ha = 65535 -> seqno hb = 0)) /\
    (exists p', pvt_lookup (iflist w') 0 = Some p' /\
       to_uint16 (rtp_seqno p') = to_uint16 (65535 + Z.of_nat (length t))).
Proof.
  example_run (example_env true (fun _ => 332)).
  eexists _, _, _. split; [exact Hrun|].
  refine (seqno_increments_by_one _ 10 0 example_frame _ (example_chan 0) 0
            (example_pvt 0 INCALL EmptyString (Some 0%nat)) _ _ _ _ _ _ Hrun);
    reflexivity.
Defined.


(** When the first write fails, the call returns -1 after one packet, with
    the second chunk never sent and the counters already moved on to 0 and
    160. *)
Lemma write_failure_example :
  exists w' t p',
    ast_lantiq_write (example_env true (fun _ => -1)) 10 0 example_frame
      (example_world INCALL EmptyString) = Some (Some (-1), w', t) /\
    length t = 1%nat /\
    pvt_lookup (iflist w') 0 = Some p' /\
    rtp_seqno p' = 0 /\ to_uint32 (rtp_timestamp p') = 160.
Proof.
  example_run (example_env true (fun _ => -1)).
  destruct (write_failure_not_atomic _ 10 0 example_frame
              (example_world INCALL EmptyString) (example_chan 0) 0
              (example_pvt 0 INCALL EmptyString (Some 0%nat)) _ _ _ 0%nat _ _ _
              eq_refl eq_refl eq_refl Hrun eq_refl eq_refl eq_refl ltac:(cbn; lia))
    as (_ & Hlen & p' & Hp' & Hseq & Hts).
  eexists _, _, p'. split; [exact Hrun|]. split; [exact Hlen|]. split; [exact Hp'|].
  split; [exact Hseq|exact Hts].
Defined.

(** With room for four digits, a fifth digit on a port that holds "1234"
    is dropped: the buffer is emptied, the busy tone is played and the port
    is in state CALL_ENDED. *)
Lemma dial_buffer_overflow_example :
  wp (lantiq_dev_event_digit (example_env true (fun _ => 0)) 5 0 "5")
     (example_world DIALING "1234")
     (fun _ w' t =>
        exists p', pvt_lookup (iflist w') 0 = Some p' /\
          dtmfbuf p' = EmptyString /\ dtmfbuf_len p' = 0 /\
          channel_state p' = CALL_ENDED /\
          Ioctl 0 (IFX_TAPI_TONE_LOCAL_PLAY TAPI_TONE_LOCALE_BUSY_CODE) ∈ t).
Proof.
  assert (0 < 5 < 2 ^ 31) as Hmax by lia.
  refine (proj2 (dial_buffer_below_capacity 5 Hmax (example_world DIALING "1234") _)
            (example_env true (fun _ => 0)) 0 "5"%char
            (example_pvt 0 DIALING "1234" (Some 0%nat)) _ _ _).
  - apply example_world_Inv; [exact Hmax|cbn; lia].
  - reflexivity.
  - left. reflexivity.
  - discriminate.
Defined.

(** On a port that is dialing "1234", the dial timeout and the digit [#]
    leave the same world. *)
Lemma dial_timeout_example :
  final_world (lantiq_dev_event_digit (example_env true (fun _ => 0)) 5 0 "#"
                 (example_world DIALING "1234")) =
  final_world (lantiq_event_dial_timeout (example_env true (fun _ => 0)) 0
                 (example_world DIALING "1234")).
Proof.
  refine (proj1 (proj2 (proj2 (dial_timeout_like_hash (example_env true (fun _ => 0)) 5
                                 (example_world DIALING "1234") 0
                                 (example_pvt 0 DIALING "1234" (Some 0%nat)) _)) _));
    reflexivity.
Defined.

(** Port 0 of the example board goes on hook during a call: channel 0 gets
    the one hangup. *)
Lemma onhook_in_call_example :
  exists t p',
    lantiq_dev_event_hook (example_env true (fun _ => 0)) 0 1 (example_world INCALL EmptyString) =
      Some (0, store_pvt (example_world INCALL EmptyString) 0 p', t) /\
    channel_state p' = ONHOOK /\
    jb_size p' = 720 /\
    filter is_queue_hangup t = [AstQueueHangup 0].
Proof.
  assert (0 < 5 < 2 ^ 31) as Hmax by lia.
  destruct (onhook_in_call_queues_one_hangup 5 (example_env true (fun _ => 0))
              (example_world INCALL EmptyString) 0
              (example_pvt 0 INCALL EmptyString (Some 0%nat)) 1)
    as (ch & t & p' & Hch & Hrun & _ & Hst & Hjb & _ & Hq).
  - apply example_world_Inv; [exact Hmax|cbn; lia].
  - reflexivity.
  - reflexivity.
  - discriminate.
  - injection Hch as <-. exists t, p'. split; [exact Hrun|]. split; [exact Hst|].
    split; [exact (proj1 (Hjb eq_refl))|exact Hq].
Defined.

(** On the example board with two ports, "1" is refused and "3" reads
    [iflist[2]], one entry past the table. *)
Lemma devicestate_example :
  ast_lantiq_devicestate (example_world ONHOOK EmptyString) "1" =
    DeviceState AST_DEVICE_INVALID /\
  ast_lantiq_devicestate (example_world ONHOOK EmptyString) "3" = OutOfBoundsRead 2.
Proof.
  split.
  - refine (proj1 (proj2 (devicestate_range_off_by_one
                            (example_world ONHOOK EmptyString) "1" _ _)) _);
      [reflexivity|cbn; lia|reflexivity].
  - refine (proj1 (proj2 (proj2 (devicestate_range_off_by_one
                            (example_world ONHOOK EmptyString) "3" _ _)) _));
      [reflexivity|cbn; lia|reflexivity].
Defined.

(** * Further properties of the driver *)

(** ** The packetizer: termination and coverage of the frame *)

Section PacketizerCoverage.
Variable E : env.

Lemma to_long_small x : - 2 ^ 31 <= x < 2 ^ 31 -> to_long x = x.
Proof. apply to_int_small. Qed.

Lemma next_length_exact frame head length :
  0 <= head < datalen frame -> datalen frame < 2 ^ 31 ->
  0 < length <= RTP_BUFFER_LEN - RTP_HEADER_LEN ->
  0 < next_length frame head length <= RTP_BUFFER_LEN - RTP_HEADER_LEN /\
  head + next_length frame head length <= datalen frame.
Proof.
  intros Hh Hd Hl. unfold next_length.
  rewrite to_long_small by lia.
  destruct (Z.ltb_spec (datalen frame - head) (RTP_BUFFER_LEN - RTP_HEADER_LEN)).
  - rewrite to_int_small by lia. lia.
  - lia.
Qed.

Lemma packets_result frame c hdr n head len0 seq ts t r seq' ts' :
  packets E frame c hdr n head len0 seq ts t r seq' ts' ->
  r = None \/ r = Some 0 \/ r = Some (-1).
Proof. induction 1; auto. Qed.

(** The chunks of a run follow one another, stay inside the frame, and add
    up to the whole frame when the loop ends with 0. *)
Lemma packets_cover frame c hdr n head len0 seq ts t r seq' ts' :
  packets E frame c hdr n head len0 seq ts t r seq' ts' ->
  0 <= head -> datalen frame < 2 ^ 31 ->
  0 < len0 <= RTP_BUFFER_LEN - RTP_HEADER_LEN ->
  contiguous head t /\
  head + payload_bytes t <= Z.max head (datalen frame) /\
  (r = Some 0 -> head < datalen frame -> head + payload_bytes t = datalen frame) /\
  (r = Some 0 -> forall i, (i < length t)%nat -> 0 <= write_ret E (n + i)).
Proof.
  induction 1 as [hdr n head len0 seq ts Hge|hdr n head len0 seq ts
                 |hdr n head len0 seq ts Hlt Hret length' hdr'
                 |hdr n head len0 seq ts t r seq' ts' Hlt Hret length' hdr' Hpk IH];
    intros Hh Hd Hl.
  - cbn. repeat split; lia.
  - cbn. repeat split; try lia; done.
  - destruct (next_length_exact frame head len0) as [Hn Hn']; [lia..|].
    fold length' in Hn, Hn'. cbn. repeat split; try lia; done.
  - destruct (next_length_exact frame head len0) as [Hn Hn']; [lia..|].
    fold length' in Hn, Hn'.
    destruct IH as (Hc & Hle & Heq & Hok); [lia..|].
    cbn [contiguous payload_bytes]. repeat split; try done; try lia.
    + intros Hr _. destruct (Z_lt_le_dec (head + length') (datalen frame)) as [Hlt'|Hge'].
      * specialize (Heq Hr Hlt'). lia.
      * assert (t = []) as ->.
        { inversion Hpk; subst; try done; lia. }
        cbn. lia.
    + intros Hr [|i] Hi.
      * by rewrite Nat.add_0_r.
      * cbn in Hi. replace (n + S i)%nat with (S n + i)%nat by lia. apply Hok; [done|lia].
Qed.

Lemma initial_length_pos frame s :
  0 < s -> 0 < datalen frame <= 500 * s -> 500 * s < 2 ^ 31 ->
  0 < initial_length frame s.
Proof.
  intros Hs Hd H500. unfold initial_length.
  change (RTP_BUFFER_LEN - RTP_HEADER_LEN) with 500.
  rewrite (to_int_small (500 * s)) by lia.
  set (q := 500 * s ÷ datalen frame).
  assert (q = 500 * s / datalen frame) as Hq by (apply Z.quot_div_nonneg; lia).
  assert (1 <= q) as Hq1 by (rewrite Hq; apply Z.div_le_lower_bound; lia).
  assert (q * datalen frame <= 500 * s) as Hle.
  { rewrite Hq. pose proof (Z.mul_div_le (500 * s) (datalen frame)). lia. }
  assert (500 * s < (q + 1) * datalen frame) as Hgt.
  { rewrite Hq. pose proof (Z.mul_succ_div_gt (500 * s) (datalen frame)). lia. }
  rewrite (to_int_small q) by nia.
  rewrite (to_int_small (q * datalen frame)) by nia.
  assert (1 <= q * datalen frame ÷ s <= 500 * s) as Hr.
  { rewrite Z.quot_div_nonneg by nia. split.
    - apply Z.div_le_lower_bound; nia.
    - apply Z.div_le_upper_bound; nia. }
  rewrite to_int_small by lia. lia.
Qed.

Lemma initial_length_zero frame s :
  0 < s -> 500 * s < datalen frame < 2 ^ 31 -> initial_length frame s = 0.
Proof.
  intros Hs Hd. unfold initial_length.
  change (RTP_BUFFER_LEN - RTP_HEADER_LEN) with 500.
  rewrite (to_int_small (500 * s)) by lia.
  rewrite (Z.quot_small (500 * s)) by lia.
  change (to_int 0) with 0. rewrite Z.mul_0_l. change (to_int 0) with 0.
  rewrite Z.quot_0_l by lia. reflexivity.
Qed.

Lemma subframes_of_zero frame pt :
  0 < pt < 2 ^ 31 -> 1 - pt <= len frame <= 0 -> subframes_of frame pt = 0.
Proof.
  intros Hpt Hlen. unfold subframes_of.
  rewrite (to_long_small (pt + len frame)) by lia.
  rewrite (to_long_small (pt + len frame - 1)) by lia.
  rewrite Z.quot_small by lia. reflexivity.
Qed.

End PacketizerCoverage.

(** ** The packetizer on whole frames *)

Lemma bind_pure {A B} (m : M A) (k : A -> M B) w a :
  m w = Some (a, w, []) -> bind m k w = k a w.
Proof. intros H. unfold bind. rewrite H. by destruct (k a w) as [[[? ?] ?]|]. Qed.

Lemma bind_crash {A B} (m : M A) (k : A -> M B) w : m w = None -> bind m k w = None.
Proof. intros H. unfold bind. by rewrite H. Qed.

Lemma load_chan_eq w ast ch : chans w !! ast = Some ch -> load_chan ast w = Some (ch, w, []).
Proof. intros H. unfold load_chan. by rewrite H. Qed.

Lemma load_pvt_eq w c p : pvt_lookup (iflist w) c = Some p -> load_pvt c w = Some (p, w, []).
Proof. intros H. unfold load_pvt. by rewrite H. Qed.

Lemma c_div_eq a b w : b <> 0 -> c_div a b w = Some (to_int (a ÷ b), w, []).
Proof. intros H. unfold c_div. by destruct (Z.eqb_spec b 0). Qed.

Lemma c_div_zero a w : c_div a 0 w = None.
Proof. reflexivity. Qed.

Section PacketizerFrames.
Variable E : env.

(** A voice frame in the port's codec reaches the loop, unless a division
    by zero stops the call before. *)
Lemma ast_lantiq_write_voice fuel ast frame w ch pvt p q :
  chans w !! ast = Some ch ->
  tech_pvt ch = Some pvt ->
  pvt_lookup (iflist w) pvt = Some p ->
  pvt_lookup (iflist w) (port_id p) = Some q ->
  frametype frame = AST_FRAME_VOICE ->
  subclass_codec frame = codec p ->
  datalen frame <> 0 ->
  ast_lantiq_write E fuel ast frame w =
    if ptime q =? 0 then None
    else if subframes_of frame (ptime q) =? 0 then None
    else write_loop E fuel pvt frame (initial_header p) 0 0
           (initial_length frame (subframes_of frame (ptime q)))
           (chunk_samples frame (initial_length frame (subframes_of frame (ptime q)))) w.
Proof.
  intros Hch Htp Hp Hq Hft Hcodec Hd. unfold ast_lantiq_write.
  rewrite (bind_pure _ _ _ _ (load_chan_eq _ _ _ Hch)), Hft, Htp.
  rewrite (bind_pure (deref_pvt (Some pvt)) _ w pvt) by reflexivity.
  rewrite (bind_pure _ _ _ _ (load_pvt_eq _ _ _ Hp)).
  destruct (decide (subclass_codec frame = codec p)); [|done].
  destruct (Z.eqb_spec (datalen frame) 0); [done|].
  rewrite (bind_pure _ _ _ _ (load_pvt_eq _ _ _ Hq)).
  destruct (Z.eqb_spec (ptime q) 0) as [Hz|Hnz].
  { rewrite Hz. by rewrite bind_crash. }
  rewrite (bind_pure _ _ _ _ (c_div_eq _ _ w Hnz)).
  rewrite (bind_pure _ _ _ _ (c_div_eq _ _ w n)).
  rewrite <- subframes_of_eq.
  destruct (Z.eqb_spec (subframes_of frame (ptime q)) 0) as [Hs|Hs].
  { rewrite Hs. by rewrite bind_crash. }
  rewrite (bind_pure _ _ _ _ (c_div_eq _ _ w Hs)).
  rewrite (bind_pure _ _ _ _ (c_div_eq _ _ w n)).
  rewrite <- initial_length_eq. unfold chunk_samples, initial_header. reflexivity.
Qed.

(** The loop never ends when the chunk length is zero and more than a
    packet's worth of data is left. *)
Lemma write_loop_stuck fuel : forall pvt frame hdr n smp w p,
  pvt_lookup (iflist w) pvt = Some p ->
  RTP_BUFFER_LEN - RTP_HEADER_LEN <= datalen frame < 2 ^ 31 ->
  (forall i, 0 <= write_ret E i) ->
  wp (write_loop E fuel pvt frame hdr n 0 0 smp) w (fun r _ t =>
    r = None /\ length t = fuel /\ Forall (fun a => write_length a = Some 0) t).
Proof.
  induction fuel as [|fuel IH]; intros pvt frame hdr n smp w p Hp Hd Hw.
  { apply wp_ret. by repeat split. }
  cbn [write_loop]. change (RTP_BUFFER_LEN - RTP_HEADER_LEN) with 500 in *.
  assert ((0 <? datalen frame) = true) as -> by (apply Z.ltb_lt; lia).
  rewrite Z.sub_0_r.
  assert ((to_long (datalen frame) <? 500) = false) as ->.
  { apply Z.ltb_ge. rewrite to_long_small; lia. }
  repeat wp_step. cbn [fst snd]. apply wp_memcpy_buf; [done|]. repeat wp_step. cbn zeta.
  assert ((write_ret E n <? 0) = false) as -> by (apply Z.ltb_ge; apply Hw).
  rewrite Z.add_0_l.
  eapply wp_mono; [eapply IH; [solve_lookup|done..]|].
  cbn beta. intros r w' t (-> & <- & Hall). split; [done|]. split; [done|].
  cbn [app]. by constructor.
Qed.

End PacketizerFrames.

Section PacketizerResults.
Variable E : env.

Lemma packets_failed frame c hdr n head len0 seq ts t r seq' ts' :
  packets E frame c hdr n head len0 seq ts t r seq' ts' ->
  r = Some (-1) -> exists i, write_ret E i < 0.
Proof. induction 1; intros Hr; try done; eauto. Qed.

(** X1.  Take a voice frame in the port's codec, on a port whose
    packetization time is not 0, with [subframes] positive, with a
    [datalen] that is positive and at most 500 bytes per subframe, and with
    [500 * subframes] below 2^31, so that the product fits an [int].  Such
    a frame is packetized in finitely many steps: with more fuel than the
    frame has bytes, [ast_lantiq_write] returns 0 or -1, and it returns 0
    when no write fails. *)
Theorem ast_lantiq_write_terminates fuel ast frame w ch pvt p q :
  chans w !! ast = Some ch ->
  tech_pvt ch = Some pvt ->
  pvt_lookup (iflist w) pvt = Some p ->
  pvt_lookup (iflist w) (port_id p) = Some q ->
  frametype frame = AST_FRAME_VOICE ->
  subclass_codec frame = codec p ->
  ptime q <> 0 ->
  0 < subframes_of frame (ptime q) ->
  0 < datalen frame <= 500 * subframes_of frame (ptime q) ->
  500 * subframes_of frame (ptime q) < 2 ^ 31 ->
  datalen frame < Z.of_nat fuel ->
  exists r w' t,
    ast_lantiq_write E fuel ast frame w = Some (Some r, w', t) /\
    (r = 0 \/ r = -1) /\
    ((forall i, 0 <= write_ret E i) -> r = 0).
Proof.
  intros Hch Htp Hp Hq Hft Hcodec Hpt Hs Hd H500 Hfuel.
  pose proof (initial_length_pos frame _ Hs Hd H500) as Hlen.
  rewrite (ast_lantiq_write_voice E fuel ast frame w ch pvt p q) by (done || lia).
  destruct (Z.eqb_spec (ptime q) 0); [done|].
  destruct (Z.eqb_spec (subframes_of frame (ptime q)) 0); [lia|].
  destruct (write_loop_returns E fuel pvt frame (initial_header p) 0 0
              (initial_length frame (subframes_of frame (ptime q)))
              (chunk_samples frame (initial_length frame (subframes_of frame (ptime q))))
              w p) as (r & w' & t & Hrun & [r' ->]); [lia|done|lia|lia| |lia|].
  { pose proof (initial_length_le frame (subframes_of frame (ptime q))). lia. }
  assert (datalen frame <> 0) as Hd0 by lia.
  pose proof (write_loop_wp E fuel pvt frame (initial_header p) 0%nat 0
                (initial_length frame (subframes_of frame (ptime q))) w p Hd0 Hp
                (to_int_range _) _ _ _ Hrun)
    as [(seq' & ts' & Hpk & _) _].
  exists r', w', t. split; [done|].
  destruct (packets_result _ _ _ _ _ _ _ _ _ _ _ _ _ Hpk) as [?|[[= ->]|[= ->]]]; [done| |].
  - split; [by left|done].
  - split; [by right|]. intros Hok.
    destruct (packets_failed _ _ _ _ _ _ _ _ _ _ _ _ Hpk eq_refl) as [i Hi].
    specialize (Hok i). lia.
Qed.

(** X2.  For a voice frame in the port's codec with [subframes] positive,
    a [datalen] that is positive and at most 500 bytes per subframe, and
    [500 * subframes] below 2^31: the chunks a run of [ast_lantiq_write]
    writes follow one another in the frame from offset 0, each with at
    least one byte and none past the end of the frame; when the call
    returns 0 they add up to the whole frame. *)
Theorem ast_lantiq_write_covers_frame fuel ast frame w ch pvt p q r w' t :
  chans w !! ast = Some ch ->
  tech_pvt ch = Some pvt ->
  pvt_lookup (iflist w) pvt = Some p ->
  pvt_lookup (iflist w) (port_id p) = Some q ->
  frametype frame = AST_FRAME_VOICE ->
  subclass_codec frame = codec p ->
  0 < subframes_of frame (ptime q) ->
  0 < datalen frame <= 500 * subframes_of frame (ptime q) ->
  500 * subframes_of frame (ptime q) < 2 ^ 31 ->
  ast_lantiq_write E fuel ast frame w = Some (r, w', t) ->
  contiguous 0 t /\
  payload_bytes t <= datalen frame /\
  (r = Some 0 -> payload_bytes t = datalen frame).
Proof.
  intros Hch Htp Hp Hq Hft Hcodec Hs Hd H500 Hrun.
  pose proof (initial_length_pos frame _ Hs Hd H500) as Hlen.
  assert (initial_length frame (subframes_of frame (ptime q)) <= RTP_BUFFER_LEN - RTP_HEADER_LEN)
    as Hle.
  { pose proof (initial_length_le frame (subframes_of frame (ptime q))). lia. }
  rewrite (ast_lantiq_write_voice E fuel ast frame w ch pvt p q) in Hrun by (done || lia).
  destruct (Z.eqb_spec (ptime q) 0); [done|].
  destruct (Z.eqb_spec (subframes_of frame (ptime q)) 0); [lia|].
  assert (datalen frame <> 0) as Hd0 by lia.
  pose proof (write_loop_wp E fuel pvt frame (initial_header p) 0%nat 0
                (initial_length frame (subframes_of frame (ptime q))) w p Hd0 Hp
                (to_int_range _) _ _ _ Hrun)
    as [(seq' & ts' & Hpk & _) _].
  destruct (packets_cover E _ _ _ _ _ _ _ _ _ _ _ _ Hpk) as (Hc & Hb & Heq & _); [lia..|].
  split; [done|]. split; [lia|]. intros Hr. specialize (Heq Hr). lia.
Qed.

(** X3.  A voice frame in the port's codec whose announced duration [len]
    is zero (or negative, above [-ptime]) makes [subframes] zero, and
    [ast_lantiq_write] divides by it: the call crashes. *)
Theorem ast_lantiq_write_zero_len_crashes fuel ast frame w ch pvt p q :
  chans w !! ast = Some ch ->
  tech_pvt ch = Some pvt ->
  pvt_lookup (iflist w) pvt = Some p ->
  pvt_lookup (iflist w) (port_id p) = Some q ->
  frametype frame = AST_FRAME_VOICE ->
  subclass_codec frame = codec p ->
  datalen frame <> 0 ->
  0 < ptime q < 2 ^ 31 ->
  1 - ptime q <= len frame <= 0 ->
  ast_lantiq_write E fuel ast frame w = None.
Proof.
  intros Hch Htp Hp Hq Hft Hcodec Hd Hpt Hlen.
  rewrite (ast_lantiq_write_voice E fuel ast frame w ch pvt p q) by done.
  rewrite (subframes_of_zero frame (ptime q)) by done.
  by destruct (ptime q =? 0).
Qed.

(** X4.  A voice frame in the port's codec with more than 500 bytes per
    subframe gets the chunk length 0: while no write fails, the loop writes
    the bare header again and again and never ends (whatever the fuel, the
    loop is still running when it runs out, after that many writes). *)
Theorem ast_lantiq_write_oversized_never_returns fuel ast frame w ch pvt p q :
  chans w !! ast = Some ch ->
  tech_pvt ch = Some pvt ->
  pvt_lookup (iflist w) pvt = Some p ->
  pvt_lookup (iflist w) (port_id p) = Some q ->
  frametype frame = AST_FRAME_VOICE ->
  subclass_codec frame = codec p ->
  ptime q <> 0 ->
  0 < subframes_of frame (ptime q) ->
  500 * subframes_of frame (ptime q) < datalen frame < 2 ^ 31 ->
  (forall i, 0 <= write_ret E i) ->
  exists w' t,
    ast_lantiq_write E fuel ast frame w = Some (None, w', t) /\
    length t = fuel /\
    Forall (fun a => write_length a = Some 0) t.
Proof.
  intros Hch Htp Hp Hq Hft Hcodec Hpt Hs Hd Hw.
  rewrite (ast_lantiq_write_voice E fuel ast frame w ch pvt p q) by (done || lia).
  destruct (Z.eqb_spec (ptime q) 0); [done|].
  destruct (Z.eqb_spec (subframes_of frame (ptime q)) 0); [lia|].
  rewrite (initial_length_zero frame _ Hs Hd).
  destruct (write_loop_stuck E fuel pvt frame (initial_header p) 0%nat
              (chunk_samples frame 0) w p Hp) as (r & w' & t & Hrun & -> & Hlen & Hall);
    [change (RTP_BUFFER_LEN - RTP_HEADER_LEN) with 500; lia|done|].
  by exists w', t.
Qed.

(** X5.  A frame that is not a voice frame, or whose codec is not the one
    configured on the port, or that is empty, is dropped: the call returns 0
    without a write and without touching the port. *)
Theorem ast_lantiq_write_drops_frame fuel ast frame w ch pvt p :
  chans w !! ast = Some ch ->
  tech_pvt ch = Some pvt ->
  pvt_lookup (iflist w) pvt = Some p ->
  frametype frame <> AST_FRAME_VOICE \/ subclass_codec frame <> codec p \/ datalen frame = 0 ->
  ast_lantiq_write E fuel ast frame w = Some (Some 0, w, []).
Proof.
  intros Hch Htp Hp Hdrop. unfold ast_lantiq_write.
  rewrite (bind_pure _ _ _ _ (load_chan_eq _ _ _ Hch)).
  destruct (frametype frame) eqn:Hft; try done.
  rewrite Htp, (bind_pure (deref_pvt (Some pvt)) _ w pvt) by reflexivity.
  rewrite (bind_pure _ _ _ _ (load_pvt_eq _ _ _ Hp)).
  destruct (decide (subclass_codec frame = codec p)); [|done].
  destruct (Z.eqb_spec (datalen frame) 0); [done|].
  by destruct Hdrop as [?|[?|?]].
Qed.

End PacketizerResults.

(** *** The packetizer on the example frames *)

(** The example frame (640 bytes, 20 ms, hence two subframes of the port's
    10 ms) is sent and the call returns. *)
Lemma ast_lantiq_write_terminates_example :
  exists r w' t,
    ast_lantiq_write (example_env true (fun _ => 332)) 641 0 example_frame
      (example_world INCALL EmptyString) = Some (Some r, w', t) /\
    (r = 0 \/ r = -1).
Proof.
  assert (subframes_of example_frame 10 = 2) as Hs by reflexivity.
  destruct (ast_lantiq_write_terminates (example_env true (fun _ => 332)) 641 0 example_frame
              (example_world INCALL EmptyString) (example_chan 0) 0
              (example_pvt 0 INCALL EmptyString (Some 0%nat))
              (example_pvt 0 INCALL EmptyString (Some 0%nat)))
    as (r & w' & t & Hrun & Hr & _);
    try reflexivity; try discriminate; try (cbn [ptime example_pvt]; rewrite Hs; cbn; lia).
  exists r, w', t. split; [exact Hrun|exact Hr].
Defined.

(** The two chunks of the example frame are the bytes 0..319 and 320..639. *)
Lemma ast_lantiq_write_covers_example :
  exists r w' t,
    ast_lantiq_write (example_env true (fun _ => 332)) 10 0 example_frame
      (example_world INCALL EmptyString) = Some (r, w', t) /\
    contiguous 0 t /\ payload_bytes t = 640.
Proof.
  example_run (example_env true (fun _ => 332)).
  assert (subframes_of example_frame 10 = 2) as Hs by reflexivity.
  eexists _, _, _. split; [exact Hrun|].
  assert (0 < subframes_of example_frame 10) as H1 by (rewrite Hs; lia).
  assert (0 < datalen example_frame <= 500 * subframes_of example_frame 10) as H2
    by (rewrite Hs; cbn; lia).
  assert (500 * subframes_of example_frame 10 < 2 ^ 31) as H3 by (rewrite Hs; lia).
  destruct (ast_lantiq_write_covers_frame (example_env true (fun _ => 332)) 10 0 example_frame
              (example_world INCALL EmptyString) (example_chan 0) 0
              (example_pvt 0 INCALL EmptyString (Some 0%nat))
              (example_pvt 0 INCALL EmptyString (Some 0%nat)) _ _ _
              eq_refl eq_refl eq_refl eq_refl eq_refl eq_refl H1 H2 H3 Hrun)
    as (Hc & _ & Hall).
  split; [exact Hc|exact (Hall eq_refl)].
Defined.

(** A 640-byte frame that announces 0 ms crashes the call. *)
Lemma ast_lantiq_write_zero_len_example :
  ast_lantiq_write (example_env true (fun _ => 332)) 10 0 (example_frame_of 640 0)
    (example_world INCALL EmptyString) = None.
Proof.
  apply (ast_lantiq_write_zero_len_crashes _ 10 0 (example_frame_of 640 0)
           (example_world INCALL EmptyString) (example_chan 0) 0
           (example_pvt 0 INCALL EmptyString (Some 0%nat))
           (example_pvt 0 INCALL EmptyString (Some 0%nat)));
    try reflexivity; try discriminate; cbn; lia.
Defined.

(** A 640-byte frame that announces 5 ms, one subframe, is never sent:
    after 1000 iterations the loop has written 1000 empty packets and is
    still running. *)
Lemma ast_lantiq_write_oversized_example :
  exists w' t,
    ast_lantiq_write (example_env true (fun _ => 12)) 1000 0 (example_frame_of 640 5)
      (example_world INCALL EmptyString) = Some (None, w', t) /\
    length t = 1000%nat.
Proof.
  assert (subframes_of (example_frame_of 640 5) 10 = 1) as Hs by reflexivity.
  assert (0 < subframes_of (example_frame_of 640 5) 10) as H1 by (rewrite Hs; lia).
  assert (500 * subframes_of (example_frame_of 640 5) 10 < datalen (example_frame_of 640 5)
          < 2 ^ 31) as H2 by (rewrite Hs; cbn; lia).
  assert (forall i : nat, 0 <= write_ret (example_env true (fun _ => 12)) i) as H3
    by (intros i; cbn; lia).
  assert (ptime (example_pvt 0 INCALL EmptyString (Some 0%nat)) <> 0) as H4 by discriminate.
  destruct (ast_lantiq_write_oversized_never_returns (example_env true (fun _ => 12)) 1000 0
              (example_frame_of 640 5)
              (example_world INCALL EmptyString) (example_chan 0) 0
              (example_pvt 0 INCALL EmptyString (Some 0%nat))
              (example_pvt 0 INCALL EmptyString (Some 0%nat))
              eq_refl eq_refl eq_refl eq_refl eq_refl eq_refl H4 H1 H2 H3)
    as (w' & t & Hrun & Hlen & _).
  exists w', t. split; [exact Hrun|exact Hlen].
Defined.

(** A mu-law frame on the port configured for signed linear is dropped. *)
Lemma ast_lantiq_write_drops_example :
  ast_lantiq_write (example_env true (fun _ => 332)) 10 0
    {| frametype := AST_FRAME_VOICE; subclass_codec := AST_FORMAT_ULAW;
       datalen := 160; samples := 160; len := 20 |}
    (example_world INCALL EmptyString) =
  Some (Some 0, example_world INCALL EmptyString, []).
Proof.
  apply (ast_lantiq_write_drops_frame _ 10 0 _ (example_world INCALL EmptyString)
           (example_chan 0) 0 (example_pvt 0 INCALL EmptyString (Some 0%nat)));
    try reflexivity.
  right. left. discriminate.
Defined.

(** ** Well-formed worlds *)

Section Reachable.
Variable MAX : Z.
Hypothesis MAX_pos : 0 < MAX < 2 ^ 31.

(** X6.  On a board of at most TAPI_AUDIO_PORT_NUM_MAX ports, start from
    the port table as [lantiq_create_pvts] builds it and let well-formed
    events arrive.  An event is well formed when it is a hook event, a digit
    event or a dial timeout on a port of the table; a request, with any
    format and destination; a hangup, an answer or an indication on a live
    channel whose [tech_pvt] is set; or a call on such a channel whose
    connected-line number is not valid or whose connected-line name is
    valid (a call with a number and without a name crashes and is no step).
    Every world reached is well formed: [dev_ctx.channels] is the size of
    the table, every entry of [iflist] knows its index, its digit buffer
    holds [dtmfbuf_len] characters with [0 <= dtmfbuf_len <
    AST_MAX_EXTENSION], a port in state INCALL has an owner, every owner is
    a live channel whose [tech_pvt] points back to the port, and the
    [tech_pvt] of every live channel points into the table.  In such a
    world the entry point of every well-formed event returns, with every
    access to [iflist] and to the channels within bounds, and leaves the
    world well formed and the table at its size. *)
Theorem reachable_worlds_well_formed b ctx w :
  0 <= channels ctx <= TAPI_AUDIO_PORT_NUM_MAX ->
  reachable MAX (load_world b ctx) w ->
  Inv MAX w /\
  forall E ev, event_ok w ev ->
    exists w' t, dispatch E MAX ev w = Some (tt, w', t) /\
                 Inv MAX w' /\ length (iflist w') = length (iflist w).
Proof.
  intros [Hn _] Hreach.
  assert (Inv MAX w) as HI.
  { eapply reachable_Inv; [done| |done]. by apply load_world_Inv. }
  split; [done|]. intros E ev Hok.
  destruct (dispatch_spec MAX MAX_pos E w ev HI Hok) as ([] & w' & t & Hrun & HI' & Hlen).
  by exists w', t.
Qed.

(** X7.  In every world reached from the initial port table, a channel is
    owned by at most one port, and a port in state INCALL is owned by a live
    channel whose [tech_pvt] is that port. *)
Theorem reachable_owner_exclusive b ctx w :
  0 <= channels ctx ->
  reachable MAX (load_world b ctx) w ->
  (forall c1 c2 p1 p2 ch,
     pvt_lookup (iflist w) c1 = Some p1 -> pvt_lookup (iflist w) c2 = Some p2 ->
     owner p1 = Some ch -> owner p2 = Some ch -> c1 = c2) /\
  (forall c p,
     pvt_lookup (iflist w) c = Some p -> channel_state p = INCALL ->
     exists ch chan, owner p = Some ch /\ chans w !! ch = Some chan /\ tech_pvt chan = Some c).
Proof.
  intros Hn Hreach.
  assert (Inv MAX w) as HI.
  { eapply reachable_Inv; [done| |done]. by apply load_world_Inv. }
  split.
  - intros c1 c2 p1 p2 ch Hp1 Hp2 Ho1 Ho2.
    destruct (Inv_owner _ _ _ _ _ HI Hp1 Ho1) as (chan1 & Hch1 & Htp1).
    destruct (Inv_owner _ _ _ _ _ HI Hp2 Ho2) as (chan2 & Hch2 & Htp2).
    congruence.
  - intros c p Hp Hs.
    destruct (Inv_incall _ _ _ _ HI Hp Hs) as [ch Ho].
    destruct (Inv_owner _ _ _ _ _ HI Hp Ho) as (chan & Hch & Htp).
    by exists ch, chan.
Qed.

End Reachable.

(** One more event on a reachable world, with the example environment. *)
Ltac do_event H ev :=
  lazymatch type of H with
  | reachable ?MAX ?w0 ?w =>
      let E := constr:(example_env true (fun _ => 0)) in
      let r := eval vm_compute in (dispatch E MAX ev w) in
      lazymatch r with
      | Some (tt, ?w', ?t) =>
          let H' := fresh in
          assert (reachable MAX w0 w') as H'
            by (apply (reachable_step MAX w0 w E ev w' t H);
                [eexists; vm_compute; reflexivity|vm_compute; reflexivity]);
          clear H; rename H' into H
      end
  end.

(** On the board with two ports, port 0 goes off hook and dials 1234#:
    the port is in a call. *)
Lemma reachable_example :
  exists w p,
    reachable 80 (load_world false {| channels := 2; interdigit_timeout := 2000 |}) w /\
    pvt_lookup (iflist w) 0 = Some p /\ channel_state p = INCALL.
Proof.
  pose proof (reachable_refl 80
                (load_world false {| channels := 2; interdigit_timeout := 2000 |})) as H.
  do_event H (EvHook 0 0).
  do_event H (EvDigit 0 "1").
  do_event H (EvDigit 0 "2").
  do_event H (EvDigit 0 "3").
  do_event H (EvDigit 0 "4").
  do_event H (EvDigit 0 "#").
  eexists _, _. split; [exact H|]. split; reflexivity.
Qed.

Lemma reachable_worlds_well_formed_example :
  exists w,
    reachable 80 (load_world false {| channels := 2; interdigit_timeout := 2000 |}) w /\
    channel_state <$> pvt_lookup (iflist w) 0 = Some INCALL /\
    Inv 80 w.
Proof.
  assert (0 < 80 < 2 ^ 31) as Hmax by lia.
  destruct reachable_example as (w & p & Hreach & Hp & Hs).
  exists w. split; [exact Hreach|]. split; [by rewrite Hp, <- Hs|].
  refine (proj1 (reachable_worlds_well_formed 80 Hmax false
                   {| channels := 2; interdigit_timeout := 2000 |} w _ Hreach)).
  cbn. unfold TAPI_AUDIO_PORT_NUM_MAX. lia.
Defined.

Lemma reachable_owner_exclusive_example :
  exists w ch chan,
    reachable 80 (load_world false {| channels := 2; interdigit_timeout := 2000 |}) w /\
    owner <$> pvt_lookup (iflist w) 0 = Some (Some ch) /\
    chans w !! ch = Some chan /\ tech_pvt chan = Some 0.
Proof.
  assert (0 < 80 < 2 ^ 31) as Hmax by lia.
  destruct reachable_example as (w & p & Hreach & Hp & Hs).
  destruct (proj2 (reachable_owner_exclusive 80 Hmax false
                     {| channels := 2; interdigit_timeout := 2000 |} w ltac:(cbn; lia) Hreach)
              0 p Hp Hs) as (ch & chan & Ho & Hch & Htp).
  exists w, ch, chan. split; [exact Hreach|]. split; [by rewrite Hp, <- Ho|].
  split; [exact Hch|exact Htp].
Defined.

(** ** Requests and hangups *)

Section Requests.
Variable MAX : Z.
Hypothesis MAX_pos : 0 < MAX < 2 ^ 31.
Variable E : env.

Lemma atoi_range s : - 2 ^ 31 <= atoi s < 2 ^ 31.
Proof. unfold atoi. repeat case_match; apply to_int_range. Qed.

(** A destination in the range of the port table addresses an entry of it. *)
Lemma requester_port w d :
  Inv MAX w ->
  1 <= atoi d <= channels (dev_ctx w) ->
  to_int (atoi d - 1) = atoi d - 1 /\
  exists p, pvt_lookup (iflist w) (atoi d - 1) = Some p.
Proof.
  intros HI Hr. pose proof (atoi_range d). split; [apply to_int_small; lia|].
  destruct (lookup_lt_is_Some_2 (iflist w) (Z.to_nat (atoi d - 1))) as [p Hp].
  { rewrite (inv_channels _ _ HI) in *. lia. }
  exists p. apply pvt_lookup_Some. split; [lia|done].
Qed.

(** X8.  [ast_lantiq_requester] returns, and it stores
    AST_CAUSE_CHANNEL_UNACCEPTABLE through [cause] exactly when the
    destination is NULL or empty or its number is outside 1..channels; in
    that case no channel is returned, nothing is changed and no action is
    performed.  A number within 1..channels always addresses an entry of
    the port table. *)
Theorem ast_lantiq_requester_range w format data :
  Inv MAX w ->
  exists r c w' t,
    ast_lantiq_requester E format data w = Some ((r, c), w', t) /\
    (c = Some AST_CAUSE_CHANNEL_UNACCEPTABLE <->
       match data with
       | None => True
       | Some d => d = EmptyString \/ atoi d < 1 \/ channels (dev_ctx w) < atoi d
       end) /\
    (c = Some AST_CAUSE_CHANNEL_UNACCEPTABLE -> r = None /\ w' = w /\ t = []) /\
    (c = None ->
       exists d p, data = Some d /\ pvt_lookup (iflist w) (atoi d - 1) = Some p).
Proof.
  intros HI. unfold ast_lantiq_requester.
  destruct data as [[|a d]|].
  1,3: eexists _, _, _, _; split; [reflexivity|]; split; [|split; [done|done]];
       split; intros; auto.
  set (s := String a d).
  assert (wp (w0 <- get_world;;
              if (atoi s <? 1) || (channels (dev_ctx w0) <? atoi s)
              then ret (None, Some AST_CAUSE_CHANNEL_UNACCEPTABLE)
              else p <- load_pvt (to_int (atoi s - 1));;
                   if c_true (c_eq (c_lnot (state_code (channel_state p))) (state_code ONHOOK))
                   then ret (None, None)
                   else chan <- lantiq_channel E AST_STATE_DOWN (to_int (atoi s - 1))
                                  None None format;;
                        ret (chan, None)) w
            (fun rc w' t =>
               (rc.2 = Some AST_CAUSE_CHANNEL_UNACCEPTABLE <->
                  s = EmptyString \/ atoi s < 1 \/ channels (dev_ctx w) < atoi s) /\
               (rc.2 = Some AST_CAUSE_CHANNEL_UNACCEPTABLE -> rc.1 = None /\ w' = w /\ t = []) /\
               (rc.2 = None -> exists p, pvt_lookup (iflist w) (atoi s - 1) = Some p)))
    as ([r c] & w' & t & Hrun & H1 & H2 & H3).
  { wp_go.
    destruct (Z.ltb_spec (atoi s) 1); destruct (Z.ltb_spec (channels (dev_ctx w)) (atoi s));
      cbn [orb]; try (wp_go; cbn; split; [|split]; [split; auto|by destruct w|done]).
    destruct (requester_port w s HI) as (-> & p & Hp); [lia|].
    wp_go. destruct (c_true _).
    - wp_go. cbn. split; [|split]; [|done|by eauto].
      split; [done|]. intros [?|[?|?]]; [done|lia..].
    - wp_step. eapply wp_lantiq_channel; [done| |].
      + intros _. wp_go. cbn. split; [|split]; [|done|by eauto].
        split; [done|]. intros [?|[?|?]]; [done|lia..].
      + intros _ t. wp_go. cbn. split; [|split]; [|done|by eauto].
        split; [done|]. intros [?|[?|?]]; [done|lia..]. }
  exists r, c, w', t. split; [exact Hrun|]. split; [exact H1|]. split; [exact H2|].
  intros Hc. destruct (H3 Hc) as [p Hp]. by exists s, p.
Qed.

(** X9.  A request with a format that [lantiq_conf_enc] does not know, for
    an idle port, returns NULL without a cause; but the channel allocated
    for it is neither released nor unbound: it stays in the heap with its
    [tech_pvt] on the port, and the port keeps it as its owner. *)
Theorem ast_lantiq_requester_unsupported_format w format d p :
  Inv MAX w ->
  d <> EmptyString ->
  1 <= atoi d <= channels (dev_ctx w) ->
  pvt_lookup (iflist w) (atoi d - 1) = Some p ->
  channel_state p = ONHOOK ->
  ast_channel_alloc_ok E = true ->
  format <> FORMAT_ZERO ->
  conf_enc_case format = None ->
  exists w' t,
    ast_lantiq_requester E format (Some d) w = Some ((None, None), w', t) /\
    chans w' !! next_chan w = Some (new_chan AST_STATE_DOWN (atoi d - 1)) /\
    pvt_lookup (iflist w') (atoi d - 1) = Some (set_owner (Some (next_chan w)) p).
Proof.
  intros HI Hne Hr Hp Hs Halloc Hfmt Hconf. unfold ast_lantiq_requester.
  destruct d as [|a d]; [done|]. set (s := String a d) in *.
  destruct (requester_port w s HI Hr) as (Hi & _).
  assert (wp (w0 <- get_world;;
              if (atoi s <? 1) || (channels (dev_ctx w0) <? atoi s)
              then ret (None, Some AST_CAUSE_CHANNEL_UNACCEPTABLE)
              else p <- load_pvt (to_int (atoi s - 1));;
                   if c_true (c_eq (c_lnot (state_code (channel_state p))) (state_code ONHOOK))
                   then ret (None, None)
                   else chan <- lantiq_channel E AST_STATE_DOWN (to_int (atoi s - 1))
                                  None None format;;
                        ret (chan, None)) w
            (fun rc w' t =>
               rc = (None, None) /\
               chans w' !! next_chan w = Some (new_chan AST_STATE_DOWN (atoi s - 1)) /\
               pvt_lookup (iflist w') (atoi s - 1) = Some (set_owner (Some (next_chan w)) p)))
    as (rc & w' & t & Hrun & -> & H1 & H2).
  { wp_go.
    assert ((atoi s <? 1) = false) as -> by (apply Z.ltb_ge; lia).
    assert ((channels (dev_ctx w) <? atoi s) = false) as -> by (apply Z.ltb_ge; lia).
    cbn [orb]. rewrite Hi. wp_go.
    rewrite Hs. cbn [state_code c_lnot c_eq c_true Z.eqb negb].
    wp_step. eapply wp_lantiq_channel; [done|congruence|].
    intros _ t. wp_go. unfold channel_result, channel_pvt. rewrite Hconf.
    destruct (decide (format = FORMAT_ZERO)); [done|].
    split; [done|]. split; [by rewrite lookup_insert_eq|solve_lookup]. }
  by exists w', t.
Qed.

End Requests.

Section RequestsTwice.
Variable MAX : Z.
Hypothesis MAX_pos : 0 < MAX < 2 ^ 31.
Variable E : env.

Lemma channel_pvt_state n format p : channel_state (channel_pvt n format p) = channel_state p.
Proof. unfold channel_pvt. by destruct (conf_enc_case format) as [[[[? ?] ?] ?]|]. Qed.

Lemma channel_pvt_owner n format p : owner (channel_pvt n format p) = Some n.
Proof. unfold channel_pvt. by destruct (conf_enc_case format) as [[[[? ?] ?] ?]|]. Qed.

(** A request for an idle port, with a channel to be had and a format that
    is 0 or known, returns the fresh channel, bound to the port. *)
Lemma ast_lantiq_requester_success w format d p :
  Inv MAX w ->
  d <> EmptyString ->
  1 <= atoi d <= channels (dev_ctx w) ->
  pvt_lookup (iflist w) (atoi d - 1) = Some p ->
  channel_state p = ONHOOK ->
  ast_channel_alloc_ok E = true ->
  format = FORMAT_ZERO \/ is_Some (conf_enc_case format) ->
  exists t,
    ast_lantiq_requester E format (Some d) w =
      Some ((Some (next_chan w), None),
            {| iflist := <[Z.to_nat (atoi d - 1) := channel_pvt (next_chan w) format p]> (iflist w);
               dev_ctx := dev_ctx w;
               chans := <[next_chan w := new_chan AST_STATE_DOWN (atoi d - 1)]> (chans w);
               next_chan := S (next_chan w) |}, t).
Proof.
  intros HI Hne Hr Hp Hs Halloc Hfmt. unfold ast_lantiq_requester.
  destruct d as [|a d]; [done|]. set (s := String a d) in *.
  destruct (requester_port MAX w s HI Hr) as (Hi & _).
  match goal with |- exists t, ?m w = Some (?r, ?w1, t) =>
    assert (wp m w (fun rc w' _ => rc = r /\ w' = w1)) as (rc & w' & t & Hrun & -> & ->)
  end.
  { wp_go.
    assert ((atoi s <? 1) = false) as -> by (apply Z.ltb_ge; lia).
    assert ((channels (dev_ctx w) <? atoi s) = false) as -> by (apply Z.ltb_ge; lia).
    cbn [orb]. rewrite Hi. wp_go.
    rewrite Hs. cbn [state_code c_lnot c_eq c_true Z.eqb negb].
    wp_step. eapply wp_lantiq_channel; [done|congruence|].
    intros _ t. wp_go. split; [|done]. unfold channel_result.
    destruct (decide (format = FORMAT_ZERO)); [done|].
    destruct Hfmt as [?|[? ->]]; done. }
  by exists t.
Qed.

(** X10.  Two requests in a row for the same idle port both succeed, since
    a request looks at the port's state only: the port is then owned by the
    second channel, while both channels have their [tech_pvt] on the port. *)
Theorem ast_lantiq_requester_twice w format d p :
  Inv MAX w ->
  d <> EmptyString ->
  1 <= atoi d <= channels (dev_ctx w) ->
  pvt_lookup (iflist w) (atoi d - 1) = Some p ->
  channel_state p = ONHOOK ->
  ast_channel_alloc_ok E = true ->
  format = FORMAT_ZERO \/ is_Some (conf_enc_case format) ->
  exists w1 t1 w2 t2,
    ast_lantiq_requester E format (Some d) w = Some ((Some (next_chan w), None), w1, t1) /\
    ast_lantiq_requester E format (Some d) w1 = Some ((Some (S (next_chan w)), None), w2, t2) /\
    owner <$> pvt_lookup (iflist w2) (atoi d - 1) = Some (Some (S (next_chan w))) /\
    tech_pvt <$> chans w2 !! next_chan w = Some (Some (atoi d - 1)) /\
    tech_pvt <$> chans w2 !! S (next_chan w) = Some (Some (atoi d - 1)).
Proof.
  intros HI Hne Hr Hp Hs Halloc Hfmt.
  destruct (ast_lantiq_requester_success w format d p) as [t1 Hrun1]; [done..|].
  set (w1 := {| iflist := <[Z.to_nat (atoi d - 1) := channel_pvt (next_chan w) format p]> (iflist w);
                dev_ctx := dev_ctx w;
                chans := <[next_chan w := new_chan AST_STATE_DOWN (atoi d - 1)]> (chans w);
                next_chan := S (next_chan w) |}) in *.
  assert (Inv MAX w1) as HI1 by (by apply Inv_channel).
  assert (pvt_lookup (iflist w1) (atoi d - 1) = Some (channel_pvt (next_chan w) format p)) as Hp1.
  { unfold w1. solve_lookup. }
  destruct (ast_lantiq_requester_success w1 format d _ HI1 Hne Hr Hp1) as [t2 Hrun2];
    [by rewrite channel_pvt_state|done..|].
  eexists w1, t1, _, t2. split; [exact Hrun1|]. split; [exact Hrun2|].
  cbn [iflist chans next_chan w1]. split; [|split].
  - erewrite pvt_lookup_insert_eq; [|exact Hp1]. cbn. by rewrite channel_pvt_owner.
  - rewrite lookup_insert_ne by lia. by rewrite lookup_insert_eq.
  - by rewrite lookup_insert_eq.
Qed.

(** X11.  [ast_lantiq_hangup] returns 0 and cuts both links between the
    channel and the port its [tech_pvt] names: the channel is left in state
    AST_STATE_DOWN without [tech_pvt], the port without owner (whichever
    channel owned it), in state ONHOOK if it was RINGING or ONHOOK and in
    state CALL_ENDED otherwise; the digits buffered on the port stay. *)
Theorem ast_lantiq_hangup_unlinks w ast ch pvt p :
  Inv MAX w ->
  chans w !! ast = Some ch ->
  tech_pvt ch = Some pvt ->
  pvt_lookup (iflist w) pvt = Some p ->
  exists w' t ch' p',
    ast_lantiq_hangup E ast w = Some (0, w', t) /\
    chans w' !! ast = Some ch' /\ tech_pvt ch' = None /\ _state ch' = AST_STATE_DOWN /\
    pvt_lookup (iflist w') pvt = Some p' /\ owner p' = None /\
    channel_state p' =
      match channel_state p with RINGING | ONHOOK => ONHOOK | _ => CALL_ENDED end /\
    dtmfbuf p' = dtmfbuf p /\
    length (iflist w') = length (iflist w).
Proof.
  intros HI Hch Htp Hp. pose proof (Inv_port_id _ _ _ _ HI Hp) as Hid.
  match goal with |- exists w' t ch' p', ?m w = _ /\ _ =>
    assert (wp m w (fun r w' _ => r = 0 /\ exists ch' p',
      chans w' !! ast = Some ch' /\ tech_pvt ch' = None /\ _state ch' = AST_STATE_DOWN /\
      pvt_lookup (iflist w') pvt = Some p' /\ owner p' = None /\
      channel_state p' =
        match channel_state p with RINGING | ONHOOK => ONHOOK | _ => CALL_ENDED end /\
      dtmfbuf p' = dtmfbuf p /\
      length (iflist w') = length (iflist w)))
      as (r & w' & t & Hrun & -> & ch' & p' & H)
  end.
  { eapply wp_ast_lantiq_hangup; [done..|]. intros t. split; [done|].
    eexists _, _. cbn [chans iflist]. split; [by rewrite lookup_insert_eq|].
    split; [done|]. split; [done|]. split; [solve_lookup|].
    destruct (hangup_pvt_fields E p) as (_ & Hb & _ & _ & Ho & _).
    split; [done|]. split; [|split; [done|by rewrite length_insert]].
    unfold hangup_pvt. cbn. by rewrite jb_channel_state. }
  by exists w', t, ch', p'.
Qed.

End RequestsTwice.

(** *** Requests and hangups on the example board *)

Lemma example_world_Inv_80 st : Inv 80 (example_world st EmptyString).
Proof. apply example_world_Inv; [lia|cbn; lia]. Qed.

(** A request for port 3 of the two-port board is refused with the cause
    set. *)
Lemma ast_lantiq_requester_range_example :
  ast_lantiq_requester (example_env true (fun _ => 0)) AST_FORMAT_ALAW (Some "3"%string)
    (example_world ONHOOK EmptyString) =
  Some ((None, Some AST_CAUSE_CHANNEL_UNACCEPTABLE), example_world ONHOOK EmptyString, []).
Proof.
  destruct (ast_lantiq_requester_range 80 (example_env true (fun _ => 0))
              (example_world ONHOOK EmptyString) AST_FORMAT_ALAW (Some "3"%string)
              (example_world_Inv_80 ONHOOK))
    as (r & c & w' & t & Hrun & Hiff & Hrej & _).
  assert (c = Some AST_CAUSE_CHANNEL_UNACCEPTABLE) as Hc.
  { apply Hiff. right. right. reflexivity. }
  destruct (Hrej Hc) as (-> & -> & ->). rewrite Hc in Hrun. exact Hrun.
Defined.

(** A request for port 2 with a format the driver does not know returns
    NULL and leaves channel 1 behind as the owner of the port. *)
Lemma ast_lantiq_requester_unsupported_example :
  exists w' t,
    ast_lantiq_requester (example_env true (fun _ => 0)) (AST_FORMAT_other 0) (Some "2"%string)
      (example_world ONHOOK EmptyString) = Some ((None, None), w', t) /\
    chans w' !! 1%nat = Some (new_chan AST_STATE_DOWN 1) /\
    pvt_lookup (iflist w') 1 = Some (example_pvt 1 ONHOOK EmptyString (Some 1%nat)).
Proof.
  refine (ast_lantiq_requester_unsupported_format 80 (example_env true (fun _ => 0))
            (example_world ONHOOK EmptyString) (AST_FORMAT_other 0) "2"
            (example_pvt 1 ONHOOK EmptyString None) (example_world_Inv_80 ONHOOK)
            _ _ _ _ _ _ _); try reflexivity; try discriminate.
  split; discriminate.
Defined.

(** Two requests for port 2: channels 1 and 2 are handed out, and the port
    belongs to channel 2. *)
Lemma ast_lantiq_requester_twice_example :
  exists w1 t1 w2 t2,
    ast_lantiq_requester (example_env true (fun _ => 0)) AST_FORMAT_ALAW (Some "2"%string)
      (example_world ONHOOK EmptyString) = Some ((Some 1%nat, None), w1, t1) /\
    ast_lantiq_requester (example_env true (fun _ => 0)) AST_FORMAT_ALAW (Some "2"%string)
      w1 = Some ((Some 2%nat, None), w2, t2) /\
    owner <$> pvt_lookup (iflist w2) 1 = Some (Some 2%nat) /\
    tech_pvt <$> chans w2 !! 1%nat = Some (Some 1) /\
    tech_pvt <$> chans w2 !! 2%nat = Some (Some 1).
Proof.
  refine (ast_lantiq_requester_twice 80 (example_env true (fun _ => 0))
            (example_world ONHOOK EmptyString) AST_FORMAT_ALAW "2"
            (example_pvt 1 ONHOOK EmptyString None) (example_world_Inv_80 ONHOOK)
            _ _ _ _ _ _); try reflexivity; try discriminate.
  - split; discriminate.
  - right. by eexists.
Defined.

(** Channel 0 is hung up while port 0 is in a call: the port is left in
    state CALL_ENDED without owner. *)
Lemma ast_lantiq_hangup_example :
  exists w' t p',
    ast_lantiq_hangup (example_env true (fun _ => 0)) 0 (example_world INCALL EmptyString) =
      Some (0, w', t) /\
    tech_pvt <$> chans w' !! 0%nat = Some None /\
    pvt_lookup (iflist w') 0 = Some p' /\ owner p' = None /\ channel_state p' = CALL_ENDED.
Proof.
  destruct (ast_lantiq_hangup_unlinks 80 (example_env true (fun _ => 0))
              (example_world INCALL EmptyString) 0 (example_chan 0) 0
              (example_pvt 0 INCALL EmptyString (Some 0%nat))
              (example_world_Inv_80 INCALL) eq_refl eq_refl eq_refl)
    as (w' & t & ch' & p' & Hrun & Hch & Htp & _ & Hp & Ho & Hs & _).
  exists w', t, p'. split; [exact Hrun|]. split; [by rewrite Hch, <- Htp|].
  split; [exact Hp|]. split; [exact Ho|exact Hs].
Defined.

(** ** Hook events *)

Lemma c_true_nonzero x : x <> 0 -> c_true x = true.
Proof. intros H. unfold c_true. by destruct (Z.eqb_spec x 0). Qed.

Section HookTransitions.
Variable MAX : Z.
Hypothesis MAX_pos : 0 < MAX < 2 ^ 31.
Variable E : env.

(** X12.  An on-hook event leaves the port in state ONHOOK whatever its
    state was, with the LED switched off last; it returns 0 when the port
    was DIALING or INCALL and -1 otherwise, and on a DIALING port the
    buffered digits and the dial timer are cleared. *)
Theorem lantiq_dev_event_hook_onhook w c p st :
  Inv MAX w ->
  pvt_lookup (iflist w) c = Some p ->
  st <> 0 ->
  exists r w' t p',
    lantiq_dev_event_hook E c st w = Some (r, w', t) /\
    pvt_lookup (iflist w') c = Some p' /\
    channel_state p' = ONHOOK /\
    r = match channel_state p with DIALING | INCALL => 0 | _ => -1 end /\
    last t = Some (Led c LedOff) /\
    (channel_state p = DIALING ->
       dtmfbuf p' = EmptyString /\ dtmfbuf_len p' = 0 /\ dial_timer p' = 0).
Proof.
  intros HI Hp Hst.
  match goal with |- exists r w' t p', ?m w = _ /\ _ =>
    assert (wp m w (fun r w' t => exists p',
      pvt_lookup (iflist w') c = Some p' /\
      channel_state p' = ONHOOK /\
      r = match channel_state p with DIALING | INCALL => 0 | _ => -1 end /\
      last t = Some (Led c LedOff) /\
      (channel_state p = DIALING ->
         dtmfbuf p' = EmptyString /\ dtmfbuf_len p' = 0 /\ dial_timer p' = 0)))
      as (r & w' & t & Hrun & p' & H)
  end.
  { unfold lantiq_dev_event_hook.
    rewrite (c_true_nonzero _ Hst).
    assert (forall l : list action, last (l ++ [Led c LedOff]) = Some (Led c LedOff)) as Hlast.
    { intros l. by rewrite last_snoc. }
    wp_go. destruct (channel_state p) eqn:Hs.
    1,2,5,6,7: wp_go; eexists; (split; [solve_lookup|]); split; [done|]; split; [done|];
               split; [apply Hlast|done].
    - (* DIALING *)
      eapply wp_mono; [by eapply lantiq_end_dialing_spec|].
      cbn beta. intros r w1 t1 (-> & HI1 & Hlen1 & p1 & Hp1 & Hb1 & Hl1 & Ht1 & _).
      wp_go. eexists. split; [solve_lookup|]. split; [done|]. split; [done|].
      split; [|done]. rewrite !app_assoc. apply Hlast.
    - (* INCALL *)
      destruct (Inv_incall _ _ _ _ HI Hp Hs) as [ch Ho].
      destruct (Inv_owner _ _ _ _ _ HI Hp Ho) as (chan & Hch & _).
      unfold lantiq_end_call. wp_go. rewrite Ho. wp_go.
      eexists. split; [solve_lookup|]. split; [done|]. split; [done|].
      split; [|done].
      change (?a :: ?b :: ?l ++ [?x]) with ((a :: b :: l) ++ [x]). apply Hlast. }
  by exists r, w', t, p'.
Qed.

(** An off-hook event on a port that is not RINGING, when the line feed can
    be set to active. *)
Lemma lantiq_dev_event_hook_offhook_run w c p :
  pvt_lookup (iflist w) c = Some p ->
  ioctl_ret E c (IFX_TAPI_LINE_FEED_SET IFX_TAPI_LINE_FEED_ACTIVE) = 0 ->
  channel_state p <> RINGING ->
  lantiq_dev_event_hook E c 0 w =
    Some (0, store_pvt w c (set_channel_state OFFHOOK p),
          Ioctl c (IFX_TAPI_LINE_FEED_SET IFX_TAPI_LINE_FEED_ACTIVE) ::
          play_tone_trace c TAPI_TONE_LOCALE_DIAL_CODE ++ [Led c LedOn]).
Proof.
  intros Hp Hr Hs. apply wp_eq. unfold lantiq_dev_event_hook. cbn [c_true Z.eqb negb].
  wp_go. rewrite Hr. cbn [c_true Z.eqb negb]. wp_go.
  destruct (channel_state p); try done; by wp_go.
Qed.

(** X13.  An off-hook event first sets the line feed to active.  When that
    ioctl fails the event returns -1 and nothing else happens.  Otherwise a
    port that is not RINGING goes to state OFFHOOK, gets the dial tone and
    its LED switched on, and the event returns 0. *)
Theorem lantiq_dev_event_hook_offhook w c p :
  pvt_lookup (iflist w) c = Some p ->
  (ioctl_ret E c (IFX_TAPI_LINE_FEED_SET IFX_TAPI_LINE_FEED_ACTIVE) <> 0 ->
     lantiq_dev_event_hook E c 0 w =
       Some (-1, w, [Ioctl c (IFX_TAPI_LINE_FEED_SET IFX_TAPI_LINE_FEED_ACTIVE)])) /\
  (ioctl_ret E c (IFX_TAPI_LINE_FEED_SET IFX_TAPI_LINE_FEED_ACTIVE) = 0 ->
   channel_state p <> RINGING ->
     lantiq_dev_event_hook E c 0 w =
       Some (0, store_pvt w c (set_channel_state OFFHOOK p),
             Ioctl c (IFX_TAPI_LINE_FEED_SET IFX_TAPI_LINE_FEED_ACTIVE) ::
             play_tone_trace c TAPI_TONE_LOCALE_DIAL_CODE ++ [Led c LedOn])).
Proof.
  intros Hp. split.
  - intros Hr. apply wp_eq. unfold lantiq_dev_event_hook. cbn [c_true Z.eqb negb].
    wp_go. rewrite (c_true_nonzero _ Hr). wp_go. by destruct w.
  - intros Hr Hs. by apply lantiq_dev_event_hook_offhook_run.
Qed.

(** X14.  An incoming call that is answered: [ast_lantiq_call] on an idle
    port makes the port ring, and when the handset is then lifted the port
    is in state INCALL, AST_CONTROL_ANSWER is queued on the calling channel
    and the start and answer times of the call are the current time. *)
Theorem call_then_offhook_answers w ast ch c p :
  Inv MAX w ->
  chans w !! ast = Some ch ->
  tech_pvt ch = Some c ->
  pvt_lookup (iflist w) c = Some p ->
  channel_state p = ONHOOK ->
  owner p = Some ast ->
  cid_of ch = None \/ name_of ch <> None ->
  ioctl_ret E c (IFX_TAPI_LINE_FEED_SET IFX_TAPI_LINE_FEED_ACTIVE) = 0 ->
  exists w1 t1 w2 t2 p2,
    ast_lantiq_call E ast w = Some (0, w1, t1) /\
    channel_state <$> pvt_lookup (iflist w1) c = Some RINGING /\
    lantiq_dev_event_hook E c 0 w1 = Some (0, w2, t2) /\
    pvt_lookup (iflist w2) c = Some p2 /\
    channel_state p2 = INCALL /\
    call_start p2 = to_uint32 (epoch E) /\ call_answer p2 = to_uint32 (epoch E) /\
    AstQueueControl ast AST_CONTROL_ANSWER ∈ t2.
Proof.
  intros HI Hch Htp Hp Hs Ho Hcid Hr.
  destruct (ast_lantiq_call_ring E w ast ch c p Hch Htp Hp Hs Hcid) as (t1 & Hrun1 & _).
  set (w1 := set_chans _ _) in Hrun1.
  assert (pvt_lookup (iflist w1) c = Some (set_channel_state RINGING p)) as Hp1.
  { unfold w1. solve_lookup. }
  assert (chans w1 !! ast = Some (set__state AST_STATE_RINGING ch)) as Hch1.
  { unfold w1. world_simpl. by rewrite lookup_insert_eq. }
  assert (wp (lantiq_dev_event_hook E c 0) w1 (fun r w2 t2 => r = 0 /\ exists p2,
            pvt_lookup (iflist w2) c = Some p2 /\ channel_state p2 = INCALL /\
            call_start p2 = to_uint32 (epoch E) /\ call_answer p2 = to_uint32 (epoch E) /\
            AstQueueControl ast AST_CONTROL_ANSWER ∈ t2))
    as (r & w2 & t2 & Hrun2 & -> & p2 & H2).
  { unfold lantiq_dev_event_hook. cbn [c_true Z.eqb negb].
    wp_go. rewrite Hr. cbn [c_true Z.eqb negb]. wp_go.
    cbn [channel_state set_channel_state]. unfold accept_call. wp_go.
    cbn [owner set_channel_state]. rewrite Ho. wp_go.
    cbn [_state set__state]. wp_go.
    split; [done|]. eexists. split; [solve_lookup|].
    repeat (split; [done|]).
    rewrite !elem_of_cons, !elem_of_app, !elem_of_cons. tauto. }
  exists w1, t1, w2, t2, p2. split; [exact Hrun1|]. split; [by rewrite Hp1|].
  split; [exact Hrun2|]. exact H2.
Qed.

End HookTransitions.

(** ** Digits *)

Section Digits.
Variable MAX : Z.
Hypothesis MAX_pos : 0 < MAX < 2 ^ 31.
Variable E : env.

(** X15.  A digit on a port in a call is handed to the owning channel as a
    DTMF frame, [#] included, and is not buffered; a digit on a port that is
    ONHOOK, RINGING, CALL_ENDED or UNKNOWN is ignored.  Either way the
    world is left as it was. *)
Theorem lantiq_dev_event_digit_not_dialing w c digit p :
  Inv MAX w ->
  pvt_lookup (iflist w) c = Some p ->
  (channel_state p = INCALL ->
     exists ch, owner p = Some ch /\
       lantiq_dev_event_digit E MAX c digit w = Some (tt, w, [AstQueueFrameDtmf ch digit])) /\
  (channel_state p <> INCALL -> channel_state p <> OFFHOOK -> channel_state p <> DIALING ->
     lantiq_dev_event_digit E MAX c digit w = Some (tt, w, [])).
Proof.
  intros HI Hp. split.
  - intros Hs. destruct (Inv_incall _ _ _ _ HI Hp Hs) as [ch Ho].
    destruct (Inv_owner _ _ _ _ _ HI Hp Ho) as (chan & Hch & _).
    exists ch. split; [done|]. apply wp_eq. unfold lantiq_dev_event_digit.
    wp_go. rewrite Hs. unfold lantiq_send_digit. wp_go. rewrite Ho. wp_go. by destruct w.
  - intros H1 H2 H3. apply wp_eq. unfold lantiq_dev_event_digit.
    wp_go. destruct (channel_state p); try done; wp_go; by destruct w.
Qed.

(** A digit other than [#] on a DIALING port with room in the buffer. *)
Lemma lantiq_dev_event_digit_append w c digit p :
  pvt_lookup (iflist w) c = Some p ->
  channel_state p = DIALING ->
  digit <> "#"%char ->
  dtmfbuf_len p < MAX - 1 ->
  exists t,
    lantiq_dev_event_digit E MAX c digit w =
      Some (tt, store_pvt w c
                  (set_dial_timer (ast_sched_add_ret E)
                     (set_dtmfbuf_len (to_int (dtmfbuf_len p + 1))
                        (set_dtmfbuf (dtmfbuf_store (dtmfbuf p) (dtmfbuf_len p) digit) p))), t).
Proof.
  intros Hp Hs Hne Hroom.
  match goal with |- exists t, ?m w = Some (?r, ?w1, t) =>
    assert (wp m w (fun rc w' _ => rc = r /\ w' = w1)) as (rc & w' & t & Hrun & -> & ->)
  end.
  { unfold lantiq_dev_event_digit. wp_go. rewrite Hs.
    unfold lantiq_dev_event_digit_dialing.
    assert (Ascii.eqb digit "#" = false) as -> by (by apply Ascii.eqb_neq).
    wp_go. assert ((dtmfbuf_len p <? MAX - 1) = true) as -> by (by apply Z.ltb_lt).
    wp_go. cbn [dial_timer set_dtmfbuf_len set_dtmfbuf].
    destruct (c_true (dial_timer p)); cbn [negb]; by wp_go. }
  by exists t.
Qed.

End Digits.

(** ** Dialing a number *)

Lemma string_app_cons a (s t : string) : (String a s ++ t)%string = String a (s ++ t).
Proof. reflexivity. Qed.

Lemma string_app_assoc (s t u : string) : ((s ++ t) ++ u)%string = (s ++ (t ++ u))%string.
Proof. induction s as [|a s IH]; [done|]. rewrite !string_app_cons. by f_equal. Qed.

Lemma string_app_nil_r (s : string) : (s ++ EmptyString)%string = s.
Proof. induction s as [|a s IH]; [done|]. rewrite string_app_cons. by f_equal. Qed.

Section Dialing.
Variable MAX : Z.
Hypothesis MAX_pos : 0 < MAX < 2 ^ 31.
Variable E : env.

(** A digit other than [#] on a port that is OFFHOOK or DIALING, with room
    in the buffer: the digit is appended and the port is DIALING. *)
Lemma lantiq_dev_event_digit_collect w c digit p :
  pvt_lookup (iflist w) c = Some p ->
  channel_state p = OFFHOOK \/ channel_state p = DIALING ->
  dtmf_ok MAX p ->
  digit <> "#"%char ->
  dtmfbuf_len p < MAX - 1 ->
  wp (lantiq_dev_event_digit E MAX c digit) w (fun _ w' _ =>
    exists p', w' = store_pvt w c p' /\
      channel_state p' = DIALING /\
      dtmfbuf p' = (dtmfbuf p ++ String digit EmptyString)%string /\
      dtmfbuf_len p' = dtmfbuf_len p + 1 /\
      context p' = context p /\ port_id p' = port_id p /\ owner p' = owner p).
Proof.
  intros Hp Hs Hok Hne Hroom.
  destruct (dtmfbuf_store_ok MAX MAX_pos p digit Hok Hroom) as (Hstore & Hlen & _).
  unfold lantiq_dev_event_digit. wp_go.
  assert (Ascii.eqb digit "#" = false) as Hd by (by apply Ascii.eqb_neq).
  destruct Hs as [Hs|Hs]; rewrite Hs.
  - wp_go. unfold lantiq_dev_event_digit_dialing. rewrite Hd.
    wp_go. cbn [dtmfbuf_len set_channel_state].
    assert ((dtmfbuf_len p <? MAX - 1) = true) as -> by (by apply Z.ltb_lt).
    wp_go. cbn [dial_timer set_dtmfbuf_len set_dtmfbuf set_channel_state dtmfbuf dtmfbuf_len].
    rewrite Hstore, Hlen.
    destruct (c_true (dial_timer p)); cbn [negb]; wp_go; eexists; (split; [reflexivity|]); done.
  - unfold lantiq_dev_event_digit_dialing. rewrite Hd.
    wp_go. assert ((dtmfbuf_len p <? MAX - 1) = true) as -> by (by apply Z.ltb_lt).
    wp_go. cbn [dial_timer set_dtmfbuf_len set_dtmfbuf]. rewrite Hstore, Hlen.
    destruct (c_true (dial_timer p)); cbn [negb]; wp_go; eexists; (split; [reflexivity|]); done.
Qed.

(** Keying in digits appends them to the buffer, as long as they fit. *)
Lemma run_digits_collect digits : forall w c p,
  pvt_lookup (iflist w) c = Some p ->
  channel_state p = OFFHOOK \/ channel_state p = DIALING ->
  dtmf_ok MAX p ->
  Forall (fun d => d <> "#"%char) digits ->
  dtmfbuf_len p + Z.of_nat (length digits) <= MAX - 1 ->
  wp (run_digits MAX ((fun d => (E, c, d)) <$> digits)) w (fun _ w' _ =>
    exists p', w' = store_pvt w c p' /\
      (channel_state p' = DIALING \/ digits = [] /\ p' = p) /\
      dtmfbuf p' = (dtmfbuf p ++ string_of_list_ascii digits)%string /\
      dtmfbuf_len p' = dtmfbuf_len p + Z.of_nat (length digits) /\
      context p' = context p /\ port_id p' = port_id p /\ owner p' = owner p).
Proof.
  induction digits as [|d digits IH]; intros w c p Hp Hs Hok Hall Hroom.
  - cbn. apply wp_ret. exists p. rewrite (store_pvt_id _ _ _ Hp), string_app_nil_r.
    split; [done|]. split; [by right|]. split; [done|]. split; [lia|done].
  - apply Forall_cons in Hall as [Hd Hall]. cbn [fmap list_fmap run_digits].
    cbn [length] in Hroom.
    wp_step. eapply wp_mono; [apply (lantiq_dev_event_digit_collect w c d p); try done; lia|].
    cbn beta. intros _ w1 t1 (p1 & -> & Hs1 & Hb1 & Hl1 & Hc1 & Hi1 & Ho1).
    eapply wp_mono.
    { apply (IH _ c p1); [by eapply pvt_lookup_store_pvt|by right| |done|lia].
      split; [destruct Hok; lia|].
      rewrite Hb1, Hl1, string_length_app. cbn. destruct Hok. lia. }
    cbn beta. intros _ w2 t2 (p2 & -> & Hs2 & Hb2 & Hl2 & Hc2 & Hi2 & Ho2).
    exists p2. rewrite store_pvt_store_pvt. split; [done|].
    split.
    { left. destruct Hs2 as [?|[_ ->]]; done. }
    split; [by rewrite Hb2, Hb1, string_app_assoc|].
    split; [rewrite Hl2, Hl1; cbn [length]; lia|]. split; [congruence|]. split; congruence.
Qed.

End Dialing.

Section DialingCall.
Variable MAX : Z.
Hypothesis MAX_pos : 0 < MAX < 2 ^ 31.
Variable E : env.

(** [#] on a port that is OFFHOOK or DIALING, when the buffered number is
    an extension of the port's context, a channel can be had and the PBX
    starts: the call is set up on the fresh channel. *)
Lemma lantiq_dev_event_digit_hash_dials w c p :
  pvt_lookup (iflist w) c = Some p ->
  port_id p = c ->
  channel_state p = OFFHOOK \/ channel_state p = DIALING ->
  ast_exists_extension E (context p) (dtmfbuf p) = true ->
  ast_channel_alloc_ok E = true ->
  ast_pbx_start_ret E = 0 ->
  wp (lantiq_dev_event_digit E MAX c "#") w (fun _ w' t =>
    AstChannelAlloc (next_chan w) AST_STATE_UP (Some (dtmfbuf p)) (Some (context p)) c ∈ t /\
    AstPbxStart (next_chan w) ∈ t /\
    exists p' chan,
      pvt_lookup (iflist w') c = Some p' /\
      channel_state p' = INCALL /\ owner p' = Some (next_chan w) /\
      dtmfbuf p' = EmptyString /\ dtmfbuf_len p' = 0 /\
      call_start p' = to_uint32 (epoch E) /\
      chans w' !! next_chan w = Some chan /\
      tech_pvt chan = Some c /\ _state chan = AST_STATE_RING).
Proof.
  intros Hp Hid Hs Hext Halloc Hpbx.
  assert (forall w1 p1 (Q : unit -> world -> list action -> Prop),
    pvt_lookup (iflist w1) c = Some p1 ->
    port_id p1 = c -> context p1 = context p -> dtmfbuf p1 = dtmfbuf p ->
    (forall w' t,
       AstChannelAlloc (next_chan w1) AST_STATE_UP (Some (dtmfbuf p)) (Some (context p)) c ∈ t ->
       AstPbxStart (next_chan w1) ∈ t ->
       (exists p' chan,
          pvt_lookup (iflist w') c = Some p' /\
          channel_state p' = INCALL /\ owner p' = Some (next_chan w1) /\
          dtmfbuf p' = EmptyString /\ dtmfbuf_len p' = 0 /\
          call_start p' = to_uint32 (epoch E) /\
          chans w' !! next_chan w1 = Some chan /\
          tech_pvt chan = Some c /\ _state chan = AST_STATE_RING) ->
       Q tt w' t) ->
    wp (lantiq_dev_event_digit_dialing E MAX c "#") w1 Q) as Hdial.
  { intros w1 p1 Q Hp1 Hid1 Hc1 Hb1 HQ. unfold lantiq_dev_event_digit_dialing.
    cbn [Ascii.eqb Bool.eqb]. wp_go.
    assert (forall w2 p2 (Q' : unit -> world -> list action -> Prop),
      pvt_lookup (iflist w2) c = Some p2 ->
      port_id p2 = c -> context p2 = context p -> dtmfbuf p2 = dtmfbuf p ->
      next_chan w2 = next_chan w1 ->
      (forall w' t,
         AstChannelAlloc (next_chan w1) AST_STATE_UP (Some (dtmfbuf p)) (Some (context p)) c ∈ t ->
         AstPbxStart (next_chan w1) ∈ t ->
         (exists p' chan,
            pvt_lookup (iflist w') c = Some p' /\
            channel_state p' = INCALL /\ owner p' = Some (next_chan w1) /\
            dtmfbuf p' = EmptyString /\ dtmfbuf_len p' = 0 /\
            call_start p' = to_uint32 (epoch E) /\
            chans w' !! next_chan w1 = Some chan /\
            tech_pvt chan = Some c /\ _state chan = AST_STATE_RING) ->
         Q' tt w' t) ->
      wp (lantiq_dial E c) w2 Q') as Hd.
    { intros w2 p2 Q' Hp2 Hid2 Hc2 Hb2 Hn2 HQ'. unfold lantiq_dial. wp_go.
      rewrite Hc2, Hb2, Hext, Hid2.
      unfold lantiq_channel, ast_channel_alloc. rewrite Halloc. wp_go.
      destruct (decide (FORMAT_ZERO = FORMAT_ZERO)); [|done]. wp_go.
      rewrite Hpbx. cbn [c_true Z.eqb negb]. wp_go.
      rewrite Hn2. apply HQ'.
      - rewrite !elem_of_cons. tauto.
      - rewrite !elem_of_cons. tauto.
      - eexists _, _. split; [solve_lookup|]. cbn [chans]. rewrite lookup_insert_eq. done. }
    destruct (c_true (dial_timer p1)).
    - wp_go. eapply Hd; [solve_lookup|done..|].
      intros w' t H1 H2 H3. apply HQ; [|rewrite elem_of_cons; tauto|done].
      rewrite elem_of_cons. tauto.
    - wp_go. eapply Hd; [done..|]. intros w' t H1 H2 H3. by apply HQ. }
  unfold lantiq_dev_event_digit. wp_go. destruct Hs as [Hs|Hs]; rewrite Hs.
  - wp_go. eapply Hdial; [solve_lookup|done..|].
    intros w' t H1 H2 H3. split; [|split; [|done]].
    + rewrite !elem_of_app, !elem_of_cons. tauto.
    + rewrite !elem_of_app, !elem_of_cons. tauto.
  - eapply Hdial; [done..|]. intros w' t H1 H2 H3. done.
Qed.

(** X16.  Dialing a number: the handset of a port that is not ringing is
    lifted, a number without [#] that fits the buffer (at most
    AST_MAX_EXTENSION - 1 digits) is keyed in on the empty buffer and
    closed with [#].  When the number is an extension of the port's context,
    a channel can be had and the PBX starts, the channel is allocated for
    exactly the digits keyed in, in the port's context, and the PBX is
    started on it; the port is then INCALL and owned by that channel, whose
    [tech_pvt] is the port, and the digit buffer is empty again. *)
Theorem dial_scenario_starts_call w c p digits :
  Inv MAX w ->
  pvt_lookup (iflist w) c = Some p ->
  channel_state p <> RINGING ->
  dtmfbuf p = EmptyString ->
  Forall (fun d => d <> "#"%char) (list_ascii_of_string digits) ->
  Z.of_nat (String.length digits) <= MAX - 1 ->
  ioctl_ret E c (IFX_TAPI_LINE_FEED_SET IFX_TAPI_LINE_FEED_ACTIVE) = 0 ->
  ast_exists_extension E (context p) digits = true ->
  ast_channel_alloc_ok E = true ->
  ast_pbx_start_ret E = 0 ->
  exists w' t p' chan,
    dial_scenario E MAX c digits w = Some (tt, w', t) /\
    AstChannelAlloc (next_chan w) AST_STATE_UP (Some digits) (Some (context p)) c ∈ t /\
    AstPbxStart (next_chan w) ∈ t /\
    pvt_lookup (iflist w') c = Some p' /\
    channel_state p' = INCALL /\ owner p' = Some (next_chan w) /\
    dtmfbuf p' = EmptyString /\
    chans w' !! next_chan w = Some chan /\ tech_pvt chan = Some c.
Proof.
  intros HI Hp Hs Hbuf Hall Hlen Hlf Hext Halloc Hpbx.
  pose proof (Inv_port_id _ _ _ _ HI Hp) as Hid.
  destruct (Inv_dtmf _ _ _ _ HI Hp) as [Hl0 Hl1]. rewrite Hbuf in Hl1. cbn in Hl1.
  assert (wp (dial_scenario E MAX c digits) w (fun _ w' t =>
    AstChannelAlloc (next_chan w) AST_STATE_UP (Some digits) (Some (context p)) c ∈ t /\
    AstPbxStart (next_chan w) ∈ t /\
    exists p' chan,
      pvt_lookup (iflist w') c = Some p' /\
      channel_state p' = INCALL /\ owner p' = Some (next_chan w) /\
      dtmfbuf p' = EmptyString /\
      chans w' !! next_chan w = Some chan /\ tech_pvt chan = Some c))
    as ([] & w' & t & Hrun & H1 & H2 & p' & chan & H3).
  { unfold dial_scenario. wp_step.
    pose proof (lantiq_dev_event_hook_offhook_run E w c p Hp Hlf Hs) as Hhook.
    eapply wp_of_eq; [exact Hhook|].
    set (p0 := set_channel_state OFFHOOK p).
    assert (pvt_lookup (iflist (store_pvt w c p0)) c = Some p0) as Hp0
      by (by eapply pvt_lookup_store_pvt).
    wp_step. unfold dial_digits.
    eapply wp_mono.
    { apply (run_digits_collect MAX MAX_pos E (list_ascii_of_string digits) _ c p0 Hp0).
      - by left.
      - split; cbn; [lia|]. rewrite Hbuf. cbn. lia.
      - done.
      - cbn [dtmfbuf_len p0 set_channel_state].
        assert (length (list_ascii_of_string digits) = String.length digits) as ->.
        { clear. induction digits as [|a s IH]; [done|]. cbn. by rewrite IH. }
        lia. }
    cbn beta. intros _ w1 t1 (p1 & -> & Hs1 & Hb1 & _ & Hc1 & Hi1 & _).
    rewrite store_pvt_store_pvt.
    cbn [dtmfbuf p0 set_channel_state] in Hb1. rewrite Hbuf in Hb1.
    rewrite string_of_list_ascii_of_string in Hb1. cbn in Hb1.
    eapply wp_mono.
    { apply (lantiq_dev_event_digit_hash_dials (store_pvt w c p1) c p1).
      - by eapply pvt_lookup_store_pvt.
      - rewrite Hi1. done.
      - destruct Hs1 as [?|[_ ->]]; [by right|by left].
      - by rewrite Hc1, Hb1.
      - done.
      - done. }
    cbn beta. intros _ w2 t2 (Ha & Hb & p' & chan & Hp' & Hs' & Ho' & Hb' & _ & _ & Hch & Htp & _).
    rewrite Hb1, Hc1 in Ha. cbn [next_chan store_pvt set_iflist context p0 set_channel_state] in *.
    split; [|split].
    - rewrite !elem_of_app. auto.
    - rewrite !elem_of_app. auto.
    - by exists p', chan. }
  by exists w', t, p', chan.
Qed.

(** X17.  [ast_lantiq_answer] configures the port for the channel's write
    format: with a format [lantiq_conf_enc] knows, the port takes the
    format as its codec with the packetization time and payload type of the
    table, the encoder is configured and encoder and decoder are started,
    the answer time is recorded and the result is 0, whatever the three
    ioctls return; with any other format the result is -1 and nothing is
    changed or done. *)
Theorem ast_lantiq_answer_configures w ast ch c p :
  Inv MAX w ->
  chans w !! ast = Some ch ->
  tech_pvt ch = Some c ->
  pvt_lookup (iflist w) c = Some p ->
  (conf_enc_case (writeformat ch) = None ->
     ast_lantiq_answer E ast w = Some (-1, w, [])) /\
  (forall enc fl pt pl,
     conf_enc_case (writeformat ch) = Some (enc, fl, pt, pl) ->
     ast_lantiq_answer E ast w =
       Some (0,
             store_pvt w c
               (set_call_answer (to_uint32 (epoch E))
                  (set_codec (writeformat ch) (set_rtp_payload pl (set_ptime pt p)))),
             [Ioctl c (IFX_TAPI_ENC_CFG_SET enc fl); Ioctl c IFX_TAPI_ENC_START;
              Ioctl c IFX_TAPI_DEC_START])).
Proof.
  intros HI Hch Htp Hp. pose proof (Inv_port_id _ _ _ _ HI Hp) as Hid. split.
  - intros Hconf. apply wp_eq. unfold ast_lantiq_answer. wp_go. rewrite Htp. wp_go.
    unfold lantiq_conf_enc. rewrite Hconf. wp_go.
    change (c_true (-1)) with true. cbn iota. wp_go. by destruct w.
  - intros enc fl pt pl Hconf. apply wp_eq. unfold ast_lantiq_answer. wp_go. rewrite Htp.
    wp_go. unfold lantiq_conf_enc. rewrite Hconf, Hid. wp_go.
    change (c_true 0) with false. cbn iota. wp_go. done.
Qed.

End DialingCall.

(** *** Hook events and dialing on the example board *)

(** The user of port 0 hangs up while dialing 1234. *)
Lemma lantiq_dev_event_hook_onhook_example :
  exists w' t p',
    lantiq_dev_event_hook (example_env true (fun _ => 0)) 0 1 (example_world DIALING "1234") =
      Some (0, w', t) /\
    pvt_lookup (iflist w') 0 = Some p' /\ channel_state p' = ONHOOK /\
    dtmfbuf p' = EmptyString.
Proof.
  assert (0 < 80 < 2 ^ 31) as Hmax by lia.
  destruct (lantiq_dev_event_hook_onhook 80 Hmax (example_env true (fun _ => 0))
              (example_world DIALING "1234") 0
              (example_pvt 0 DIALING "1234" (Some 0%nat)) 1)
    as (r & w' & t & p' & Hrun & Hp' & Hs & -> & _ & Hd).
  - apply example_world_Inv; [exact Hmax|cbn; lia].
  - reflexivity.
  - discriminate.
  - exists w', t, p'. split; [exact Hrun|]. split; [exact Hp'|]. split; [exact Hs|].
    exact (proj1 (Hd eq_refl)).
Defined.

(** The handset of the idle port 1 is lifted. *)
Lemma lantiq_dev_event_hook_offhook_example :
  lantiq_dev_event_hook (example_env true (fun _ => 0)) 1 0 (example_world ONHOOK EmptyString) =
    Some (0, store_pvt (example_world ONHOOK EmptyString) 1
               (example_pvt 1 OFFHOOK EmptyString None),
          [Ioctl 1 (IFX_TAPI_LINE_FEED_SET IFX_TAPI_LINE_FEED_ACTIVE);
           Ioctl 1 (IFX_TAPI_TONE_LOCAL_PLAY TAPI_TONE_LOCALE_NONE);
           Ioctl 1 (IFX_TAPI_TONE_LOCAL_PLAY TAPI_TONE_LOCALE_DIAL_CODE);
           Led 1 LedOn]).
Proof.
  refine (proj2 (lantiq_dev_event_hook_offhook (example_env true (fun _ => 0))
                   (example_world ONHOOK EmptyString) 1
                   (example_pvt 1 ONHOOK EmptyString None) _) _ _);
    [reflexivity|reflexivity|discriminate].
Defined.

(** Channel 0 calls port 0, and the handset is lifted. *)
Lemma call_then_offhook_example :
  exists w1 t1 w2 t2,
    ast_lantiq_call (example_env true (fun _ => 0)) 0 (example_world ONHOOK EmptyString) =
      Some (0, w1, t1) /\
    lantiq_dev_event_hook (example_env true (fun _ => 0)) 0 0 w1 = Some (0, w2, t2) /\
    channel_state <$> pvt_lookup (iflist w2) 0 = Some INCALL /\
    AstQueueControl 0 AST_CONTROL_ANSWER ∈ t2.
Proof.
  assert (0 < 80 < 2 ^ 31) as Hmax by lia.
  destruct (call_then_offhook_answers 80 Hmax (example_env true (fun _ => 0))
              (example_world ONHOOK EmptyString) 0 (example_chan 0) 0
              (example_pvt 0 ONHOOK EmptyString (Some 0%nat)))
    as (w1 & t1 & w2 & t2 & p2 & Hrun1 & _ & Hrun2 & Hp2 & Hs2 & _ & _ & Hin);
    try reflexivity.
  - apply example_world_Inv_80.
  - by left.
  - exists w1, t1, w2, t2. split; [exact Hrun1|]. split; [exact Hrun2|].
    split; [by rewrite Hp2, <- Hs2|exact Hin].
Defined.

(** A digit keyed in during the call of port 0 goes to channel 0. *)
Lemma lantiq_dev_event_digit_incall_example :
  lantiq_dev_event_digit (example_env true (fun _ => 0)) 80 0 "5"
    (example_world INCALL EmptyString) =
  Some (tt, example_world INCALL EmptyString, [AstQueueFrameDtmf 0 "5"]).
Proof.
  destruct (proj1 (lantiq_dev_event_digit_not_dialing 80 (example_env true (fun _ => 0))
                     (example_world INCALL EmptyString) 0 "5"%char
                     (example_pvt 0 INCALL EmptyString (Some 0%nat))
                     (example_world_Inv_80 INCALL) eq_refl) eq_refl)
    as (ch & [= <-] & Hrun).
  exact Hrun.
Defined.

(** Port 1 of the example board dials 1234#. *)
Lemma dial_scenario_example :
  exists w' t p',
    dial_scenario (example_env true (fun _ => 0)) 80 1 "1234" (example_world ONHOOK EmptyString) =
      Some (tt, w', t) /\
    AstChannelAlloc 1 AST_STATE_UP (Some "1234"%string) (Some "default"%string) 1 ∈ t /\
    AstPbxStart 1 ∈ t /\
    pvt_lookup (iflist w') 1 = Some p' /\
    channel_state p' = INCALL /\ owner p' = Some 1%nat /\ dtmfbuf p' = EmptyString.
Proof.
  assert (0 < 80 < 2 ^ 31) as Hmax by lia.
  assert (Forall (fun d => d <> "#"%char) (list_ascii_of_string "1234")) as Hall
    by (repeat constructor; discriminate).
  assert (Z.of_nat (String.length "1234") <= 80 - 1) as Hlen by (cbn; lia).
  assert (channel_state (example_pvt 1 ONHOOK EmptyString None) <> RINGING) as Hs0
    by discriminate.
  destruct (dial_scenario_starts_call 80 Hmax (example_env true (fun _ => 0))
              (example_world ONHOOK EmptyString) 1
              (example_pvt 1 ONHOOK EmptyString None) "1234"
              (example_world_Inv_80 ONHOOK) eq_refl Hs0 eq_refl Hall Hlen
              eq_refl eq_refl eq_refl eq_refl)
    as (w' & t & p' & chan & Hrun & Ha & Hb & Hp' & Hs & Ho & Hd & _).
  exists w', t, p'. repeat (split; [assumption|]). exact Hd.
Defined.

(** Channel 0, which writes signed linear at 16 kHz, is answered. *)
Lemma ast_lantiq_answer_example :
  ast_lantiq_answer (example_env true (fun _ => 0)) 0 (example_world RINGING EmptyString) =
    Some (0,
          store_pvt (example_world RINGING EmptyString) 0
            (set_call_answer 1700000000 (example_pvt 0 RINGING EmptyString (Some 0%nat))),
          [Ioctl 0 (IFX_TAPI_ENC_CFG_SET IFX_TAPI_COD_TYPE_LIN16_16 IFX_TAPI_COD_LENGTH_10);
           Ioctl 0 IFX_TAPI_ENC_START; Ioctl 0 IFX_TAPI_DEC_START]).
Proof.
  exact (proj2 (ast_lantiq_answer_configures 80 (example_env true (fun _ => 0))
                  (example_world RINGING EmptyString) 0 (example_chan 0) 0
                  (example_pvt 0 RINGING EmptyString (Some 0%nat))
                  (example_world_Inv_80 RINGING) eq_refl eq_refl eq_refl)
               IFX_TAPI_COD_TYPE_LIN16_16 IFX_TAPI_COD_LENGTH_10 10 RTP_SLIN16 eq_refl).
Defined.

(** ** Inbound media *)

Section DataHandler.
Variable MAX : Z.
Variable E : env.
Variable ast_codec_get_samples : ast_frame -> Z.

(** X18.  [lantiq_dev_data_handler] always returns 0 and leaves the world as
    it is.  It queues a frame exactly when the read returned at least one
    byte, the port has an owner in state AST_STATE_UP, the payload type read
    is the port's and the channel lock could be taken; the frame then goes
    to the owner, as a voice frame in the port's codec, and its [datalen] is
    the number of bytes read minus 12, without a lower bound: a read of
    fewer than 12 bytes gives a negative [datalen]. *)
Theorem lantiq_dev_data_handler_queues trylock w c p res payload_type :
  Inv MAX w ->
  pvt_lookup (iflist w) c = Some p ->
  - 2 ^ 31 <= res < 2 ^ 31 ->
  exists q,
    lantiq_dev_data_handler ast_codec_get_samples trylock c res payload_type w =
      Some ((0, q), w, []) /\
    (is_Some q <->
       0 < res /\
       (exists chan ch, owner p = Some chan /\ chans w !! chan = Some ch /\
                        _state ch = AST_STATE_UP) /\
       payload_type = rtp_payload p /\ trylock = 0) /\
    (forall chan frame, q = Some (chan, frame) ->
       owner p = Some chan /\
       frametype frame = AST_FRAME_VOICE /\ subclass_codec frame = codec p /\
       datalen frame = res - RTP_HEADER_LEN /\
       (res < RTP_HEADER_LEN -> datalen frame < 0)).
Proof.
  intros HI Hp Hres. unfold lantiq_dev_data_handler.
  destruct (Z.leb_spec res 0) as [Hle|Hgt].
  { exists None. split; [done|]. split; [|done]. split; [by intros []|lia]. }
  rewrite (bind_pure _ _ _ _ (load_pvt_eq _ _ _ Hp)).
  destruct (owner p) as [chan|] eqn:Ho.
  2:{ exists None. split; [done|]. split; [|done].
      split; [by intros []|]. by intros (_ & (? & ? & ? & _) & _). }
  destruct (Inv_owner _ _ _ _ _ HI Hp Ho) as (ch & Hch & _).
  rewrite (bind_pure _ _ _ _ (load_chan_eq _ _ _ Hch)).
  destruct (bool_decide_reflect (_state ch = AST_STATE_UP)) as [Hup|Hup]; cbn [negb].
  2:{ exists None. split; [done|]. split; [|done].
      split; [by intros []|]. intros (_ & (chan' & ch' & ? & ? & ?) & _). simplify_eq. }
  destruct (Z.eqb_spec payload_type (rtp_payload p)) as [Hpt|Hpt]; cbn [negb].
  2:{ exists None. split; [done|]. split; [|done].
      split; [by intros []|]. by intros (_ & _ & ? & _). }
  unfold c_true. destruct (Z.eqb_spec trylock 0) as [Hl|Hl]; cbn [negb].
  2:{ exists None. split; [done|]. split; [|done].
      split; [by intros []|]. by intros (_ & _ & _ & ?). }
  eexists (Some _). split; [reflexivity|]. split.
  - split; [|by eexists]. intros _. split; [done|]. split; [by exists chan, ch|done].
  - intros chan' frame [= <- <-]. cbn.
    unfold RTP_HEADER_LEN in *. rewrite to_int_small by lia. repeat split; lia.
Qed.

End DataHandler.

(** ** The payload types of the port and of the device *)

(** X19.  The payload type [lantiq_conf_enc] stores in the port for a
    format is the one [lantiq_setup_rtp] gives the device for the format's
    encoder type, except for AST_FORMAT_ILBC and AST_FORMAT_SIREN7: for
    those the port expects 102 and 105, while the device table has 0 for
    IFX_TAPI_COD_TYPE_ILBC_133 and 100 for IFX_TAPI_COD_TYPE_G7221_32. *)
Theorem conf_enc_payload_matches_table f enc fl pt pl :
  conf_enc_case f = Some (enc, fl, pt, pl) ->
  (rtpPTConf (COD enc) = pl <-> f <> AST_FORMAT_ILBC /\ f <> AST_FORMAT_SIREN7) /\
  (f = AST_FORMAT_ILBC -> pl = 102 /\ rtpPTConf (COD enc) = 0) /\
  (f = AST_FORMAT_SIREN7 -> pl = 105 /\ rtpPTConf (COD enc) = 100).
Proof.
  destruct f; intros [= <- <- <- <-]; cbn; (split; [split|split]); try done;
    try (by intros [? ?]); by split.
Qed.

Lemma conf_enc_payload_matches_table_example :
  rtpPTConf (COD IFX_TAPI_COD_TYPE_G7221_32) = 100 /\ RTP_SIREN7 = 105.
Proof.
  destruct (conf_enc_payload_matches_table AST_FORMAT_SIREN7 IFX_TAPI_COD_TYPE_G7221_32
              IFX_TAPI_COD_LENGTH_20 20 RTP_SIREN7 eq_refl) as (_ & _ & H).
  destruct (H eq_refl) as [H1 H2]. split; [exact H2|exact H1].
Defined.

(** ** The event pump *)

Section EventPump.
Variable MAX : Z.
Hypothesis MAX_pos : 0 < MAX < 2 ^ 31.
Variable E : env.
Variable events : Z -> Z * IFX_TAPI_EVENT_t.

Lemma lantiq_dev_event_handler_port_spec w i p :
  Inv MAX w ->
  pvt_lookup (iflist w) i = Some p ->
  wp (lantiq_dev_event_handler_port E MAX i (events i).1 (events i).2) w (fun restart w' _ =>
    Inv MAX w' /\ length (iflist w') = length (iflist w) /\
    (restart = true <->
       (events i).1 = 0 /\ exists id, event_id (events i).2 = IFX_TAPI_EVENT_other id)).
Proof.
  intros HI Hp. unfold lantiq_dev_event_handler_port, c_true.
  assert (forall (w' : world),
    Inv MAX w' -> length (iflist w') = length (iflist w) ->
    (forall id, event_id (events i).2 <> IFX_TAPI_EVENT_other id) ->
    Inv MAX w' /\ length (iflist w') = length (iflist w) /\
    (false = true <->
       (events i).1 = 0 /\ exists id, event_id (events i).2 = IFX_TAPI_EVENT_other id))
    as Hno.
  { intros w' HI' Hl' Hid. split; [done|]. split; [done|].
    split; [done|]. intros (_ & id & ?). by destruct (Hid id). }
  destruct (Z.eqb_spec (events i).1 0) as [Hz|Hnz]; cbn [negb].
  2:{ apply wp_ret. split; [done|]. split; [done|]. split; [done|]. by intros [? _]. }
  destruct (event_id (events i).2) eqn:Hid.
  - apply wp_ret. by apply Hno.
  - wp_step. eapply wp_mono; [by eapply lantiq_dev_event_hook_spec|].
    cbn beta. intros r w1 t1 [HI1 Hl1]. apply wp_ret. by apply Hno.
  - wp_step. eapply wp_mono; [by eapply lantiq_dev_event_hook_spec|].
    cbn beta. intros r w1 t1 [HI1 Hl1]. apply wp_ret. by apply Hno.
  - wp_step. eapply wp_mono; [by eapply lantiq_dev_event_digit_spec|].
    cbn beta. intros r w1 t1 (HI1 & Hl1 & _). apply wp_ret. by apply Hno.
  - wp_step. eapply wp_mono; [by eapply lantiq_dev_event_digit_spec|].
    cbn beta. intros r w1 t1 (HI1 & Hl1 & _). apply wp_ret. by apply Hno.
  - apply wp_ret. by apply Hno.
  - apply wp_ret. by apply Hno.
  - apply wp_ret. by apply Hno.
  - apply wp_ret. split; [done|]. split; [done|]. split; [|done]. intros _. by eauto.
Qed.

Lemma lantiq_dev_event_handler_loop_spec n : forall i w,
  Inv MAX w ->
  0 <= i ->
  i + Z.of_nat n <= Z.of_nat (length (iflist w)) ->
  wp (lantiq_dev_event_handler_loop E MAX events n i) w (fun restarts w' _ =>
    Inv MAX w' /\ length (iflist w') = length (iflist w) /\
    forall j, j ∈ restarts <->
      i <= j < i + Z.of_nat n /\
      (events j).1 = 0 /\ exists id, event_id (events j).2 = IFX_TAPI_EVENT_other id).
Proof.
  induction n as [|n IH]; intros i w HI Hi Hn.
  { apply wp_ret. split; [done|]. split; [done|]. intros j. split; [by intros ?%elem_of_nil|lia]. }
  cbn [lantiq_dev_event_handler_loop].
  destruct (lookup_lt_is_Some_2 (iflist w) (Z.to_nat i)) as [p Hp]; [lia|].
  assert (pvt_lookup (iflist w) i = Some p) as Hp' by (by apply pvt_lookup_Some).
  wp_step. eapply wp_mono; [by eapply lantiq_dev_event_handler_port_spec|].
  cbn beta. intros restart w1 t1 (HI1 & Hl1 & Hr).
  wp_step. eapply wp_mono; [apply (IH (i + 1) w1 HI1); lia|].
  cbn beta. intros rest w2 t2 (HI2 & Hl2 & Hrest). apply wp_ret.
  split; [done|]. split; [congruence|]. intros j.
  destruct restart.
  - rewrite elem_of_cons, Hrest. split.
    + intros [->|(? & ?)]; [|split; [lia|done]]. split; [lia|]. by apply Hr.
    + intros (? & ?). destruct (decide (j = i)) as [->|]; [by left|right].
      split; [lia|done].
  - rewrite Hrest. split.
    + intros (? & ?). split; [lia|done].
    + intros (? & Hu). destruct (decide (j = i)) as [->|]; [|split; [lia|done]].
      by apply Hr in Hu.
Qed.

(** X20.  One pass of [lantiq_dev_event_handler] over the ports of a
    well-formed world, whatever events the device reports, runs to
    completion and leaves the world well formed; Asterisk is ordered to
    restart for exactly the ports whose event was fetched and has an
    identifier the handler does not know. *)
Theorem lantiq_dev_event_handler_keeps w :
  Inv MAX w ->
  channels (dev_ctx w) < 2 ^ 32 ->
  exists restarts w' t,
    lantiq_dev_event_handler E MAX events w = Some (restarts, w', t) /\
    Inv MAX w' /\ length (iflist w') = length (iflist w) /\
    forall j, j ∈ restarts <->
      0 <= j < channels (dev_ctx w) /\
      (events j).1 = 0 /\ exists id, event_id (events j).2 = IFX_TAPI_EVENT_other id.
Proof.
  intros HI Hch. pose proof (inv_channels _ _ HI) as Hlen.
  assert (to_uint32 (channels (dev_ctx w)) = channels (dev_ctx w)) as Hu.
  { unfold to_uint32. apply Z.mod_small. lia. }
  assert (wp (lantiq_dev_event_handler E MAX events) w (fun restarts w' _ =>
    Inv MAX w' /\ length (iflist w') = length (iflist w) /\
    forall j, j ∈ restarts <->
      0 <= j < channels (dev_ctx w) /\
      (events j).1 = 0 /\ exists id, event_id (events j).2 = IFX_TAPI_EVENT_other id))
    as (restarts & w' & t & Hrun & H).
  { unfold lantiq_dev_event_handler. wp_step. apply wp_get_world. rewrite Hu.
    eapply wp_mono; [apply lantiq_dev_event_handler_loop_spec; [done|lia|lia]|].
    cbn beta. intros restarts w' t (HI' & Hl' & Hr). split; [done|]. split; [done|].
    intros j. rewrite Hr. rewrite Z2Nat.id by lia. done. }
  by exists restarts, w', t.
Qed.

End EventPump.

(** ** Configuration *)

Lemma strcaseeq_common s : forall a b,
  strcaseeq s a = true -> strcaseeq s b = true -> strcaseeq a b = true.
Proof.
  induction s as [|x s IH]; intros [|y a] [|z b]; cbn; try done.
  intros [Hxy Ha]%andb_prop [Hxz Hb]%andb_prop.
  apply Ascii.eqb_eq in Hxy, Hxz. rewrite <- Hxy, <- Hxz, Ascii.eqb_refl. cbn. by apply IH.
Qed.

(** In the branch of one name of the [else if] chain, the test for another
    name fails. *)
Ltac other_name :=
  match goal with
  | H1 : strcaseeq ?n ?a = true, H2 : strcaseeq ?n ?b = true |- _ =>
      let H := fresh in
      pose proof (strcaseeq_common n a b H1 H2) as H; vm_compute in H; discriminate H
  end.

Section ConfigurationFacts.
Variable K : tapi_constants.
Variable PATH_MAX : Z.
Variable ast_copy_string : string -> Z -> string.

Lemma general_variable_defaults v g g' :
  general_variable K v g = Some g' -> defaults_kept K g -> defaults_kept K g'.
Proof.
  unfold general_variable, defaults_kept. intros Hv (H1 & H2 & H3 & H4 & H5 & H6 & H7 & H8).
  repeat case_match; simplify_eq; try other_name; unfold assign; cbn; done.
Qed.

Lemma general_variable_interdigit v g g' :
  general_variable K v g = Some g' ->
  g dev_ctx_interdigit_timeout <> 0 -> g' dev_ctx_interdigit_timeout <> 0.
Proof.
  unfold general_variable. intros Hv H.
  repeat case_match; simplify_eq; try other_name; unfold assign in *; cbn in *; try done.
  all: destruct (decide _); [by apply Z.eqb_neq|done].
Qed.

Lemma config_loop_inv {S} (body : ast_variable -> S -> option S) (P : S -> Prop) vs :
  (forall v s s', body v s = Some s' -> P s -> P s') ->
  forall s s', config_loop body vs s = Some s' -> P s -> P s'.
Proof.
  intros Hbody. induction vs as [|v vs IH]; intros s s' Hrun HP.
  - cbn in Hrun. by simplify_eq.
  - cbn in Hrun. destruct (body v s) as [s1|] eqn:Hv; [|done]. eauto.
Qed.

Lemma config_loop_declines {S} (body : ast_variable -> S -> option S) vs v :
  v ∈ vs -> (forall s, body v s = None) -> forall s, config_loop body vs s = None.
Proof.
  intros Hin Hv. induction vs as [|v' vs IH]; intros s.
  - by apply elem_of_nil in Hin.
  - cbn. apply elem_of_cons in Hin as [<-|Hin]; [by rewrite Hv|].
    destruct (body v' s); [by apply IH|done].
Qed.

Lemma interfaces_variable_channels v s s' :
  interfaces_variable PATH_MAX ast_copy_string v s = Some s' ->
  cfg_channels s <> 0 -> cfg_channels s' <> 0.
Proof.
  unfold interfaces_variable. intros Hv H.
  repeat case_match; simplify_eq; cbn; try done. by apply Z.eqb_neq.
Qed.

(** X21.  Whatever lantiq.conf holds, an accepted configuration leaves the
    jitter buffer scaling and sizes, the jitter buffer's local adaptation
    and the three echo canceller window sizes at their defaults (16, 720,
    80, 1440, IFX_TAPI_JB_LOCAL_ADAPT_DEFAULT, 0, 0, 0): the branches that
    would assign them are nested in the branch of another variable name and
    cannot be reached. *)
Theorem load_module_config_defaults_kept statics interfaces general s g w :
  load_module_config K PATH_MAX ast_copy_string statics interfaces general = Some (s, g, w) ->
  g jb_scaling = 16 /\ g jb_initialsize = 720 /\ g jb_minsize = 80 /\ g jb_maxsize = 1440 /\
  g wlec_nbfe = 0 /\ g wlec_nbne = 0 /\ g wlec_wbne = 0 /\
  g jb_localadpt = IFX_TAPI_JB_LOCAL_ADAPT_DEFAULT K.
Proof.
  unfold load_module_config. intros Hrun.
  destruct (config_loop _ interfaces _) as [s1|]; [|done].
  destruct (config_loop _ general _) as [g1|] eqn:Hg; [|done]. simplify_eq.
  eapply (config_loop_inv (general_variable K) (defaults_kept K)); [|exact Hg|].
  - apply general_variable_defaults.
  - by repeat split.
Qed.

(** X22.  What the configuration part of [load_module] checks of
    [channels] and [interdigit].  A configuration it accepts has neither
    zero channels nor a zero interdigit timeout, and [dev_ctx] holds these
    two values when [lantiq_create_pvts] is called.  A [channels] variable
    whose value [atoi] reads as 0 makes the module decline to load.  No
    other bound is checked: a lantiq.conf whose only variable is a
    [channels] that [atoi] reads as a number other than 0 is accepted with
    that number of channels, be it above TAPI_AUDIO_PORT_NUM_MAX or
    negative. *)
Theorem load_module_config_channels statics interfaces general :
  (forall s g w,
     load_module_config K PATH_MAX ast_copy_string statics interfaces general = Some (s, g, w) ->
     cfg_channels s <> 0 /\ g dev_ctx_interdigit_timeout <> 0 /\
     dev_ctx w = {| channels := cfg_channels s;
                    interdigit_timeout := g dev_ctx_interdigit_timeout |}) /\
  (forall v, v ∈ interfaces ->
     strcaseeq (var_name v) "channels" = true -> atoi (var_value v) = 0 ->
     load_module_config K PATH_MAX ast_copy_string statics interfaces general = None) /\
  (forall v,
     strcaseeq (var_name v) "channels" = true -> atoi (var_value v) <> 0 ->
     exists s g w,
       load_module_config K PATH_MAX ast_copy_string statics [v] [] = Some (s, g, w) /\
       cfg_channels s = atoi (var_value v) /\
       channels (dev_ctx w) = atoi (var_value v)).
Proof.
  unfold load_module_config. split; [|split].
  - intros s g w Hrun.
    destruct (config_loop _ interfaces _) as [s1|] eqn:Hs; [|done].
    destruct (config_loop _ general _) as [g1|] eqn:Hg; [|done]. simplify_eq.
    split; [|split; [|done]].
    + eapply (config_loop_inv (interfaces_variable PATH_MAX ast_copy_string)
                (fun s => cfg_channels s <> 0)); [|exact Hs|done].
      apply interfaces_variable_channels.
    + eapply (config_loop_inv (general_variable K)
                (fun g => g dev_ctx_interdigit_timeout <> 0)); [|exact Hg|done].
      apply general_variable_interdigit.
  - intros v Hin Hname Hval.
    rewrite (config_loop_declines (interfaces_variable PATH_MAX ast_copy_string) interfaces v);
      [done|done|].
    intros s. unfold interfaces_variable. by rewrite Hname, Hval.
  - intros v Hname Hval. cbn [config_loop]. unfold interfaces_variable. rewrite Hname.
    destruct (Z.eqb_spec (atoi (var_value v)) 0) as [|_]; [done|].
    eexists _, _, _. split; [reflexivity|]. by split.
Qed.

End ConfigurationFacts.

(** *** Media, events and configuration on the examples *)

(** A read of 332 bytes with payload type 104 on port 0, in a call: a frame
    of 320 bytes goes to channel 0. *)
Lemma lantiq_dev_data_handler_example :
  exists frame,
    lantiq_dev_data_handler (fun f => datalen f ÷ 2) 0 0 332 104
      (example_world INCALL EmptyString) =
      Some ((0, Some (0%nat, frame)), example_world INCALL EmptyString, []) /\
    datalen frame = 320 /\ subclass_codec frame = AST_FORMAT_SLINEAR16.
Proof.
  assert (- 2 ^ 31 <= 332 < 2 ^ 31) as Hres by lia.
  destruct (lantiq_dev_data_handler_queues 80 (fun f => datalen f ÷ 2) 0
              (example_world INCALL EmptyString) 0
              (example_pvt 0 INCALL EmptyString (Some 0%nat)) 332 104
              (example_world_Inv_80 INCALL) eq_refl Hres)
    as (q & Hrun & Hiff & Hq).
  assert (is_Some q) as [[chan frame] ->].
  { apply Hiff. split; [lia|]. split; [|done]. by exists 0%nat, (example_chan 0). }
  destruct (Hq chan frame eq_refl) as ([= <-] & _ & Hc & Hd & _).
  exists frame. split; [exact Hrun|]. split; [exact Hd|exact Hc].
Defined.

(** One pass of the event pump over the example board: port 1 reports an
    unknown event. *)
Lemma lantiq_dev_event_handler_example :
  exists restarts w' t,
    lantiq_dev_event_handler (example_env true (fun _ => 0)) 80 example_events
      (example_world ONHOOK EmptyString) = Some (restarts, w', t) /\
    Inv 80 w' /\ 1 ∈ restarts /\ 0 ∉ restarts.
Proof.
  assert (0 < 80 < 2 ^ 31) as Hmax by lia.
  assert (channels (dev_ctx (example_world ONHOOK EmptyString)) < 2 ^ 32) as Hch
    by (cbn; lia).
  destruct (lantiq_dev_event_handler_keeps 80 Hmax (example_env true (fun _ => 0))
              example_events (example_world ONHOOK EmptyString)
              (example_world_Inv_80 ONHOOK) Hch)
    as (restarts & w' & t & Hrun & HI & _ & Hr).
  exists restarts, w', t. split; [exact Hrun|]. split; [exact HI|]. split.
  - apply Hr. split; [cbn; lia|]. split; [reflexivity|]. by exists 99.
  - intros (_ & _ & id & Hid)%Hr. discriminate Hid.
Defined.

(** The example lantiq.conf is accepted, and its jitter buffer and echo
    canceller sizes are ignored. *)
Lemma load_module_config_example :
  exists s g w,
    load_module_config example_constants 4096 (fun src _ => src) (initial_interfaces)
      example_interfaces example_general = Some (s, g, w) /\
    g jb_maxsize = 1440 /\ g wlec_nbne = 0.
Proof.
  destruct (load_module_config example_constants 4096 (fun src _ => src) initial_interfaces
              example_interfaces example_general) as [[[s g] w]|] eqn:Hrun;
    [|vm_compute in Hrun; discriminate Hrun].
  destruct (load_module_config_defaults_kept example_constants 4096 (fun src _ => src)
              initial_interfaces example_interfaces example_general s g w Hrun)
    as (_ & _ & _ & Hmax & _ & Hnbne & _).
  by exists s, g, w.
Defined.

(** The example lantiq.conf, which asks for three channels on a board
    with room for two and gives an invalid interdigit value, is accepted
    with three channels and the default timeout. *)
Lemma load_module_config_channels_example :
  exists s g w,
    load_module_config example_constants 4096 (fun src _ => src) (initial_interfaces)
      example_interfaces example_general = Some (s, g, w) /\
    cfg_channels s <> 0 /\ g dev_ctx_interdigit_timeout <> 0 /\
    dev_ctx w = {| channels := 3; interdigit_timeout := DEFAULT_INTERDIGIT_TIMEOUT |}.
Proof.
  destruct (load_module_config example_constants 4096 (fun src _ => src) initial_interfaces
              example_interfaces example_general) as [[[s g] w]|] eqn:Hrun;
    [|vm_compute in Hrun; discriminate Hrun].
  destruct (proj1 (load_module_config_channels example_constants 4096 (fun src _ => src)
                     initial_interfaces example_interfaces example_general) s g w Hrun)
    as (Hc & Hi & Hd).
  exists s, g, w. split; [reflexivity|]. split; [exact Hc|]. split; [exact Hi|].
  vm_compute in Hrun. injection Hrun as <- <- <-. reflexivity.
Defined.

(** ** Failures on the way into a call *)

Section CallFailures.
Variable MAX : Z.
Hypothesis MAX_pos : 0 < MAX < 2 ^ 31.
Variable E : env.

(** X23.  A call to an idle port whose channel has a valid connected-line
    number but no valid connected-line name crashes: [ast_lantiq_call]
    passes the NULL name to [lantiq_ring], which takes its [strlen]. *)
Theorem ast_lantiq_call_number_without_name w ast ch pvt p cid :
  chans w !! ast = Some ch ->
  tech_pvt ch = Some pvt ->
  pvt_lookup (iflist w) pvt = Some p ->
  channel_state p = ONHOOK ->
  cid_of ch = Some cid ->
  name_of ch = None ->
  ast_lantiq_call E ast w = None.
Proof.
  intros Hch Htp Hp Hs Hcid Hname. unfold ast_lantiq_call.
  rewrite (bind_pure _ _ _ _ (load_chan_eq _ _ _ Hch)), Htp.
  rewrite (bind_pure (deref_pvt (Some pvt)) _ w pvt) by reflexivity.
  rewrite (bind_pure _ _ _ _ (load_pvt_eq _ _ _ Hp)), Hs.
  fold (cid_of ch) (name_of ch). rewrite Hcid, Hname.
  apply bind_crash. unfold lantiq_ring. cbn [c_true Z.eqb negb].
  unfold bind, led_blink, emit, crash. reflexivity.
Qed.

(** X24.  A dial attempt whose PBX cannot be started: the channel that was
    allocated for the call is hung up and released, and the port is left in
    state CALL_ENDED without owner and with an empty digit buffer, the busy
    tone playing. *)
Theorem lantiq_dial_pbx_start_fails w pvt p :
  Inv MAX w ->
  pvt_lookup (iflist w) pvt = Some p ->
  ast_exists_extension E (context p) (dtmfbuf p) = true ->
  ast_channel_alloc_ok E = true ->
  ast_pbx_start_ret E <> 0 ->
  exists w' t p',
    lantiq_dial E pvt w = Some (tt, w', t) /\
    AstHangup (next_chan w) ∈ t /\
    chans w' !! next_chan w = None /\
    pvt_lookup (iflist w') pvt = Some p' /\
    channel_state p' = CALL_ENDED /\ owner p' = None /\
    dtmfbuf p' = EmptyString /\ dtmfbuf_len p' = 0 /\
    Ioctl pvt (IFX_TAPI_TONE_LOCAL_PLAY TAPI_TONE_LOCALE_BUSY_CODE) ∈ t.
Proof.
  intros HI Hp Hext Halloc Hpbx. pose proof (Inv_port_id _ _ _ _ HI Hp) as Hid.
  assert (wp (lantiq_dial E pvt) w (fun _ w' t => exists p',
    AstHangup (next_chan w) ∈ t /\
    chans w' !! next_chan w = None /\
    pvt_lookup (iflist w') pvt = Some p' /\
    channel_state p' = CALL_ENDED /\ owner p' = None /\
    dtmfbuf p' = EmptyString /\ dtmfbuf_len p' = 0 /\
    Ioctl pvt (IFX_TAPI_TONE_LOCAL_PLAY TAPI_TONE_LOCALE_BUSY_CODE) ∈ t))
    as ([] & w' & t & Hrun & p' & H).
  { unfold lantiq_dial. wp_go. rewrite Hext, Hid.
    unfold lantiq_channel, ast_channel_alloc. rewrite Halloc. wp_go.
    destruct (decide (FORMAT_ZERO = FORMAT_ZERO)); [|done]. wp_go.
    rewrite (c_true_nonzero _ Hpbx).
    unfold ast_hangup, ast_lantiq_hangup. wp_go. cbn [tech_pvt set__state set_tech_pvt].
    wp_go. cbn [channel_state set_call_start set_call_setup_start set_channel_state
                port_id set_owner].
    rewrite Hid. wp_go.
    eexists. split; [rewrite !elem_of_cons; tauto|].
    split; [cbn [chans]; by rewrite lookup_delete_eq|].
    split; [solve_lookup|].
    cbn. rewrite ?jb_channel_state, ?jb_owner, ?jb_dtmfbuf, ?jb_dtmfbuf_len.
    repeat (split; [done|]).
    rewrite !elem_of_cons. tauto. }
  by exists w', t, p'.
Qed.

End CallFailures.

(** A caller with the number 5551234 and no name rings port 1. *)
Lemma ast_lantiq_call_number_without_name_example :
  ast_lantiq_call (example_env true (fun _ => 0)) 0
    {| iflist := [example_pvt 0 ONHOOK EmptyString (Some 0%nat)];
       dev_ctx := {| channels := 1; interdigit_timeout := 2000 |};
       chans := {[ 0%nat := {| _state := AST_STATE_DOWN; tech_pvt := Some 0;
                               writeformat := AST_FORMAT_ALAW;
                               connected_id_number := {| valid := true; str := Some "5551234"%string |};
                               connected_id_name := {| valid := false; str := None |} |} ]};
       next_chan := 1 |} = None.
Proof.
  eapply (ast_lantiq_call_number_without_name (example_env true (fun _ => 0)) _ 0 _ 0
            (example_pvt 0 ONHOOK EmptyString (Some 0%nat)) "5551234"); reflexivity.
Defined.

(** Port 0 has dialed 1234, but the PBX does not start on channel 1. *)
Lemma lantiq_dial_pbx_start_fails_example :
  exists w' t p',
    lantiq_dial example_env_pbx_fails 0 (example_world DIALING "1234") = Some (tt, w', t) /\
    chans w' !! 1%nat = None /\
    pvt_lookup (iflist w') 0 = Some p' /\
    channel_state p' = CALL_ENDED /\ owner p' = None /\ dtmfbuf p' = EmptyString.
Proof.
  assert (0 < 80 < 2 ^ 31) as Hmax by lia.
  assert (Inv 80 (example_world DIALING "1234")) as HI
    by (apply example_world_Inv; [exact Hmax|cbn; lia]).
  assert (ast_pbx_start_ret example_env_pbx_fails <> 0) as Hpbx by discriminate.
  destruct (lantiq_dial_pbx_start_fails 80 Hmax example_env_pbx_fails
              (example_world DIALING "1234") 0 (example_pvt 0 DIALING "1234" (Some 0%nat))
              HI eq_refl eq_refl eq_refl Hpbx)
    as (w' & t & p' & Hrun & _ & Hch & Hp' & Hs & Ho & Hb & _).
  exists w', t, p'. split; [exact Hrun|]. split; [exact Hch|]. split; [exact Hp'|].
  split; [exact Hs|]. split; [exact Ho|exact Hb].
Defined.

Section DialFailures.
Variable MAX : Z.
Hypothesis MAX_pos : 0 < MAX < 2 ^ 31.
Variable E : env.

(** X25.  [#] on a port that is OFFHOOK or DIALING, when the buffered
    digits, possibly none, are not an extension of the port's context: the
    pending dial timer is cancelled, the busy tone is played, and the port is
    left in state CALL_ENDED with an empty buffer; no channel is allocated. *)
Theorem lantiq_dev_event_digit_hash_no_extension w c p :
  Inv MAX w ->
  pvt_lookup (iflist w) c = Some p ->
  channel_state p = OFFHOOK \/ channel_state p = DIALING ->
  ast_exists_extension E (context p) (dtmfbuf p) = false ->
  exists w' t p',
    lantiq_dev_event_digit E MAX c "#" w = Some (tt, w', t) /\
    pvt_lookup (iflist w') c = Some p' /\
    channel_state p' = CALL_ENDED /\
    dtmfbuf p' = EmptyString /\ dtmfbuf_len p' = 0 /\ dial_timer p' = 0 /\
    owner p' = owner p /\
    Ioctl c (IFX_TAPI_TONE_LOCAL_PLAY TAPI_TONE_LOCALE_BUSY_CODE) ∈ t /\
    (dial_timer p <> 0 -> AstSchedDel (dial_timer p) ∈ t) /\
    chans w' = chans w /\ next_chan w' = next_chan w.
Proof.
  intros HI Hp Hs Hext. pose proof (Inv_port_id _ _ _ _ HI Hp) as Hid.
  assert (wp (lantiq_dev_event_digit E MAX c "#") w (fun _ w' t => exists p',
    pvt_lookup (iflist w') c = Some p' /\
    channel_state p' = CALL_ENDED /\
    dtmfbuf p' = EmptyString /\ dtmfbuf_len p' = 0 /\ dial_timer p' = 0 /\
    owner p' = owner p /\
    Ioctl c (IFX_TAPI_TONE_LOCAL_PLAY TAPI_TONE_LOCALE_BUSY_CODE) ∈ t /\
    (dial_timer p <> 0 -> AstSchedDel (dial_timer p) ∈ t) /\
    chans w' = chans w /\ next_chan w' = next_chan w))
    as ([] & w' & t & Hrun & p' & H).
  { assert (forall w1 p1 (Q : unit -> world -> list action -> Prop),
      pvt_lookup (iflist w1) c = Some p1 ->
      port_id p1 = c -> context p1 = context p -> dtmfbuf p1 = dtmfbuf p ->
      (forall p' t,
         channel_state p' = CALL_ENDED ->
         dtmfbuf p' = EmptyString -> dtmfbuf_len p' = 0 -> dial_timer p' = 0 ->
         owner p' = owner p1 ->
         Ioctl c (IFX_TAPI_TONE_LOCAL_PLAY TAPI_TONE_LOCALE_BUSY_CODE) ∈ t ->
         (dial_timer p1 <> 0 -> AstSchedDel (dial_timer p1) ∈ t) ->
         Q tt (store_pvt w1 c p') t) ->
      wp (lantiq_dev_event_digit_dialing E MAX c "#") w1 Q) as Hdial.
    { intros w1 p1 Q Hp1 Hid1 Hc1 Hb1 HQ. unfold lantiq_dev_event_digit_dialing.
      cbn [Ascii.eqb Bool.eqb]. wp_go. unfold c_true.
      destruct (Z.eqb_spec (dial_timer p1) 0) as [Hz|Hnz]; cbn [negb].
      - wp_go. unfold lantiq_dial. wp_go. rewrite Hc1, Hb1, Hext, Hid1. wp_go.
        apply HQ; try done.
        unfold play_tone_trace. cbn. rewrite !elem_of_cons. tauto.
      - wp_go. unfold lantiq_dial. wp_go.
        cbn [context dtmfbuf port_id set_dial_timer]. rewrite Hc1, Hb1, Hext, Hid1. wp_go.
        apply HQ; try done.
        + unfold play_tone_trace. cbn. rewrite !elem_of_cons. tauto.
        + intros _. rewrite !elem_of_cons. tauto. }
    unfold lantiq_dev_event_digit. wp_go. destruct Hs as [Hs|Hs]; rewrite Hs.
    - wp_go. eapply Hdial; [solve_lookup|done..|].
      intros p' t H1 H2 H3 H4 H5 H6 H7. exists p'. world_simpl.
      rewrite list_insert_insert_eq.
      split; [solve_lookup|]. repeat (split; [done|]).
      split; [repeat (rewrite elem_of_app || rewrite elem_of_cons); tauto|].
      split; [|done]. intros Hne. specialize (H7 Hne).
      repeat (rewrite elem_of_app || rewrite elem_of_cons). tauto.
    - eapply Hdial; [done..|].
      intros p' t H1 H2 H3 H4 H5 H6 H7. exists p'. world_simpl.
      split; [solve_lookup|]. by repeat (split; [done|]). }
  by exists w', t, p'.
Qed.

End DialFailures.

(** On port 1 of the example board, off hook, [#] alone is keyed in. *)
Lemma lantiq_dev_event_digit_hash_example :
  exists w' t p',
    lantiq_dev_event_digit (example_env true (fun _ => 0)) 80 1 "#"
      (store_pvt (example_world ONHOOK EmptyString) 1 (example_pvt 1 OFFHOOK EmptyString None)) =
      Some (tt, w', t) /\
    pvt_lookup (iflist w') 1 = Some p' /\ channel_state p' = CALL_ENDED /\
    Ioctl 1 (IFX_TAPI_TONE_LOCAL_PLAY TAPI_TONE_LOCALE_BUSY_CODE) ∈ t.
Proof.
  assert (0 < 80 < 2 ^ 31) as Hmax by lia.
  assert (Inv 80 (store_pvt (example_world ONHOOK EmptyString) 1
                    (example_pvt 1 OFFHOOK EmptyString None))) as HI.
  { eapply (Inv_store 80 (example_world ONHOOK EmptyString) 1
              (example_pvt 1 ONHOOK EmptyString None));
      [apply example_world_Inv_80|reflexivity|reflexivity|split; cbn; lia|discriminate|by left]. }
  destruct (lantiq_dev_event_digit_hash_no_extension 80 Hmax (example_env true (fun _ => 0))
              _ 1 (example_pvt 1 OFFHOOK EmptyString None) HI eq_refl
              (or_introl eq_refl) eq_refl)
    as (w' & t & p' & Hrun & Hp' & Hs & _ & _ & _ & _ & Hin & _).
  exists w', t, p'. split; [exact Hrun|]. split; [exact Hp'|]. split; [exact Hs|exact Hin].
Defined.
(** ** A chunk length that does not fit the buffer *)

Lemma wlp_None {A} (m : M A) w : wlp m w (fun _ _ _ => False) -> m w = None.
Proof. intros H. destruct (m w) as [[[a w'] t]|] eqn:Hm; [|done]. by destruct (H a w' t). Qed.

Section PacketizerOverrun.
Variable E : env.

(** An iteration whose chunk length is negative or above 500 stops in
    [memcpy], which copies past the end of [buf]. *)
Lemma write_loop_overrun fuel pvt frame hdr n head length smp w p :
  pvt_lookup (iflist w) pvt = Some p ->
  datalen frame <> 0 ->
  head < datalen frame ->
  - 2 ^ 31 <= length < 2 ^ 31 ->
  ~ 0 <= next_length frame head length <= RTP_BUFFER_LEN - RTP_HEADER_LEN ->
  write_loop E (S fuel) pvt frame hdr n head length smp w = None.
Proof.
  intros Hp Hd Hlt Hrange Hbad. apply wlp_None.
  cbn [write_loop]. apply Z.ltb_lt in Hlt as ->.
  do 3 (apply wlp_bind; wp_step).
  pose proof (next_length_range frame head length Hrange) as Hrange'.
  unfold next_length in Hbad, Hrange'.
  destruct (to_long (datalen frame - head) <? RTP_BUFFER_LEN - RTP_HEADER_LEN).
  - apply wlp_bind. wp_step. eapply wp_c_div; [done|]. wp_step. cbn [fst snd].
    apply wlp_memcpy_buf; [done|]. intros Hok. by destruct Hbad.
  - apply wlp_bind. wp_step. cbn [fst snd].
    apply wlp_memcpy_buf; [done|]. intros Hok. by destruct Hbad.
Qed.

End PacketizerOverrun.

(** C4.  The chunk length is not kept within the buffer for every frame.
    A 640-byte voice frame that announces 49999991 ms, on a port with a
    packetization time of 10 ms, has 5000000 subframes;
    [(RTP_BUFFER_LEN - RTP_HEADER_LEN) * subframes] is 2500000000, which
    does not fit an [int], and the chunk length computed from the wrapped
    product is -358.  As 640 bytes are left the loop keeps that length, and
    [memcpy] is asked to copy [(size_t) -358] = 4294966938 bytes into the
    500 bytes of [buf] behind the header: the call stops there, before any
    write, whatever the fuel. *)
Theorem chunk_length_overflow_overruns_buffer :
  let frame := example_frame_of 640 49999991 in
  let w := example_world INCALL EmptyString in
  subframes_of frame 10 = 5000000 /\
  to_int ((RTP_BUFFER_LEN - RTP_HEADER_LEN) * 5000000) = -1794967296 /\
  initial_length frame 5000000 = -358 /\
  next_length frame 0 (-358) = -358 /\
  to_uint32 (-358) = 4294966938 /\
  memcpy_buf (-358) w = None /\
  forall E fuel, ast_lantiq_write E (S fuel) 0 frame w = None.
Proof.
  intros frame w.
  assert (subframes_of frame 10 = 5000000) as Hsub by (vm_compute; reflexivity).
  assert (initial_length frame 5000000 = -358) as Hlen by (vm_compute; reflexivity).
  assert (next_length frame 0 (-358) = -358) as Hnext by (vm_compute; reflexivity).
  do 6 (split; [vm_compute; reflexivity|]).
  intros E fuel.
  rewrite (ast_lantiq_write_voice E (S fuel) 0 frame w (example_chan 0) 0
             (example_pvt 0 INCALL EmptyString (Some 0%nat))
             (example_pvt 0 INCALL EmptyString (Some 0%nat)))
    by (reflexivity || discriminate).
  change (ptime (example_pvt 0 INCALL EmptyString (Some 0%nat))) with 10.
  rewrite Hsub, Hlen. change (10 =? 0) with false. change (5000000 =? 0) with false. cbn iota.
  apply write_loop_overrun with (p := example_pvt 0 INCALL EmptyString (Some 0%nat));
    [reflexivity|discriminate|reflexivity|lia|].
  rewrite Hnext. unfold RTP_BUFFER_LEN, RTP_HEADER_LEN. lia.
Qed.
(** ** Call origination *)

Section OriginationClaim.
Variable E : env.

(** A request for a port of the table: no cause is stored, a port that is
    not ONHOOK gives no channel and changes nothing, an ONHOOK port gives a
    channel exactly when one can be allocated and the format is 0 or known
    to [lantiq_conf_enc], and no port changes its state. *)
Lemma ast_lantiq_requester_port w format d q :
  d <> EmptyString ->
  1 <= atoi d <= channels (dev_ctx w) ->
  pvt_lookup (iflist w) (atoi d - 1) = Some q ->
  exists r w' t,
    ast_lantiq_requester E format (Some d) w = Some ((r, None), w', t) /\
    (channel_state q <> ONHOOK -> r = None /\ w' = w /\ t = []) /\
    (channel_state q = ONHOOK ->
       (is_Some r <->
          ast_channel_alloc_ok E = true /\
          (format = FORMAT_ZERO \/ is_Some (conf_enc_case format)))) /\
    (forall c, channel_state <$> pvt_lookup (iflist w') c =
               channel_state <$> pvt_lookup (iflist w) c).
Proof.
  intros Hne Hr Hq. unfold ast_lantiq_requester.
  destruct d as [|a d]; [done|]. set (s := String a d) in *.
  assert (to_int (atoi s - 1) = atoi s - 1) as Hi.
  { pose proof (atoi_range s). apply to_int_small. lia. }
  match goal with |- exists r w' t, ?m w = Some ((r, None), w', t) /\ @?P r w' t =>
    assert (wp m w (fun rc w' t => rc.2 = None /\ P rc.1 w' t))
      as ([r c] & w' & t & Hrun & Hc & HP)
  end.
  2:{ cbn in Hc. subst c. by exists r, w', t. }
  wp_go.
  assert ((atoi s <? 1) = false) as -> by (apply Z.ltb_ge; lia).
  assert ((channels (dev_ctx w) <? atoi s) = false) as -> by (apply Z.ltb_ge; lia).
  cbn [orb]. rewrite Hi. wp_go.
  destruct (decide (channel_state q = ONHOOK)) as [Hs|Hs].
  - apply not_state_eq_ONHOOK_false in Hs as Hguard. rewrite Hguard.
    wp_step. eapply wp_lantiq_channel; [done| |].
    + intros Hfail. wp_go. cbn. split; [done|]. split; [done|]. split; [|done].
      intros _. split; [by intros [? ?]|]. intros [Hok _]. congruence.
    + intros Hok t. wp_go. cbn [fst snd]. split; [done|]. split; [done|]. split.
      * intros _. unfold channel_result.
        destruct (decide (format = FORMAT_ZERO)) as [->|Hf].
        { split; [by intros; split; [|left]|by eexists]. }
        destruct (conf_enc_case format) as [x|].
        { split; [by intros; split; [|right; eexists]|by eexists]. }
        split; [by intros [? ?]|]. intros [_ [?|[? ?]]]; done.
      * intros c. cbn [iflist].
        destruct (decide (c = atoi s - 1)) as [->|Hc].
        -- erewrite pvt_lookup_insert_eq by done. rewrite Hq. cbn.
           by rewrite channel_pvt_state.
        -- unfold pvt_lookup. destruct (Z.ltb_spec c 0); [done|].
           rewrite list_lookup_insert_ne; [done|]. apply pvt_lookup_Some in Hq as [? _]. lia.
  - apply not_state_eq_ONHOOK in Hs as Hguard. rewrite Hguard.
    wp_go. cbn. done.
Qed.

(** C1.  Of the two entry points of a call origination, [ast_lantiq_call]
    is the one that refuses with a busy indication exactly when the port is
    not ONHOOK and that makes the port ring; [ast_lantiq_requester] refuses
    silently and never changes a port's state.  [ast_lantiq_call],
    for a channel [ast] bound to port [pvt]: (1) when the port is not
    ONHOOK the call returns -1 after setting AST_STATE_BUSY and queueing
    AST_CONTROL_BUSY, and [iflist] is unchanged; (2) when it is ONHOOK (and
    ringing with caller id does not meet a NULL name) the call returns 0
    and the port is RINGING; (3) whenever the call returns, it returned the
    busy indication iff the port was not ONHOOK.  [ast_lantiq_requester],
    for a destination naming port [q] of the table: (4) no cause is stored,
    busy or other; a port that is not ONHOOK gives no channel, with the
    world unchanged and nothing done; an ONHOOK port gives a channel
    exactly when the channel can be allocated and the format is 0 or known
    to [lantiq_conf_enc]; and no port changes its state, so that an ONHOOK
    port is still ONHOOK after an accepted request: it rings with
    [ast_lantiq_call]. *)
Theorem origination_call_busy_iff_not_onhook w ast ch pvt p :
  chans w !! ast = Some ch ->
  tech_pvt ch = Some pvt ->
  pvt_lookup (iflist w) pvt = Some p ->
  (channel_state p <> ONHOOK ->
     exists w', ast_lantiq_call E ast w =
                  Some (-1, w', [AstSetstate ast AST_STATE_BUSY;
                                 AstQueueControl ast AST_CONTROL_BUSY]) /\
                iflist w' = iflist w) /\
  (channel_state p = ONHOOK -> cid_of ch = None \/ name_of ch <> None ->
     exists w' t, ast_lantiq_call E ast w = Some (0, w', t) /\
                  pvt_lookup (iflist w') pvt = Some (set_channel_state RINGING p)) /\
  (forall r w' t, ast_lantiq_call E ast w = Some (r, w', t) ->
     (busy_indication ast r t <-> channel_state p <> ONHOOK) /\
     (r <> -1 -> channel_state <$> pvt_lookup (iflist w') pvt = Some RINGING)) /\
  (forall format d q,
     d <> EmptyString ->
     1 <= atoi d <= channels (dev_ctx w) ->
     pvt_lookup (iflist w) (atoi d - 1) = Some q ->
     exists r w' t,
       ast_lantiq_requester E format (Some d) w = Some ((r, None), w', t) /\
       (channel_state q <> ONHOOK -> r = None /\ w' = w /\ t = []) /\
       (channel_state q = ONHOOK ->
          (is_Some r <->
             ast_channel_alloc_ok E = true /\
             (format = FORMAT_ZERO \/ is_Some (conf_enc_case format)))) /\
       (forall c, channel_state <$> pvt_lookup (iflist w') c =
                  channel_state <$> pvt_lookup (iflist w) c)).
Proof.
  intros Hch Htp Hp. split; [|split; [|split]].
  - intros Hs. rewrite (ast_lantiq_call_busy E w ast ch pvt p) by done.
    eexists. split; [reflexivity|done].
  - intros Hs Hcid.
    destruct (ast_lantiq_call_ring E w ast ch pvt p) as (t & Heq & _); try done.
    eexists _, t. split; [done|]. cbn. by eapply pvt_lookup_insert_eq.
  - intros r w' t Hrun.
    destruct (decide (channel_state p = ONHOOK)) as [Hs|Hs].
    + assert (cid_of ch = None \/ name_of ch <> None) as Hcid.
      { destruct (cid_of ch) eqn:Hc; [|by left]. right. intros Hn.
        revert Hrun. unfold ast_lantiq_call, bind, load_chan. rewrite Hch, Htp. cbn.
        unfold load_pvt. rewrite Hp, Hs. fold (cid_of ch) (name_of ch).
        rewrite Hc, Hn. done. }
      destruct (ast_lantiq_call_ring E w ast ch pvt p) as (t' & Heq & Hin & Hnin); try done.
      rewrite Heq in Hrun. simplify_eq. split.
      * unfold busy_indication. split; [intros [? _]; done|done].
      * intros _. cbn. by erewrite pvt_lookup_insert_eq.
    + rewrite (ast_lantiq_call_busy E w ast ch pvt p) in Hrun by done. simplify_eq. split.
      * unfold busy_indication. split; [done|]. intros _. split; [done|set_solver].
      * done.
  - intros format d q. apply ast_lantiq_requester_port.
Qed.

End OriginationClaim.

(** On the example board, whose port 1 is off hook and owned by channel 0
    and whose port 2 is idle: a call to port 1 is refused, busy, and the
    port table is left as it was; a request for port 2 gives a channel and
    leaves port 2 in state ONHOOK. *)
Lemma origination_call_busy_example :
  (exists w',
     ast_lantiq_call (example_env true (fun _ => 0)) 0 (example_world OFFHOOK EmptyString) =
       Some (-1, w', [AstSetstate 0 AST_STATE_BUSY; AstQueueControl 0 AST_CONTROL_BUSY]) /\
     iflist w' = iflist (example_world OFFHOOK EmptyString)) /\
  (exists r w' t,
     ast_lantiq_requester (example_env true (fun _ => 0)) FORMAT_ZERO (Some "2"%string)
       (example_world OFFHOOK EmptyString) = Some ((r, None), w', t) /\
     is_Some r /\
     channel_state <$> pvt_lookup (iflist w') 1 = Some ONHOOK).
Proof.
  destruct (origination_call_busy_iff_not_onhook (example_env true (fun _ => 0))
              (example_world OFFHOOK EmptyString) 0%nat (example_chan 0) 0
              (example_pvt 0 OFFHOOK EmptyString (Some 0%nat)) eq_refl eq_refl eq_refl)
    as (Hbusy & _ & _ & Hreq).
  split.
  - apply Hbusy. discriminate.
  - destruct (Hreq FORMAT_ZERO "2"%string (example_pvt 1 ONHOOK EmptyString None))
      as (r & w' & t & Hrun & _ & Hacc & Hst).
    + discriminate.
    + change (1 <= 2 <= 2). lia.
    + reflexivity.
    + exists r, w', t. split; [exact Hrun|]. split.
      * apply (Hacc eq_refl). split; [reflexivity|]. left. reflexivity.
      * rewrite Hst. reflexivity.
Defined.

(** Requests on the example board, whose port 1 is off hook and whose port
    2 is idle.  The request for port 1 is refused without a busy
    indication: no cause is stored and nothing is done.  The request for
    port 2 is accepted, and port 2 is in state ONHOOK afterwards, not
    RINGING.  And when no channel can be allocated the request for the idle
    port 2 is refused. *)
Lemma origination_requester_counterexample :
  let w := example_world OFFHOOK EmptyString in
  ast_lantiq_requester (example_env true (fun _ => 0)) FORMAT_ZERO (Some "1"%string) w =
    Some ((None, None), w, []) /\
  (exists w' t,
     ast_lantiq_requester (example_env true (fun _ => 0)) FORMAT_ZERO (Some "2"%string) w =
       Some ((Some 1%nat, None), w', t) /\
     channel_state <$> pvt_lookup (iflist w) 1 = Some ONHOOK /\
     channel_state <$> pvt_lookup (iflist w') 1 = Some ONHOOK /\
     channel_state <$> pvt_lookup (iflist w') 1 <> Some RINGING) /\
  channel_state <$> pvt_lookup (iflist w) 1 = Some ONHOOK /\
  ast_lantiq_requester (example_env false (fun _ => 0)) FORMAT_ZERO (Some "2"%string) w =
    Some ((None, None), w, []).
Proof.
  intros w. split; [vm_compute; reflexivity|]. split; [|split; vm_compute; reflexivity].
  let run := constr:(ast_lantiq_requester (example_env true (fun _ => 0)) FORMAT_ZERO
                       (Some "2"%string) w) in
  let v := eval vm_compute in run in
  assert (run = v) as Hrun by (vm_compute; reflexivity).
  eexists _, _. split; [exact Hrun|].
  split; [vm_compute; reflexivity|]. split; [vm_compute; reflexivity|]. vm_compute. discriminate.
Qed.
(** ** The port table *)

Lemma seqZ_S k (n : nat) : seqZ k (Z.of_nat (S n)) = k :: seqZ (k + 1) (Z.of_nat n).
Proof.
  rewrite seqZ_cons by lia. f_equal. f_equal; lia.
Qed.

(** On a block that has room for them the loop initialises the entries one
    after the other. *)
Lemma create_pvts_loop_fits b : forall (n : nat) k pre,
  Z.of_nat (length pre) = k ->
  create_pvts_loop b (seqZ k (Z.of_nat n)) (pre ++ replicate n calloc_pvt) =
    Some (pre ++ ((fun i => create_pvt b i calloc_pvt) <$> seqZ k (Z.of_nat n))).
Proof.
  induction n as [|n IH]; intros k pre Hk.
  { by rewrite seqZ_nil by done. }
  rewrite seqZ_S. cbn [create_pvts_loop replicate fmap list_fmap].
  assert (pvt_lookup (pre ++ calloc_pvt :: replicate n calloc_pvt) k = Some calloc_pvt) as ->.
  { apply pvt_lookup_Some. split; [lia|].
    rewrite lookup_app_r by lia. by replace (Z.to_nat k - length pre)%nat with 0%nat by lia. }
  replace (Z.to_nat k) with (length pre + 0)%nat by lia.
  rewrite insert_app_r. cbn [insert list_insert].
  rewrite (cons_middle _ pre (replicate n calloc_pvt)), (cons_middle _ pre (_ <$> _)).
  rewrite !app_assoc. apply IH. rewrite length_app. cbn. lia.
Qed.

(** On a block that is too small the loop writes past its end. *)
Lemma create_pvts_loop_overrun b : forall (n : nat) k table,
  0 <= k -> (0 < n)%nat ->
  Z.of_nat (length table) < k + Z.of_nat n ->
  create_pvts_loop b (seqZ k (Z.of_nat n)) table = None.
Proof.
  induction n as [|n IH]; intros k table Hk Hn Hlen; [lia|].
  rewrite seqZ_S. cbn [create_pvts_loop].
  destruct (pvt_lookup table k) as [p|] eqn:Hp; [|done].
  apply pvt_lookup_Some in Hp as [_ Hp]. apply lookup_lt_Some in Hp.
  apply IH; [lia|lia|]. rewrite length_insert. lia.
Qed.

Section PortTable.
Variable sizeof_pvt : Z.
Hypothesis sizeof_pos : 0 < sizeof_pvt.
Variable ast_calloc : Z -> bool.

(** X26.  [lantiq_create_pvts] for a channel count that is an [int], an
    entry size [sizeof_pvt > 0] and an allocator [ast_calloc].  The byte
    count asked for is [sizeof_pvt * channels] computed in the 32 bits of
    [size_t].  (1) When the allocation fails the result is -1 and [iflist]
    is NULL; [load_module] does not look at the result.  (2) When it
    succeeds for a count that is not negative and whose byte count fits 32
    bits, the result is 0 and the table has exactly [channels] entries,
    entry [i] with port number [i], state UNKNOWN, no owner, an empty digit
    buffer and the context "default" or, with per-channel contexts,
    "lantiq" followed by [i + 1]: it is the table of [load_world].  (3) When
    it succeeds for a positive count whose byte count does not fit 32 bits,
    the block is smaller than the table and the loop writes past its end.
    (4) When it succeeds for a negative count the result is 0 and no entry
    is initialised. *)
Theorem lantiq_create_pvts_table b n :
  - 2 ^ 31 <= n < 2 ^ 31 ->
  let size := to_uint32 (sizeof_pvt * to_uint32 n) in
  (ast_calloc size = false ->
     lantiq_create_pvts sizeof_pvt ast_calloc b n = Some (-1, [])) /\
  (ast_calloc size = true -> 0 <= n -> sizeof_pvt * n < 2 ^ 32 ->
     exists table,
       lantiq_create_pvts sizeof_pvt ast_calloc b n = Some (0, table) /\
       (forall ctx, channels ctx = n -> table = iflist (load_world b ctx)) /\
       length table = Z.to_nat n /\
       forall i, 0 <= i < n ->
         exists p, pvt_lookup table i = Some p /\
           port_id p = i /\ channel_state p = UNKNOWN /\ owner p = None /\
           dtmfbuf p = EmptyString /\ dtmfbuf_len p = 0 /\
           context p = if b then (LANTIQ_CONTEXT_PREFIX +:+ pretty (i + 1))%string
                       else "default"%string) /\
  (ast_calloc size = true -> 0 < n -> 2 ^ 32 <= sizeof_pvt * n ->
     lantiq_create_pvts sizeof_pvt ast_calloc b n = None) /\
  (ast_calloc size = true -> n < 0 ->
     exists table,
       lantiq_create_pvts sizeof_pvt ast_calloc b n = Some (0, table) /\
       Forall (fun p => p = calloc_pvt) table).
Proof.
  intros Hn size. unfold lantiq_create_pvts. fold size.
  split; [by intros ->|]. split; [|split].
  - intros -> H0 Hfit.
    assert (size = sizeof_pvt * n) as Hsize.
    { unfold size, to_uint32. rewrite (Z.mod_small n) by lia. apply Z.mod_small. nia. }
    assert (Z.to_nat (size ÷ sizeof_pvt) = Z.to_nat n) as ->.
    { rewrite Hsize, Z.mul_comm, Z.quot_mul by lia. done. }
    pose proof (create_pvts_loop_fits b (Z.to_nat n) 0 [] eq_refl) as Hloop.
    rewrite Z2Nat.id in Hloop by done. cbn [app] in Hloop. rewrite Hloop.
    eexists. split; [reflexivity|]. split; [by intros ctx <-|].
    split; [by rewrite length_fmap, length_seqZ|].
    intros i Hi. eexists. split.
    + apply pvt_lookup_Some. split; [lia|].
      rewrite list_lookup_fmap, (lookup_seqZ_lt _ _ (Z.to_nat i)) by lia. cbn. reflexivity.
    + rewrite Z2Nat.id by lia. cbn. by replace (0 + i) with i by lia.
  - intros -> H0 Hbig.
    assert (seqZ 0 n = seqZ 0 (Z.of_nat (Z.to_nat n))) as -> by (f_equal; lia).
    rewrite create_pvts_loop_overrun; [done|done|clear -H0; lia|].
    assert (0 <= size < 2 ^ 32) as Hsize by (apply Z.mod_pos_bound; lia).
    assert (0 <= size ÷ sizeof_pvt) as Hq by (apply Z.quot_pos; lia).
    rewrite length_replicate, !Z2Nat.id by lia.
    assert (size ÷ sizeof_pvt < n); [|lia].
    apply Z.quot_lt_upper_bound; [lia|lia|nia].
  - intros -> Hneg. rewrite seqZ_nil by lia. cbn [create_pvts_loop].
    eexists. split; [reflexivity|]. by apply Forall_replicate.
Qed.

End PortTable.

(** With entries of 232 bytes and an allocator that gives up to 64 KiB, a
    board with two ports gets a table of two entries, the second one with
    port number 1 and the context "lantiq2". *)
Lemma lantiq_create_pvts_example :
  exists table p,
    lantiq_create_pvts 232 (fun size => size <=? 65536) true 2 = Some (0, table) /\
    length table = 2%nat /\
    pvt_lookup table 1 = Some p /\ port_id p = 1 /\ channel_state p = UNKNOWN /\
    context p = "lantiq2"%string.
Proof.
  assert (- 2 ^ 31 <= 2 < 2 ^ 31) as Hn by lia.
  destruct (proj1 (proj2 (lantiq_create_pvts_table 232 ltac:(lia) (fun size => size <=? 65536)
                            true 2 Hn)))
    as (table & Hrun & _ & Hlen & Hentry); [reflexivity|lia|lia|].
  destruct (Hentry 1 ltac:(lia)) as (p & Hp & Hid & Hs & _ & _ & _ & Hctx).
  exists table, p. split; [exact Hrun|]. split; [exact Hlen|]. split; [exact Hp|].
  split; [exact Hid|]. split; [exact Hs|exact Hctx].
Defined.
(** ** The channel devices *)

(** X27.  The loop of [load_module] that opens the channel devices runs
    [c] from 0 up to [dev_ctx.channels] and stores into [ch_fd[c]] and
    [ch_led[c]], arrays of TAPI_AUDIO_PORT_NUM_MAX elements.  When the
    devices of the first TAPI_AUDIO_PORT_NUM_MAX channels open: with more
    channels than TAPI_AUDIO_PORT_NUM_MAX the loop stores
    [ch_fd[TAPI_AUDIO_PORT_NUM_MAX]], past the end of the array; with at
    most TAPI_AUDIO_PORT_NUM_MAX channels it ends within the arrays, which
    then hold the descriptor and the LED name "fxs" followed by [c + 1] of
    every channel [c]. *)
Theorem load_module_open_channels_bounds lantiq_dev_open channels d :
  length (ch_fd d) = Z.to_nat TAPI_AUDIO_PORT_NUM_MAX ->
  length (ch_led d) = Z.to_nat TAPI_AUDIO_PORT_NUM_MAX ->
  (forall c, 0 <= c < TAPI_AUDIO_PORT_NUM_MAX -> 0 <= lantiq_dev_open (c + 1)) ->
  (TAPI_AUDIO_PORT_NUM_MAX < channels ->
     load_module_open_channels lantiq_dev_open (seqZ 0 channels) d = None) /\
  (channels <= TAPI_AUDIO_PORT_NUM_MAX ->
     exists d',
       load_module_open_channels lantiq_dev_open (seqZ 0 channels) d = Some (0, d') /\
       length (ch_fd d') = Z.to_nat TAPI_AUDIO_PORT_NUM_MAX /\
       length (ch_led d') = Z.to_nat TAPI_AUDIO_PORT_NUM_MAX /\
       forall c, 0 <= c < channels ->
         ch_fd d' !! Z.to_nat c = Some (lantiq_dev_open (c + 1)) /\
         ch_led d' !! Z.to_nat c = Some ("fxs" +:+ pretty (c + 1))%string).
Proof.
  unfold TAPI_AUDIO_PORT_NUM_MAX. intros Hfd Hled Hopen.
  destruct d as [fd led]. cbn [ch_fd ch_led] in *.
  destruct fd as [|f0 [|f1 [|? ?]]]; try done.
  destruct led as [|l0 [|l1 [|? ?]]]; try done.
  assert ((lantiq_dev_open 1 <? 0) = false) as H0 by (apply Z.ltb_ge, (Hopen 0); lia).
  assert ((lantiq_dev_open 2 <? 0) = false) as H1 by (apply Z.ltb_ge, (Hopen 1); lia).
  assert (forall cs,
    load_module_open_channels lantiq_dev_open (0 :: cs) {| ch_fd := [f0; f1]; ch_led := [l0; l1] |} =
    load_module_open_channels lantiq_dev_open cs
      {| ch_fd := [lantiq_dev_open 1; f1]; ch_led := ["fxs1"%string; l1] |}) as Hstep0.
  { intros cs. cbn [load_module_open_channels ch_fd ch_led length].
    change (0 + 1) with 1. change ((0 <=? 0) && (0 <? Z.of_nat 2)) with true.
    change (0 <? Z.of_nat 2) with true. cbn iota. by rewrite H0. }
  assert (forall cs a b,
    load_module_open_channels lantiq_dev_open (1 :: cs) {| ch_fd := [a; f1]; ch_led := [b; l1] |} =
    load_module_open_channels lantiq_dev_open cs
      {| ch_fd := [a; lantiq_dev_open 2]; ch_led := [b; "fxs2"%string] |}) as Hstep1.
  { intros cs a b. cbn [load_module_open_channels ch_fd ch_led length].
    change (1 + 1) with 2. change ((0 <=? 1) && (1 <? Z.of_nat 2)) with true.
    change (1 <? Z.of_nat 2) with true. cbn iota. by rewrite H1. }
  split.
  - intros Hn.
    rewrite (seqZ_cons 0), (seqZ_cons (Z.succ 0)), (seqZ_cons (Z.succ (Z.succ 0))) by lia.
    change (Z.succ 0) with 1. change (Z.succ 1) with 2.
    rewrite Hstep0, Hstep1. reflexivity.
  - intros Hn.
    destruct (Z_le_gt_dec channels 0) as [Hz|Hpos1].
    { rewrite seqZ_nil by done. eexists. split; [reflexivity|].
      split; [done|]. split; [done|]. intros c Hc. lia. }
    destruct (Z.eq_dec channels 1) as [->|Hne].
    { change (seqZ 0 1) with [0]. rewrite Hstep0. eexists. split; [reflexivity|].
      split; [done|]. split; [done|]. intros c Hc. by replace c with 0 by lia. }
    replace channels with 2 by lia.
    change (seqZ 0 2) with [0; 1]. rewrite Hstep0, Hstep1. eexists. split; [reflexivity|].
    split; [done|]. split; [done|]. intros c Hc.
    destruct (Z.eq_dec c 0) as [->|?]; [done|]. by replace c with 1 by lia.
Qed.

(** With three channels configured and every device opening, the third
    pass of the loop stores past [ch_fd]. *)
Lemma load_module_open_channels_example :
  load_module_open_channels (fun c => 10 + c) (seqZ 0 3)
    {| ch_fd := [0; 0]; ch_led := [EmptyString; EmptyString] |} = None.
Proof.
  refine (proj1 (load_module_open_channels_bounds (fun c => 10 + c) 3
                   {| ch_fd := [0; 0]; ch_led := [EmptyString; EmptyString] |} _ _ _) _).
  - reflexivity.
  - reflexivity.
  - intros c Hc. lia.
  - unfold TAPI_AUDIO_PORT_NUM_MAX. lia.
Defined.
